(** * Policy-as-code reporting: the compliance evaluation engine

    A shallow embedding of [reporting/compliance_report.py],
    [reporting/cli.py] and the generators under [reporting/generators/],
    with the properties of the violation normalizer, the control
    evaluator, the framework aggregator and the summary statistics.

    Python values are the values [json.load] builds; an operation that
    raises in Python returns [Raise] here. *)

From Stdlib Require Import String Ascii List ZArith QArith Qround Qabs Bool Lia Lqa.
From Stdlib Require Import DecimalString.
Import ListNotations.

Local Open Scope string_scope.
Local Open Scope Z_scope.

(** ** Python values and the operations the reporting code applies to them *)

Module Py.

(** What [json.load] returns.  Numbers are the integers: no function of
    this development computes with a number it read, and JSON numbers
    with a fraction or an exponent are left out.  A dict keeps its
    items in insertion order and its keys are pairwise distinct;
    lookups take the first binding of a key. *)
#[local] Set Warnings "-register-all".

Inductive value : Type :=
| VNone
| VBool (b : bool)
| VInt (n : Z)
| VStr (s : string)
| VList (items : list value)
| VDict (items : list (string * value)).

Inductive exn : Type :=
| AttributeError
| TypeError
| KeyError
| ValueError (msg : string)
| JSONDecodeError
| FileNotFoundError.

Inductive result (A : Type) : Type :=
| Ok (a : A)
| Raise (e : exn).
Arguments Ok {A} a.
Arguments Raise {A} e.

Definition bind {A B} (m : result A) (k : A -> result B) : result B :=
  match m with
  | Ok a => k a
  | Raise e => Raise e
  end.

(** [for x in xs: acc = body(acc, x)], stopping at the first exception. *)
Fixpoint for_each {A S} (xs : list A) (body : S -> A -> result S) (acc : S)
  : result S :=
  match xs with
  | [] => Ok acc
  | x :: rest => bind (body acc x) (for_each rest body)
  end.

(** Lookup in an insertion-ordered dict. *)
Fixpoint dict_get {V} (d : list (string * V)) (key : string) : option V :=
  match d with
  | [] => None
  | (k, v) :: rest => if String.eqb k key then Some v else dict_get rest key
  end.

Definition dict_keys {V} (d : list (string * V)) : list string := map fst d.

(** [key in d] *)
Definition dict_has {V} (d : list (string * V)) (key : string) : bool :=
  match dict_get d key with Some _ => true | None => false end.

(** [d[key] = v]: the value of an existing key is replaced in place, a
    new key goes to the end. *)
Fixpoint dict_set {V} (d : list (string * V)) (key : string) (v : V)
  : list (string * V) :=
  match d with
  | [] => [(key, v)]
  | (k, w) :: rest =>
      if String.eqb k key then (k, v) :: rest else (k, w) :: dict_set rest key v
  end.

(** [x.get(key, default)]: only a dict has the method. *)
Definition get (x : value) (key : string) (default : value) : result value :=
  match x with
  | VDict d => Ok (match dict_get d key with Some v => v | None => default end)
  | _ => Raise AttributeError
  end.

(** [s.startswith(prefix)] on strings: [prefix] is an initial segment of
    [s], character for character. *)
Definition str_startswith (s prefix : string) : bool := String.prefix prefix s.

(** [x.startswith(prefix)]: only a str has the method. *)
Definition startswith (x : value) (prefix : string) : result bool :=
  match x with
  | VStr s => Ok (str_startswith s prefix)
  | _ => Raise AttributeError
  end.

(** [isinstance(x, dict)], [isinstance(x, list)] *)
Definition is_dict (x : value) : bool :=
  match x with VDict _ => true | _ => false end.
Definition is_list (x : value) : bool :=
  match x with VList _ => true | _ => false end.

Fixpoint chars (s : string) : list value :=
  match s with
  | EmptyString => []
  | String c rest => VStr (String c EmptyString) :: chars rest
  end.

(** The items [for x in v] and [list(v)] go through: the elements of a
    list, the characters of a str, the keys of a dict. *)
Definition iter (v : value) : result (list value) :=
  match v with
  | VList l => Ok l
  | VStr s => Ok (chars s)
  | VDict d => Ok (map VStr (dict_keys d))
  | _ => Raise TypeError
  end.

(** [len(v)] *)
Definition len (v : value) : result Z :=
  match v with
  | VList l => Ok (Z.of_nat (List.length l))
  | VStr s => Ok (Z.of_nat (String.length s))
  | VDict d => Ok (Z.of_nat (List.length d))
  | _ => Raise TypeError
  end.

(** [str(n)] for an int. *)
Definition str_of_int (n : Z) : string := NilZero.string_of_int (Z.to_int n).

Definition hex_digit (n : N) : ascii :=
  match n with
  | 0%N => "0" | 1%N => "1" | 2%N => "2" | 3%N => "3" | 4%N => "4"
  | 5%N => "5" | 6%N => "6" | 7%N => "7" | 8%N => "8" | 9%N => "9"
  | 10%N => "a" | 11%N => "b" | 12%N => "c" | 13%N => "d" | 14%N => "e"
  | _ => "f"
  end%char.

Fixpoint str_contains (c : ascii) (s : string) : bool :=
  match s with
  | EmptyString => false
  | String d rest => Ascii.eqb c d || str_contains c rest
  end.

Definition backslash : ascii := ascii_of_nat 92.
Definition single_quote : ascii := ascii_of_nat 39.
Definition double_quote : ascii := ascii_of_nat 34.

Definition escape (c : ascii) : string := String backslash (String c EmptyString).

(** [repr(s)] for a str: single quotes unless the text has a single
    quote and no double quote; backslash, the quote in use and the
    control characters are escaped. *)
Definition repr_char (quote c : ascii) : string :=
  let n := N_of_ascii c in
  if Ascii.eqb c quote || Ascii.eqb c backslash then escape c
  else if N.eqb n 9 then escape "t"
  else if N.eqb n 10 then escape "n"
  else if N.eqb n 13 then escape "r"
  else if N.ltb n 32 || N.eqb n 127 then
    String backslash (String "x"
      (String (hex_digit (N.div n 16)) (String (hex_digit (N.modulo n 16)) EmptyString)))
  else String c EmptyString.

Fixpoint repr_chars (quote : ascii) (s : string) : string :=
  match s with
  | EmptyString => EmptyString
  | String c rest => repr_char quote c ++ repr_chars quote rest
  end.

Definition repr_str (s : string) : string :=
  let quote :=
    if str_contains single_quote s && negb (str_contains double_quote s)
    then double_quote else single_quote in
  String quote (repr_chars quote s ++ String quote EmptyString).

Fixpoint join (sep : string) (parts : list string) : string :=
  match parts with
  | [] => EmptyString
  | [p] => p
  | p :: rest => p ++ sep ++ join sep rest
  end.

(** [repr(v)] *)
Fixpoint repr (v : value) : string :=
  match v with
  | VNone => "None"
  | VBool true => "True"
  | VBool false => "False"
  | VInt n => str_of_int n
  | VStr s => repr_str s
  | VList l => "[" ++ join ", " (map repr l) ++ "]"
  | VDict d =>
      "{" ++ join ", " (map (fun kv => repr_str (fst kv) ++ ": " ++ repr (snd kv)) d) ++ "}"
  end.

(** [f"{v}"]: a str as it is, anything else by its [repr]. *)
Definition format (v : value) : string :=
  match v with
  | VStr s => s
  | _ => repr v
  end.

End Py.
Import Py.

Notation "x <- m ;; k" := (bind m (fun x => k))
  (at level 61, m at next level, right associativity).


(** ** The control registry ([FRAMEWORK_CONTROLS]) *)

Record control : Type := {
  title : string;
  description : string;
  policy_mappings : list string
}.

(** A framework's controls in the order the source lists them:
    [framework["controls"].items()] goes through them in that order. *)
Record framework : Type := {
  fw_name : string;
  fw_description : string;
  fw_controls : list (string * control)
}.

Definition registry : Type := list (string * framework).

Definition sox : framework := {|
  fw_name := "SOX (Sarbanes-Oxley Act)";
  fw_description := "Financial reporting integrity and internal controls";
  fw_controls := [
    ("SOX-302", {|
      title := "Management Assessment of Internal Controls";
      description := "CEO/CFO certification of internal controls over financial reporting";
      policy_mappings := [
        "aws.security.iam_mfa";
        "aws.compliance.sox";
        "azure.security.key_vault" ] |});
    ("SOX-404", {|
      title := "Internal Control Assessment";
      description := "Document and assess effectiveness of internal controls";
      policy_mappings := [
        "aws.security.s3_encryption";
        "aws.compliance.sox";
        "azure.security.storage_encryption" ] |});
    ("SOX-ITGC", {|
      title := "IT General Controls";
      description := "IT controls supporting financial reporting systems";
      policy_mappings := [
        "aws.security.kms_encryption";
        "aws.compliance.sox";
        "aws.tagging.required_tags" ] |}) ]
|}.

Definition pci : framework := {|
  fw_name := "PCI DSS";
  fw_description := "Payment Card Industry Data Security Standard";
  fw_controls := [
    ("PCI-REQ-1", {|
      title := "Install and Maintain Firewall Configuration";
      description := "Protect cardholder data with firewall and router configuration";
      policy_mappings := [
        "aws.security.ec2_security_groups";
        "azure.security.network_security" ] |});
    ("PCI-REQ-2", {|
      title := "Do Not Use Vendor-Supplied Defaults";
      description := "Change default passwords and security parameters";
      policy_mappings := [
        "aws.compliance.pci_dss" ] |});
    ("PCI-REQ-3", {|
      title := "Protect Stored Cardholder Data";
      description := "Encrypt transmission of cardholder data";
      policy_mappings := [
        "aws.security.s3_encryption";
        "aws.security.kms_encryption";
        "azure.security.storage_encryption";
        "aws.compliance.pci_dss" ] |});
    ("PCI-REQ-7", {|
      title := "Restrict Access by Business Need-to-Know";
      description := "Limit access to cardholder data by business need to know";
      policy_mappings := [
        "aws.security.s3_public_access";
        "aws.security.iam_mfa";
        "aws.compliance.pci_dss" ] |});
    ("PCI-REQ-8", {|
      title := "Identify and Authenticate Access";
      description := "Assign unique ID to each person with computer access";
      policy_mappings := [
        "aws.security.iam_mfa";
        "aws.compliance.pci_dss" ] |});
    ("PCI-REQ-10", {|
      title := "Track and Monitor Access";
      description := "Track and monitor all access to network resources and cardholder data";
      policy_mappings := [
        "aws.compliance.pci_dss";
        "aws.compliance.sox" ] |}) ]
|}.

Definition ffiec : framework := {|
  fw_name := "FFIEC Cybersecurity Assessment";
  fw_description := "Federal Financial Institutions Examination Council - Cybersecurity maturity";
  fw_controls := [
    ("FFIEC-D1", {|
      title := "Cyber Risk Management and Oversight";
      description := "Establish cybersecurity governance";
      policy_mappings := [
        "aws.tagging.required_tags";
        "aws.compliance.ffiec" ] |});
    ("FFIEC-D2", {|
      title := "Threat Intelligence and Collaboration";
      description := "Monitor and respond to cyber threats";
      policy_mappings := [
        "aws.compliance.ffiec" ] |});
    ("FFIEC-D3", {|
      title := "Cybersecurity Controls";
      description := "Implement preventative and detective controls";
      policy_mappings := [
        "aws.security.s3_encryption";
        "aws.security.kms_encryption";
        "aws.security.ec2_security_groups";
        "azure.security.storage_encryption";
        "azure.security.network_security";
        "aws.compliance.ffiec" ] |});
    ("FFIEC-D4", {|
      title := "External Dependency Management";
      description := "Manage third-party and supply chain risks";
      policy_mappings := [
        "aws.compliance.ffiec" ] |});
    ("FFIEC-D5", {|
      title := "Cyber Incident Management and Resilience";
      description := "Detect, respond, and recover from incidents";
      policy_mappings := [
        "aws.compliance.ffiec" ] |}) ]
|}.

Definition glba : framework := {|
  fw_name := "GLBA";
  fw_description := "Gramm-Leach-Bliley Act - Financial privacy and consumer data protection (Updated for 2023 FTC Final Rule and 2024 Breach Notification Rule)";
  fw_controls := [
    ("GLBA-SAFEGUARDS", {|
      title := "Safeguards Rule - Data Protection";
      description := "Administrative, technical, and physical safeguards to protect nonpublic personal information (NPI)";
      policy_mappings := [
        "aws.compliance.glba";
        "aws.security.s3_encryption";
        "aws.security.kms_encryption";
        "azure.security.storage_encryption" ] |});
    ("GLBA-ACCESS", {|
      title := "Access Control - Limit NPI Access";
      description := "Limit access to customer information to authorized personnel only";
      policy_mappings := [
        "aws.compliance.glba";
        "aws.security.s3_public_access";
        "aws.security.iam_mfa";
        "aws.security.ec2_security_groups";
        "azure.security.key_vault";
        "azure.security.network_security" ] |});
    ("GLBA-MONITORING", {|
      title := "Security Monitoring - Continuous Oversight";
      description := "Monitor systems, detect unauthorized access, and adapt to emerging threats";
      policy_mappings := [
        "aws.compliance.glba";
        "aws.compliance.sox";
        "aws.compliance.ffiec" ] |});
    ("GLBA-VENDOR", {|
      title := "Third-Party Oversight - Cloud/Hybrid Security";
      description := "Ensure cloud service providers maintain adequate data protection controls";
      policy_mappings := [
        "aws.compliance.glba";
        "aws.tagging.required_tags" ] |});
    ("GLBA-BREACH", {|
      title := "Breach Notification - 30-Day Requirement";
      description := "Report data breaches affecting 500+ customers within 30 days (2024 FTC Rule)";
      policy_mappings := [
        "aws.compliance.glba";
        "aws.compliance.sox" ] |}) ]
|}.

Definition FRAMEWORK_CONTROLS : registry :=
  [ ("sox", sox); ("pci", pci); ("ffiec", ffiec); ("glba", glba) ].

(** [self.frameworks.get(framework_name)] *)
Definition registry_get (frameworks : registry) (framework_name : string)
  : option framework :=
  dict_get frameworks framework_name.

(** ** Numbers: true division and [round(x, 1)]

    [total_score / total_controls] and [round(..., 1)] are computed on
    the rationals: [round_half_even] is the nearest integer, a tie going
    to the even one, and [round1] applies it to the tenths.  Python
    computes both on binary floating point numbers, with the same
    nearest tenth whenever ten times the quotient is not half-way
    between two integers; [registered_mean_never_tied] below shows that
    it never is for the frameworks of the registry. *)

Definition truediv (a b : Z) : Q := (inject_Z a / inject_Z b)%Q.

Definition round_half_even (x : Q) : Z :=
  let f := Qfloor x in
  match (x - inject_Z f ?= 1 # 2)%Q with
  | Lt => f
  | Gt => f + 1
  | Eq => if Z.even f then f else f + 1
  end.

Definition round1 (x : Q) : Q := (inject_Z (round_half_even (x * 10)) / 10)%Q.

(** ** Results of an evaluation *)

Record control_result : Type := {
  control_id : string;
  cr_title : string;
  cr_description : string;
  status : string;
  score : Z;
  findings : list string;
  evidence : list string
}.

Record framework_results : Type := {
  framework_name_of : string;
  fr_description : string;
  controls : list control_result;
  overall_score : Q;
  pass_count : Z;
  partial_count : Z;
  fail_count : Z
}.


(** ** Dicts keyed by a value read from the input

    [d[k] = d.get(k, 0) + 1] with [k] taken from a violation: [k] must
    be hashable, and keys are compared by [==]. *)

Definition hashable (v : value) : bool :=
  match v with
  | VList _ | VDict _ => false
  | _ => true
  end.

(** [a == b] on hashable values: [True == 1] and [False == 0]. *)
Definition key_eqb (a b : value) : bool :=
  match a, b with
  | VNone, VNone => true
  | VStr s, VStr t => String.eqb s t
  | VInt m, VInt n => m =? n
  | VBool x, VBool y => Bool.eqb x y
  | VBool x, VInt n | VInt n, VBool x => (if x then 1 else 0) =? n
  | _, _ => false
  end.

Definition counter : Type := list (value * Z).

(** [d.get(key, 0)] *)
Fixpoint counter_get (d : counter) (key : value) : Z :=
  match d with
  | [] => 0
  | (k, n) :: rest => if key_eqb k key then n else counter_get rest key
  end.

(** [d[key] = n] *)
Fixpoint counter_set (d : counter) (key : value) (n : Z) : counter :=
  match d with
  | [] => [(key, n)]
  | (k, m) :: rest =>
      if key_eqb k key then (k, n) :: rest else (k, m) :: counter_set rest key n
  end.

(** [d[key] = d.get(key, 0) + 1] *)
Definition count_up (d : counter) (key : value) : result counter :=
  if hashable key then Ok (counter_set d key (counter_get d key + 1))
  else Raise TypeError.

(** The same on a dict whose keys are strings of the program. *)
Definition tally (d : list (string * Z)) (key : string) : list (string * Z) :=
  dict_set d key (match dict_get d key with Some n => n | None => 0 end + 1).

(** [sum(d.values())] *)
Definition counter_total (d : counter) : Z :=
  fold_right (fun kn acc => snd kn + acc) 0 d.

(** [s.split(".")] *)
Fixpoint split (sep : ascii) (s : string) : list string :=
  match s with
  | EmptyString => [EmptyString]
  | String a rest =>
      if Ascii.eqb a sep then EmptyString :: split sep rest
      else match split sep rest with
           | [] => [String a EmptyString]
           | p :: ps => String a p :: ps
           end
  end.

(** ** Summaries of the general reports *)

(** What [HTMLReportGenerator._generate_summary] returns. *)
Record html_summary : Type := {
  total : Z;
  critical : Z;
  high : Z;
  medium : Z;
  low : Z;
  by_cloud : list (string * Z);
  by_category : list (string * Z)
}.

(** What [HTMLReportGenerator._group_violations] returns: a dict with the
    four keys it is created with. *)
Record grouped_violations : Type := {
  CRITICAL : list value;
  HIGH : list value;
  MEDIUM : list value;
  LOW : list value
}.

(** What [JSONReportGenerator._generate_summary] returns. *)
Record json_summary : Type := {
  total_violations : Z;
  by_severity : counter;
  by_policy : counter;
  json_by_cloud : list (string * Z)
}.

(** ** Files, the error stream and the clock

    Standard output is not part of the world: nothing the programs print
    there is read back.  Directories are not modelled, a file is known
    by the text of its path (two texts are two files), and the clock
    does not advance during a run. *)

Inductive content : Type :=
| NotJson (text : string)
| Json (document : value)
| ComplianceHtml (results : framework_results)
| PolicyHtml (generated_at : string) (summary : html_summary)
    (grouped : grouped_violations) (metadata : list (string * value))
| PolicyCsv (rows : list (list value)).

(** What reaches the error stream. *)
Inductive err_line : Type :=
| ErrorLoadingViolations (file_path : string) (e : exn)
| InputFileNotFound (file_path : string)
| InvalidJsonInInputFile (e : exn)
| ErrorReadingInputFile (e : exn)
| UsageError (argument : string)
| Traceback (e : exn).

Record clock : Type := {
  stamp : string;
  display : string;
  utc_iso : string
}.

Record world : Type := {
  files : list (string * content);
  stderr : list err_line;
  now : clock
}.

Definition exists_file (w : world) (path : string) : bool := dict_has (files w) path.

Definition write_file (w : world) (path : string) (c : content) : world :=
  {| files := dict_set (files w) path c; stderr := stderr w; now := now w |}.

Definition print_err (w : world) (line : err_line) : world :=
  {| files := files w; stderr := (stderr w ++ [line])%list; now := now w |}.

(** The dict [json.load] builds from an object: a repeated key keeps its
    first position and its last value. *)
Fixpoint loaded (v : value) : value :=
  match v with
  | VList l => VList (map loaded l)
  | VDict d =>
      VDict (fold_left (fun acc kv => dict_set acc (fst kv) (loaded (snd kv))) d [])
  | _ => v
  end.

(** [with path.open() as f: data = json.load(f)] *)
Definition json_load (w : world) (path : string) : result value :=
  match dict_get (files w) path with
  | None => Raise FileNotFoundError
  | Some (Json document) => Ok (loaded document)
  | Some _ => Raise JSONDecodeError
  end.

(** *** Paths

    The programs hold every path as a [pathlib] object (POSIX flavour):
    a root and the components between the slashes, the empty components
    and [.] left out ([..] is kept).  The store knows a file by the text
    of that object, [str(path)], which is what [open] receives. *)

(** The root: [//] for a text that starts with exactly two slashes, [/]
    for any other text that starts with a slash, none otherwise. *)
Definition path_root (s : string) : string :=
  match s with
  | String "/" (String "/" (String "/" _)) => "/"
  | String "/" (String "/" _) => "//"
  | String "/" _ => "/"
  | _ => EmptyString
  end.

Definition path_parts (s : string) : list string :=
  filter (fun part => negb (String.eqb part EmptyString || String.eqb part "."))
    (split "/" s).

(** [str] of the path with this root and these components *)
Definition path_text (root : string) (parts : list string) : string :=
  match root, parts with
  | EmptyString, [] => "."
  | _, _ => root ++ join "/" parts
  end.


(** [str(Path(dir) / name)] for a [name] of one component; the file
    names the programs build are such names. *)
Definition path_join (dir name : string) : string :=
  path_text (path_root dir) (path_parts dir ++ [name]).

(** How a run ends. *)
Inductive outcome : Type :=
| Returned
| SysExit (code : Z)
| Uncaught (e : exn).

Definition exit_code (o : outcome) : Z :=
  match o with
  | Returned => 0
  | SysExit code => code
  | Uncaught _ => 1
  end.

(** The interpreter's last step: an exception nobody caught is printed
    on the error stream. *)
Definition finish (r : outcome * world) : outcome * world :=
  match fst r with
  | Uncaught e => (fst r, print_err (snd r) (Traceback e))
  | _ => r
  end.

(** [x.split(sep)]: only a str has the method. *)
Definition str_split (x : value) (sep : ascii) : result (list string) :=
  match x with
  | VStr s => Ok (split sep s)
  | _ => Raise AttributeError
  end.

(** ** [generators/html_report.py]: class [HTMLReportGenerator] *)

Module HTMLReportGenerator.

(** The three dicts [_generate_summary] fills. *)
Record counts : Type := {
  severity_counts : counter;
  cloud_counts : list (string * Z);
  category_counts : list (string * Z)
}.

(** The body shared by the [aws.] and the [azure.] branch. *)
Definition count_cloud (acc : counts) (severity_counts : counter)
    (cloud : string) (policy : value) : result counts :=
  let cloud_counts := tally (cloud_counts acc) cloud in
  parts <- str_split policy "." ;;
  if Z.of_nat (List.length parts) >? 2 then
    let category := nth 1 parts EmptyString in
    Ok {| severity_counts := severity_counts;
          cloud_counts := cloud_counts;
          category_counts := tally (category_counts acc) category |}
  else
    Ok {| severity_counts := severity_counts;
          cloud_counts := cloud_counts;
          category_counts := category_counts acc |}.

(** One turn of the loop of [_generate_summary]. *)
Definition count_violation (acc : counts) (violation : value) : result counts :=
  severity <- get violation "severity" (VStr "UNKNOWN") ;;
  severity_counts <- count_up (severity_counts acc) severity ;;
  policy <- get violation "policy" (VStr EmptyString) ;;
  aws <- startswith policy "aws." ;;
  if aws then count_cloud acc severity_counts "AWS" policy
  else
    azure <- startswith policy "azure." ;;
    if azure then count_cloud acc severity_counts "Azure" policy
    else Ok {| severity_counts := severity_counts;
               cloud_counts := cloud_counts acc;
               category_counts := category_counts acc |}.

Definition initial_counts : counts := {|
  severity_counts :=
    [ (VStr "CRITICAL", 0); (VStr "HIGH", 0); (VStr "MEDIUM", 0); (VStr "LOW", 0) ];
  cloud_counts := [];
  category_counts := []
|}.

Definition _generate_summary (violations : list value) : result html_summary :=
  match violations with
  | [] =>
      Ok {| total := 0; critical := 0; high := 0; medium := 0; low := 0;
            by_cloud := []; by_category := [] |}
  | _ =>
      acc <- for_each violations count_violation initial_counts ;;
      Ok {| total := Z.of_nat (List.length violations);
            critical := counter_get (severity_counts acc) (VStr "CRITICAL");
            high := counter_get (severity_counts acc) (VStr "HIGH");
            medium := counter_get (severity_counts acc) (VStr "MEDIUM");
            low := counter_get (severity_counts acc) (VStr "LOW");
            by_cloud := cloud_counts acc;
            by_category := category_counts acc |}
  end.

(** [grouped[key].append(violation)] for one of the four keys. *)
Definition append_to (grouped : grouped_violations) (key : string) (violation : value)
  : grouped_violations :=
  if String.eqb key "CRITICAL" then
    {| CRITICAL := (CRITICAL grouped ++ [violation])%list; HIGH := HIGH grouped;
       MEDIUM := MEDIUM grouped; LOW := LOW grouped |}
  else if String.eqb key "HIGH" then
    {| CRITICAL := CRITICAL grouped; HIGH := (HIGH grouped ++ [violation])%list;
       MEDIUM := MEDIUM grouped; LOW := LOW grouped |}
  else if String.eqb key "MEDIUM" then
    {| CRITICAL := CRITICAL grouped; HIGH := HIGH grouped;
       MEDIUM := (MEDIUM grouped ++ [violation])%list; LOW := LOW grouped |}
  else
    {| CRITICAL := CRITICAL grouped; HIGH := HIGH grouped;
       MEDIUM := MEDIUM grouped; LOW := (LOW grouped ++ [violation])%list |}.

(** The key of [grouped] that [severity] is equal to, if any:
    [severity in grouped] hashes [severity] first. *)
Definition group_key (severity : value) : result (option string) :=
  if hashable severity then
    Ok (match severity with
        | VStr s =>
            if String.eqb s "CRITICAL" || String.eqb s "HIGH"
               || String.eqb s "MEDIUM" || String.eqb s "LOW"
            then Some s else None
        | _ => None
        end)
  else Raise TypeError.

(** One turn of the loop of [_group_violations]. *)
Definition group_violation (grouped : grouped_violations) (violation : value)
  : result grouped_violations :=
  severity <- get violation "severity" (VStr "UNKNOWN") ;;
  key <- group_key severity ;;
  match key with
  | Some k => Ok (append_to grouped k violation)
  | None => Ok (append_to grouped "MEDIUM" violation)
  end.

Definition _group_violations (violations : list value) : result grouped_violations :=
  for_each violations group_violation
    {| CRITICAL := []; HIGH := []; MEDIUM := []; LOW := [] |}.

(** [generate]: the page is the template [policy-report.html] applied to
    the summary, the groups and the metadata; the file holds what was
    rendered. *)
Definition generate (w : world) (output_dir : string) (violations : list value)
    (metadata : list (string * value)) : result string * world :=
  match _generate_summary violations with
  | Raise e => (Raise e, w)
  | Ok summary =>
      match _group_violations violations with
      | Raise e => (Raise e, w)
      | Ok grouped =>
          let output_file :=
            path_join output_dir ("policy-report-" ++ stamp (now w) ++ ".html") in
          (Ok output_file,
           write_file w output_file
             (PolicyHtml (display (now w)) summary grouped metadata))
      end
  end.

End HTMLReportGenerator.

(** ** [generators/json_report.py]: class [JSONReportGenerator] *)

Module JSONReportGenerator.

(** One turn of the loop of [_generate_summary]. *)
Definition count_violation (acc : json_summary) (violation : value)
  : result json_summary :=
  severity <- get violation "severity" (VStr "UNKNOWN") ;;
  by_severity <- count_up (by_severity acc) severity ;;
  policy <- get violation "policy" (VStr "unknown") ;;
  by_policy <- count_up (by_policy acc) policy ;;
  aws <- startswith policy "aws." ;;
  if aws then
    Ok {| total_violations := total_violations acc;
          by_severity := by_severity;
          by_policy := by_policy;
          json_by_cloud := tally (json_by_cloud acc) "AWS" |}
  else
    azure <- startswith policy "azure." ;;
    if azure then
      Ok {| total_violations := total_violations acc;
            by_severity := by_severity;
            by_policy := by_policy;
            json_by_cloud := tally (json_by_cloud acc) "Azure" |}
    else
      Ok {| total_violations := total_violations acc;
            by_severity := by_severity;
            by_policy := by_policy;
            json_by_cloud := json_by_cloud acc |}.

Definition _generate_summary (violations : list value) : result json_summary :=
  match violations with
  | [] =>
      Ok {| total_violations := 0; by_severity := []; by_policy := [];
            json_by_cloud := [] |}
  | _ =>
      for_each violations count_violation
        {| total_violations := Z.of_nat (List.length violations);
           by_severity := []; by_policy := []; json_by_cloud := [] |}
  end.

(** The key [json.dump] writes for a dict key. *)
Definition dumped_key (k : value) : string :=
  match k with
  | VStr s => s
  | VNone => "null"
  | VBool true => "true"
  | VBool false => "false"
  | VInt n => str_of_int n
  | _ => EmptyString
  end.

Definition dumped_counter (d : counter) : value :=
  VDict (map (fun kn => (dumped_key (fst kn), VInt (snd kn))) d).

Definition dumped_counts (d : list (string * Z)) : value :=
  VDict (map (fun kn => (fst kn, VInt (snd kn))) d).

Definition dumped_summary (s : json_summary) : value :=
  VDict [ ("total_violations", VInt (total_violations s));
          ("by_severity", dumped_counter (by_severity s));
          ("by_policy", dumped_counter (by_policy s));
          ("by_cloud", dumped_counts (json_by_cloud s)) ].

(** [{..., **metadata}] *)
Definition merged (base metadata : list (string * value)) : list (string * value) :=
  fold_left (fun acc kv => dict_set acc (fst kv) (snd kv)) metadata base.

Definition generate (w : world) (output_dir : string) (violations : list value)
    (metadata : list (string * value)) : result string * world :=
  match _generate_summary violations with
  | Raise e => (Raise e, w)
  | Ok summary =>
      let report_data :=
        VDict [ ("metadata",
                 VDict (merged [ ("generated_at", VStr (utc_iso (now w) ++ "Z"));
                                 ("tool", VStr "policy-as-code");
                                 ("version", VStr "0.1.0") ] metadata));
                ("summary", dumped_summary summary);
                ("violations", VList violations) ] in
      let output_file :=
        path_join output_dir ("policy-violations-" ++ stamp (now w) ++ ".json") in
      (Ok output_file, write_file w output_file (Json report_data))
  end.

End JSONReportGenerator.

(** ** [generators/csv_report.py]: class [CSVReportGenerator] *)

Module CSVReportGenerator.

Definition fieldnames : list string :=
  [ "policy"; "resource"; "severity"; "message"; "remediation"; "compliance" ].

(** The dict handed to [writer.writerow], in the order of [fieldnames]. *)
Definition row (violation : value) : result (list value) :=
  policy <- get violation "policy" (VStr EmptyString) ;;
  resource <- get violation "resource" (VStr EmptyString) ;;
  severity <- get violation "severity" (VStr EmptyString) ;;
  message <- get violation "message" (VStr EmptyString) ;;
  remediation <- get violation "remediation" (VStr EmptyString) ;;
  compliance <- get violation "compliance" (VStr "N/A") ;;
  Ok [ policy; resource; severity; message; remediation; compliance ].

(** The file is opened before the loop: rows written before an exception
    stay in it. *)
Fixpoint write_rows (violations : list value) (written : list (list value))
  : result unit * list (list value) :=
  match violations with
  | [] => (Ok tt, written)
  | violation :: rest =>
      match row violation with
      | Raise e => (Raise e, written)
      | Ok r => write_rows rest (written ++ [r])%list
      end
  end.

Definition generate (w : world) (output_dir : string) (violations : list value)
    (metadata : list (string * value)) : result string * world :=
  let output_file :=
    path_join output_dir ("policy-violations-" ++ stamp (now w) ++ ".csv") in
  match violations with
  | [] => (Ok output_file, write_file w output_file (PolicyCsv [[VStr "No violations found"]]))
  | _ =>
      let (r, rows) := write_rows violations [map VStr fieldnames] in
      match r with
      | Ok _ => (Ok output_file, write_file w output_file (PolicyCsv rows))
      | Raise e => (Raise e, write_file w output_file (PolicyCsv rows))
      end
  end.

End CSVReportGenerator.

(** ** [compliance_report.py]: class [ComplianceReporter] *)

Module ComplianceReporter.

(** The inner loop of [_evaluate_control]:
    [for mapping in control["policy_mappings"]: if policy.startswith(mapping): ...; break].
    [true] when the loop reached the [append]. *)
Fixpoint any_mapping (policy : value) (mappings : list string) : result bool :=
  match mappings with
  | [] => Ok false
  | mapping :: rest =>
      hit <- startswith policy mapping ;;
      if hit then Ok true else any_mapping policy rest
  end.

(** One turn of the outer loop: is [violation] appended to
    [mapped_violations]? *)
Definition is_mapped (c : control) (violation : value) : result bool :=
  policy <- get violation "policy" (VStr EmptyString) ;;
  any_mapping policy (policy_mappings c).

(** [mapped_violations] after the outer loop. *)
Definition mapped_violations (c : control) (violations : list value)
  : result (list value) :=
  for_each violations
    (fun mapped violation =>
       hit <- is_mapped c violation ;;
       Ok (if hit then (mapped ++ [violation])%list else mapped))
    [].

(** [f"{v.get('severity', 'MEDIUM')}: {v.get('message', 'No message')}"] *)
Definition finding (v : value) : result string :=
  severity <- get v "severity" (VStr "MEDIUM") ;;
  message <- get v "message" (VStr "No message") ;;
  Ok (format severity ++ ": " ++ format message).

(** [[finding(v) for v in mapped_violations]] *)
Fixpoint findings_of (mapped : list value) : result (list string) :=
  match mapped with
  | [] => Ok []
  | v :: rest =>
      f <- finding v ;;
      fs <- findings_of rest ;;
      Ok (f :: fs)
  end.

Definition _evaluate_control (control_id : string) (c : control)
    (violations : list value) : result control_result :=
  mapped <- mapped_violations c violations ;;
  let n := Z.of_nat (List.length mapped) in
  if n =? 0 then
    Ok {| control_id := control_id;
          cr_title := title c;
          cr_description := description c;
          status := "PASS";
          score := 100;
          findings := [];
          evidence := ([] ++ ["No policy violations found for this control"])%list |}
  else if n <=? 2 then
    fs <- findings_of mapped ;;
    Ok {| control_id := control_id;
          cr_title := title c;
          cr_description := description c;
          status := "PARTIAL";
          score := 65;
          findings := fs;
          evidence := [] |}
  else
    fs <- findings_of mapped ;;
    Ok {| control_id := control_id;
          cr_title := title c;
          cr_description := description c;
          status := "FAIL";
          score := 25;
          findings := fs;
          evidence := [] |}.

(** [results["controls"].append(control_result)] followed by the counter
    update of [evaluate_framework]'s loop body. *)
Definition record_control (results : framework_results) (cr : control_result)
  : framework_results :=
  let appended := (controls results ++ [cr])%list in
  if String.eqb (status cr) "PASS" then
    {| framework_name_of := framework_name_of results;
       fr_description := fr_description results;
       controls := appended;
       overall_score := overall_score results;
       pass_count := pass_count results + 1;
       partial_count := partial_count results;
       fail_count := fail_count results |}
  else if String.eqb (status cr) "PARTIAL" then
    {| framework_name_of := framework_name_of results;
       fr_description := fr_description results;
       controls := appended;
       overall_score := overall_score results;
       pass_count := pass_count results;
       partial_count := partial_count results + 1;
       fail_count := fail_count results |}
  else
    {| framework_name_of := framework_name_of results;
       fr_description := fr_description results;
       controls := appended;
       overall_score := overall_score results;
       pass_count := pass_count results;
       partial_count := partial_count results;
       fail_count := fail_count results + 1 |}.

(** [sum(c["score"] for c in results["controls"])] *)
Definition total_score (cs : list control_result) : Z :=
  fold_left (fun acc c => acc + score c) cs 0.

(** The block under [# Calculate overall score]. *)
Definition with_overall_score (results : framework_results) : framework_results :=
  let total_controls := Z.of_nat (List.length (controls results)) in
  if total_controls >? 0 then
    {| framework_name_of := framework_name_of results;
       fr_description := fr_description results;
       controls := controls results;
       overall_score := round1 (truediv (total_score (controls results)) total_controls);
       pass_count := pass_count results;
       partial_count := partial_count results;
       fail_count := fail_count results |}
  else results.

Definition evaluate_framework (frameworks : registry) (framework_name : string)
    (violations : list value) : result framework_results :=
  match registry_get frameworks framework_name with
  | None => Raise (ValueError ("Unknown framework: " ++ framework_name))
  | Some fw =>
      let results :=
        {| framework_name_of := fw_name fw;
           fr_description := fw_description fw;
           controls := [];
           overall_score := 0;
           pass_count := 0;
           partial_count := 0;
           fail_count := 0 |} in
      results <- for_each (fw_controls fw)
        (fun results item =>
           control_result <- _evaluate_control (fst item) (snd item) violations ;;
           Ok (record_control results control_result))
        results ;;
      Ok (with_overall_score results)
  end.

(** The loops of the conftest branch of [load_violations]: the [msg] of
    every failure of [result] that is a dict is appended. *)
Definition failures_of (violations : list value) (result : value)
  : Py.result (list value) :=
  failures <- get result "failures" (VList []) ;;
  failures <- iter failures ;;
  for_each failures
    (fun violations failure =>
       msg <- get failure "msg" VNone ;;
       Ok (if is_dict msg then (violations ++ [msg])%list else violations))
    violations.

(** The body of the [try] of [load_violations] once [json.load] has
    returned [data]. *)
Definition violations_in (data : value) : result value :=
  match data with
  | VDict d =>
      match dict_get d "violations" with
      | Some violations => Ok violations
      | None =>
          match dict_get d "deny" with
          | Some deny => items <- iter deny ;; Ok (VList items)
          | None =>
              match dict_get d "results" with
              | Some results =>
                  results <- iter results ;;
                  violations <- for_each results failures_of [] ;;
                  Ok (VList violations)
              | None => Ok (VList [])
              end
          end
      end
  | VList _ => Ok data
  | _ => Ok (VList [])
  end.

(** [load_violations]: any exception of the [try] is printed on the
    error stream and the empty list returned. *)
Definition load_violations (w : world) (file_path : string) : value * world :=
  match data <- json_load w file_path ;; violations_in data with
  | Ok violations => (violations, w)
  | Raise e => (VList [], print_err w (ErrorLoadingViolations file_path e))
  end.

(** [generate_html_report]: the file holds the page built from
    [framework_results]. *)
Definition generate_html_report (w : world) (framework_results : framework_results)
    (output_path : string) : world :=
  write_file w output_path (ComplianceHtml framework_results).

(** [generate_report]; [self.frameworks] is [frameworks].  [violations]
    is what [load_violations] returned: [len] and the loops over it are
    those of a list, a str or a dict. *)
Definition generate_report (frameworks : registry) (w : world)
    (framework_name input_file output_path : string) : result unit * world :=
  let (violations, w) := load_violations w input_file in
  match n <- len violations ;;
        items <- iter violations ;;
        evaluate_framework frameworks framework_name items with
  | Raise e => (Raise e, w)
  | Ok results => (Ok tt, generate_html_report w results output_path)
  end.

End ComplianceReporter.

(** ** [compliance_report.py]: [main] *)

(** The command line as [argparse] hands it over: a path argument
    ([type=Path]) is held as the text of its [Path] object. *)
Record arguments : Type := {
  arg_framework : string;
  arg_input : string;
  arg_output : option string;
  arg_output_dir : option string
}.

(** The loop of the [all] branch. *)
Fixpoint generate_reports (frameworks : registry) (w : world) (names : list string)
    (input_file output_dir : string) : result unit * world :=
  match names with
  | [] => (Ok tt, w)
  | framework :: rest =>
      let output_file := path_join output_dir (framework ++ "-compliance-report.html") in
      match ComplianceReporter.generate_report frameworks w framework input_file output_file with
      | (Raise e, w) => (Raise e, w)
      | (Ok _, w) => generate_reports frameworks w rest input_file output_dir
      end
  end.

Definition after (r : result unit * world) : outcome * world :=
  match fst r with
  | Ok _ => (Returned, snd r)
  | Raise e => (Uncaught e, snd r)
  end.

Definition main (w : world) (args : arguments) : outcome * world :=
  if negb (existsb (String.eqb (arg_framework args)) ["sox"; "pci"; "ffiec"; "glba"; "all"])
  then (SysExit 2, print_err w (UsageError "--framework"))
  else if negb (exists_file w (arg_input args)) then
    (SysExit 1, print_err w (InputFileNotFound (arg_input args)))
  else
    let reporter := FRAMEWORK_CONTROLS in
    if String.eqb (arg_framework args) "all" then
      let output_dir :=
        match arg_output_dir args with Some d => d | None => "reports/compliance" end in
      finish (after (generate_reports reporter w ["sox"; "pci"; "ffiec"; "glba"]
                       (arg_input args) output_dir))
    else
      let output_file :=
        match arg_output args with
        | Some f => f
        | None => "reports/" ++ arg_framework args ++ "-compliance-report.html"
        end in
      finish (after (ComplianceReporter.generate_report reporter w (arg_framework args)
                       (arg_input args) output_file)).

(** ** [cli.py]: the [generate] command *)

Module cli.

(** [failure.get("msg", {}).get(key, default)] *)
Definition msg_field (failure : value) (key : string) (default : value)
  : result value :=
  msg <- get failure "msg" (VDict []) ;;
  get msg key default.

(** The dict appended for one failure. *)
Definition violation_of (failure : value) : result value :=
  policy <- msg_field failure "policy" (VStr "unknown") ;;
  resource <- msg_field failure "resource" (VStr "unknown") ;;
  severity <- msg_field failure "severity" (VStr "MEDIUM") ;;
  message <- msg_field failure "message" (VStr EmptyString) ;;
  remediation <- msg_field failure "remediation" (VStr EmptyString) ;;
  compliance <- msg_field failure "compliance" (VStr EmptyString) ;;
  Ok (VDict [ ("policy", policy); ("resource", resource); ("severity", severity);
              ("message", message); ("remediation", remediation);
              ("compliance", compliance) ]).

Definition failures_of (violations : list value) (result : value)
  : Py.result (list value) :=
  failures <- get result "failures" (VList []) ;;
  failures <- iter failures ;;
  for_each failures
    (fun violations failure =>
       violation <- violation_of failure ;;
       Ok (violations ++ [violation])%list)
    violations.

(** The block under [# Extract violations from OPA output]. *)
Definition extract (data : value) : result (list value) :=
  match data with
  | VDict d =>
      match dict_get d "results" with
      | Some results =>
          results <- iter results ;;
          for_each results failures_of []
      | None =>
          match dict_get d "deny" with
          | Some deny => iter deny
          | None => Ok []
          end
      end
  | _ => Ok []
  end.

(** [a < b] is defined between two str and between two numbers. *)
Definition comparable (a b : value) : bool :=
  match a, b with
  | VStr _, VStr _ => true
  | (VInt _ | VBool _), (VInt _ | VBool _) => true
  | _, _ => false
  end.

(** The console summary: the tally by severity and
    [sorted(severity_counts.items())], which compares the keys. *)
Definition console_summary (violations : list value) : result unit :=
  match violations with
  | [] => Ok tt
  | _ =>
      severity_counts <- for_each violations
        (fun severity_counts v =>
           severity <- get v "severity" (VStr "UNKNOWN") ;;
           count_up severity_counts severity)
        [] ;;
      match severity_counts with
      | (k, _) :: rest =>
          if forallb (fun kn => comparable k (fst kn)) rest then Ok tt
          else Raise TypeError
      | [] => Ok tt
      end
  end.

(** One of the three [if ... in formats] blocks. *)
Definition report (wanted : bool)
    (generator : world -> string -> list value -> list (string * value)
                 -> result string * world)
    (output_dir : string) (violations : list value)
    (metadata : list (string * value)) (w : world) : result unit * world :=
  if wanted then
    match generator w output_dir violations metadata with
    | (Ok _, w) => (Ok tt, w)
    | (Raise e, w) => (Raise e, w)
    end
  else (Ok tt, w).

Definition wants (formats : list string) (format : string) : bool :=
  existsb (String.eqb format) formats.

(** [generate] from the extraction on. *)
Definition reports (w : world) (data : value) (output_dir : string)
    (formats : list string) (scan_target : option string) : result unit * world :=
  match extract data with
  | Raise e => (Raise e, w)
  | Ok violations =>
      let metadata :=
        match scan_target with
        | Some (String c s) => [("scan_target", VStr (String c s))]
        | _ => []
        end in
      match report (wants formats "html") HTMLReportGenerator.generate
              output_dir violations metadata w with
      | (Raise e, w) => (Raise e, w)
      | (Ok _, w) =>
          match report (wants formats "json") JSONReportGenerator.generate
                  output_dir violations metadata w with
          | (Raise e, w) => (Raise e, w)
          | (Ok _, w) =>
              match report (wants formats "csv") CSVReportGenerator.generate
                      output_dir violations metadata w with
              | (Raise e, w) => (Raise e, w)
              | (Ok _, w) => (console_summary violations, w)
              end
          end
      end
  end.

(** The command: [click] refuses an input path that does not exist
    before the body runs. *)
Definition generate (w : world) (input_file output_dir : string)
    (formats : list string) (scan_target : option string) : outcome * world :=
  if negb (exists_file w input_file) then
    (SysExit 2, print_err w (UsageError "--input"))
  else
    match json_load w input_file with
    | Raise JSONDecodeError =>
        (SysExit 1, print_err w (InvalidJsonInInputFile JSONDecodeError))
    | Raise e => (SysExit 1, print_err w (ErrorReadingInputFile e))
    | Ok data => finish (after (reports w data output_dir formats scan_target))
    end.

End cli.

(** ** The vocabulary of the properties *)

(** A violation of the data model as far as the control evaluator reads
    it: a mapping whose [policy], when present, is a string. *)
Definition is_violation (v : value) : bool :=
  match v with
  | VDict d =>
      match dict_get d "policy" with
      | Some (VStr _) | None => true
      | Some _ => false
      end
  | _ => false
  end.

(** The [policy] of a violation, the empty string when there is none. *)
Definition policy_text (v : value) : string :=
  match v with
  | VDict d =>
      match dict_get d "policy" with
      | Some (VStr s) => s
      | _ => EmptyString
      end
  | _ => EmptyString
  end.

(** The matching rule in the words of the specification: the policy
    starts with one of the prefixes of the control. *)
Definition matches_control (c : control) (v : value) : bool :=
  existsb (str_startswith (policy_text v)) (policy_mappings c).

(** The arithmetic mean of a list of scores: their sum over their
    number, as a rational. *)
Definition mean (scores : list Z) : Q :=
  (inject_Z (fold_right Z.add 0%Z scores) / inject_Z (Z.of_nat (List.length scores)))%Q.

(** What relates a matched violation to its entry in [findings]. *)
Definition finding_of (v : value) (f : string) : Prop :=
  exists severity message,
    get v "severity" (VStr "MEDIUM") = Ok severity /\
    get v "message" (VStr "No message") = Ok message /\
    f = format severity ++ ": " ++ format message.

(** [text] is what an f-string shows for [x]: a str as it is, [None],
    [True] or [False], an int in decimal; the text of a list or of a
    mapping is left open. *)
Definition shows (x : value) (text : string) : Prop :=
  match x with
  | VStr s => text = s
  | VNone => text = "None"
  | VBool true => text = "True"
  | VBool false => text = "False"
  | VInt n => text = NilZero.string_of_int (Z.to_int n)
  | VList _ | VDict _ => True
  end.

(** [text] is what is shown for the field [key] of the mapping [v],
    [default] when the field is missing. *)
Definition field_shows (v : value) (key default text : string) : Prop :=
  match v with
  | VDict d =>
      match dict_get d key with
      | Some x => shows x text
      | None => text = default
      end
  | _ => False
  end.

(** The finding of a matched violation in the words of the
    specification: the severity (MEDIUM when missing), a colon and a
    space, the message (No message when missing). *)
Definition formatted (v : value) (f : string) : Prop :=
  exists severity message,
    field_shows v "severity" "MEDIUM" severity /\
    field_shows v "message" "No message" message /\
    f = severity ++ ": " ++ message.

(** [cr] is what [_evaluate_control] returns for the registry entry
    [item], on the whole violation list. *)
Definition evaluated (violations : list value) (item : string * control)
    (cr : control_result) : Prop :=
  ComplianceReporter._evaluate_control (fst item) (snd item) violations = Ok cr.

(** The body of the loop of [evaluate_framework]. *)
Definition loop_body (violations : list value) (results : framework_results)
    (item : string * control) : result framework_results :=
  control_result <-
    ComplianceReporter._evaluate_control (fst item) (snd item) violations ;;
  Ok (ComplianceReporter.record_control results control_result).

(** The state [evaluate_framework] starts its loop from. *)
Definition initial_results (fw : framework) : framework_results :=
  {| framework_name_of := fw_name fw; fr_description := fw_description fw;
     controls := []; overall_score := 0; pass_count := 0; partial_count := 0;
     fail_count := 0 |}.

Definition SOX_404 : control := {|
  title := "Internal Control Assessment";
  description := "Document and assess effectiveness of internal controls";
  policy_mappings := [
    "aws.security.s3_encryption";
    "aws.compliance.sox";
    "azure.security.storage_encryption" ]
|}.

Definition SOX_302 : control := {|
  title := "Management Assessment of Internal Controls";
  description := "CEO/CFO certification of internal controls over financial reporting";
  policy_mappings := [
    "aws.security.iam_mfa";
    "aws.compliance.sox";
    "azure.security.key_vault" ]
|}.

Definition s3_violation : value :=
  VDict [ ("policy", VStr "aws.security.s3_encryption");
          ("severity", VStr "HIGH");
          ("message", VStr "Bucket is not encrypted") ].

(** A violation with a policy only. *)
Definition sox_violation : value := VDict [ ("policy", VStr "aws.compliance.sox") ].

Definition three_s3_violations : list value :=
  [ s3_violation; s3_violation; s3_violation ].

(** The [msg] of a failure, [None] when it has none. *)
Definition msg_of (failure : value) : value :=
  match failure with
  | VDict f => match dict_get f "msg" with Some msg => msg | None => VNone end
  | _ => VNone
  end.

(** The violations of one element of [results]: the [msg] of each entry
    of its [failures] that is a mapping, in order. *)
Definition conftest_msgs (result : value) : list value :=
  match result with
  | VDict d =>
      match dict_get d "failures" with
      | Some (VList failures) => filter is_dict (map msg_of failures)
      | _ => []
      end
  | _ => []
  end.

(** An element of [results] in the conftest format: a mapping whose
    [failures], when present, is an array of mappings. *)
Definition conftest_shaped (result : value) : bool :=
  match result with
  | VDict d =>
      match dict_get d "failures" with
      | None => true
      | Some (VList failures) => forallb is_dict failures
      | Some _ => false
      end
  | _ => false
  end.

(** The severity [_group_violations] and the summaries read:
    [violation.get("severity", "UNKNOWN")]. *)
Definition severity_of (v : value) : value :=
  match v with
  | VDict d => match dict_get d "severity" with Some s => s | None => VStr "UNKNOWN" end
  | _ => VStr "UNKNOWN"
  end.

(** One of the four canonical severities. *)
Definition canonical (severity : value) : bool :=
  match severity with
  | VStr s =>
      String.eqb s "CRITICAL" || String.eqb s "HIGH"
      || String.eqb s "MEDIUM" || String.eqb s "LOW"
  | _ => false
  end.

(** The group of a violation in the words of the claim: its severity
    when it is canonical, MEDIUM otherwise. *)
Definition group_of (v : value) : string :=
  match severity_of v with
  | VStr s => if canonical (VStr s) then s else "MEDIUM"
  | _ => "MEDIUM"
  end.

Definition in_group (key : string) (v : value) : bool := String.eqb (group_of v) key.

(** A mapping whose severity can be looked up in a dict. *)
Definition groupable (v : value) : bool := is_dict v && hashable (severity_of v).



(** [grouped] with the violations of [vs] appended to their groups. *)
Definition extended (grouped : grouped_violations) (vs : list value)
  : grouped_violations :=
  {| CRITICAL := (CRITICAL grouped ++ filter (in_group "CRITICAL") vs)%list;
     HIGH := (HIGH grouped ++ filter (in_group "HIGH") vs)%list;
     MEDIUM := (MEDIUM grouped ++ filter (in_group "MEDIUM") vs)%list;
     LOW := (LOW grouped ++ filter (in_group "LOW") vs)%list |}.

Definition info_violation : value :=
  VDict [ ("policy", VStr "aws.security.s3_encryption"); ("severity", VStr "INFO") ].

Definition critical_violation : value :=
  VDict [ ("policy", VStr "azure.security.key_vault"); ("severity", VStr "CRITICAL") ].

(** A violation the summaries can count: a mapping whose policy, when
    present, is a string and whose severity can be a dict key. *)
Definition summarizable (v : value) : bool :=
  is_violation v && hashable (severity_of v).

(** The number of violations whose severity is equal to [key]. *)
Definition tallied (key : value) (vs : list value) : Z :=
  Z.of_nat (List.length (filter (fun v => key_eqb (severity_of v) key) vs)).

(** The number of violations with one of the four canonical severities. *)
Definition canonical_count (vs : list value) : Z :=
  Z.of_nat (List.length (filter (fun v => canonical (severity_of v)) vs)).

Ltac key_cases :=
  repeat match goal with
         | H : (_ =? _)%string = true |- _ => apply String.eqb_eq in H
         | H : (_ =? _) = true |- _ => apply Z.eqb_eq in H
         | H : Bool.eqb _ _ = true |- _ => apply Bool.eqb_prop in H
         | |- (_ =? _)%string = true => apply String.eqb_eq
         | |- (_ =? _) = true => apply Z.eqb_eq
         | |- Bool.eqb _ _ = true => apply Bool.eqb_true_iff
         end.

Definition sample_clock : clock :=
  {| stamp := "20240101_120000"; display := "2024-01-01 12:00:00";
     utc_iso := "2024-01-01T12:00:00" |}.

(** A world whose input file holds text that is not JSON. *)
Definition broken_world : world :=
  {| files := [("violations.json", NotJson "{not json")]; stderr := [];
     now := sample_clock |}.

Definition broken_arguments : arguments :=
  {| arg_framework := "sox"; arg_input := "violations.json";
     arg_output := Some "sox.html"; arg_output_dir := None |}.

(** Where [main] writes the report of a single framework. *)
Definition output_file_of (args : arguments) : string :=
  match arg_output args with
  | Some f => f
  | None => "reports/" ++ arg_framework args ++ "-compliance-report.html"
  end.

From Stdlib Require Import Permutation.

(** ** More vocabulary: the evaluator as a function of the input *)

(** Status and score by the number of mapped violations. *)
Definition status_for (n : nat) : string :=
  match n with
  | O => "PASS"
  | 1%nat | 2%nat => "PARTIAL"
  | _ => "FAIL"
  end.

Definition score_for (n : nat) : Z :=
  match n with
  | O => 100
  | 1%nat | 2%nat => 65
  | _ => 25
  end.

(** The number of violations of [violations] mapped to [c]. *)
Definition mapped_count (c : control) (violations : list value) : nat :=
  List.length (filter (matches_control c) violations).

(** The text of the finding of a mapped violation. *)
Definition finding_text (v : value) : string :=
  match ComplianceReporter.finding v with
  | Ok f => f
  | Raise _ => EmptyString
  end.

(** A violation that some control of the framework maps. *)
Definition relevant (fw : framework) (v : value) : bool :=
  existsb (fun item => matches_control (snd item) v) (fw_controls fw).

(** The number of control results with a given status. *)
Definition count_status (s : string) (crs : list control_result) : Z :=
  Z.of_nat (List.length (filter (fun cr => String.eqb (status cr) s) crs)).

(** What relates the result of a control on an input to its result on a
    longer one. *)
Definition not_better (r r' : control_result) : Prop :=
  exists m m' : nat,
    (m <= m')%nat /\
    status r = status_for m /\ status r' = status_for m' /\
    score r = score_for m /\ score r' = score_for m'.

(** What relates the results of a control on two inputs that are
    permutations of each other. *)
Definition same_result (r r' : control_result) : Prop :=
  control_id r = control_id r' /\
  status r = status r' /\
  score r = score r' /\
  Permutation (findings r) (findings r') /\
  evidence r = evidence r'.

(** A violation that no control of the registry maps. *)
Definition unmapped_violation : value :=
  VDict [ ("policy", VStr "gcp.security.bucket"); ("severity", VStr "LOW") ].

(** ** More vocabulary: the files of a run *)






(** A world with an input file of three violations. *)
Definition sample_world : world :=
  {| files := [("violations.json",
                Json (VDict [("violations", VList three_s3_violations)]))];
     stderr := []; now := sample_clock |}.


(** ** More vocabulary: the general reports *)

(** [d.get(key, default)] on the items of a dict. *)
Definition item_or (d : list (string * value)) (key : string) (default : value) : value :=
  match dict_get d key with
  | Some v => v
  | None => default
  end.

(** The [failures] of an element of [results], none when it has none. *)
Definition failures_in (result : value) : list value :=
  match result with
  | VDict d =>
      match dict_get d "failures" with
      | Some (VList failures) => failures
      | _ => []
      end
  | _ => []
  end.

(** The items of the [msg] of a failure, none when it has no [msg]. *)
Definition msg_items (failure : value) : list (string * value) :=
  match failure with
  | VDict f =>
      match dict_get f "msg" with
      | Some (VDict m) => m
      | _ => []
      end
  | _ => []
  end.

(** A failure whose [msg] is there and is not a mapping. *)
Definition plain_msg (failure : value) : bool :=
  match failure with
  | VDict f =>
      match dict_get f "msg" with
      | Some (VDict _) | None => false
      | Some _ => true
      end
  | _ => false
  end.

(** The violation [cli.py] builds from a failure. *)
Definition cli_violation (failure : value) : value :=
  let m := msg_items failure in
  VDict [ ("policy", item_or m "policy" (VStr "unknown"));
          ("resource", item_or m "resource" (VStr "unknown"));
          ("severity", item_or m "severity" (VStr "MEDIUM"));
          ("message", item_or m "message" (VStr EmptyString));
          ("remediation", item_or m "remediation" (VStr EmptyString));
          ("compliance", item_or m "compliance" (VStr EmptyString)) ].

(** The row of a violation in the CSV report. *)
Definition csv_row (violation : value) : list value :=
  match violation with
  | VDict d =>
      [ item_or d "policy" (VStr EmptyString);
        item_or d "resource" (VStr EmptyString);
        item_or d "severity" (VStr EmptyString);
        item_or d "message" (VStr EmptyString);
        item_or d "remediation" (VStr EmptyString);
        item_or d "compliance" (VStr "N/A") ]
  | _ => []
  end.

Definition csv_header : list value := map VStr CSVReportGenerator.fieldnames.

(** The names of the three report files. *)
Definition html_path (w : world) (output_dir : string) : string :=
  path_join output_dir ("policy-report-" ++ stamp (now w) ++ ".html").
Definition json_path (w : world) (output_dir : string) : string :=
  path_join output_dir ("policy-violations-" ++ stamp (now w) ++ ".json").
Definition csv_path (w : world) (output_dir : string) : string :=
  path_join output_dir ("policy-violations-" ++ stamp (now w) ++ ".csv").

(** A document [generate] takes no violation from: anything but a
    mapping, or a mapping with neither [results] nor [deny]. *)
Definition without_violations (data : value) : bool :=
  match data with
  | VDict d =>
      match dict_get d "results", dict_get d "deny" with
      | None, None => true
      | _, _ => false
      end
  | _ => true
  end.

(** A conftest document with one failure whose [msg] is a text. *)
Definition plain_conftest : value :=
  VDict [("results",
          VList [VDict [("failures",
                         VList [VDict [("msg", VDict [("policy", VStr "p")])];
                                VDict [("msg", VStr "denied")]])]])].

(** A conftest document with a failure without [msg]. *)
Definition bare_conftest : value :=
  VDict [("results",
          VList [VDict [("failures",
                         VList [VDict [("msg", VDict [("policy", VStr "p")])];
                                VDict []])];
                 VDict []])].

Definition world_with (document : value) : world :=
  {| files := [("input.json", Json document)]; stderr := []; now := sample_clock |}.


(** * scripts/extract-violations.py

    The script reads the output of [opa eval] on its standard input and
    prints the violations in the [violations] format.  The interpreter's
    recursion limit is not modelled. *)

Module ExtractViolations.

(** [extract_violations]: the items of a [deny] array go to the result,
    and every value of a mapping, the [deny] array included, is searched
    in turn. *)
Fixpoint extract_violations (obj : value) : list value :=
  match obj with
  | VDict d =>
      (match dict_get d "deny" with
       | Some (VList deny) => deny
       | _ => []
       end ++ flat_map (fun kv => extract_violations (snd kv)) d)%list
  | VList l => flat_map extract_violations l
  | _ => []
  end.

(** What the [try] of [main] can raise: the exceptions of the other
    modules and [IndexError]. *)
Inductive error : Type :=
| Python (e : exn)
| IndexError.

Definition lift {A} (m : result A) : error + A :=
  match m with
  | Ok a => inr a
  | Raise e => inl (Python e)
  end.

Definition and_then {A B} (m : error + A) (k : A -> error + B) : error + B :=
  match m with
  | inr a => k a
  | inl e => inl e
  end.

(** [key in data]: a key of a dict, an item of a list, a part of a
    str. *)
Definition contains (data : value) (key : string) : error + bool :=
  match data with
  | VDict d => inr (dict_has d key)
  | VList l =>
      inr (existsb (fun x => match x with VStr s => String.eqb s key | _ => false end) l)
  | VStr s => inr (match String.index 0 key s with Some _ => true | None => false end)
  | _ => inl (Python TypeError)
  end.

(** [x[key]] for a str [key] *)
Definition item (x : value) (key : string) : error + value :=
  match x with
  | VDict d =>
      match dict_get d key with
      | Some v => inr v
      | None => inl (Python KeyError)
      end
  | _ => inl (Python TypeError)
  end.

(** [x[0]] *)
Definition first (x : value) : error + value :=
  match x with
  | VList (a :: _) => inr a
  | VList [] => inl IndexError
  | VStr (String c _) => inr (VStr (String c EmptyString))
  | VStr EmptyString => inl IndexError
  | VDict _ => inl (Python KeyError)
  | _ => inl (Python TypeError)
  end.

(** The value the rules were evaluated to:
    [data['result'][0]['expressions'][0]['value']]. *)
Definition result_value (data : value) : error + value :=
  and_then (item data "result") (fun result =>
  and_then (first result) (fun r =>
  and_then (item r "expressions") (fun expressions =>
  and_then (first expressions) (fun e =>
  item e "value")))).

(** The body of the [try] once [json.load] has returned [data]. *)
Definition output_of (data : value) : error + value :=
  and_then (contains data "result") (fun has_result =>
  and_then
    (if has_result then
       and_then (item data "result") (fun result =>
       and_then (lift (len result)) (fun n =>
       if 0 <? n then
         and_then (result_value data) (fun v => inr (extract_violations v))
       else inr []))
     else inr [])
    (fun violations => inr (VDict [("violations", VList violations)]))).

(** [json.load(sys.stdin)] *)
Definition load (stdin : content) : error + value :=
  match stdin with
  | Json document => inr (loaded document)
  | _ => inl (Python JSONDecodeError)
  end.

(** What [main] prints: the document on the standard output, or the
    line [Error extracting violations: e] on the error stream. *)
Inductive printed : Type :=
| Stdout (document : value)
| Stderr (e : error).

Definition main (stdin : content) : outcome * printed :=
  match and_then (load stdin) output_of with
  | inr output => (Returned, Stdout output)
  | inl e => (SysExit 1, Stderr e)
  end.

End ExtractViolations.

(** [v] is an item of a [deny] array of [obj], at any depth. *)
Inductive denied : value -> value -> Prop :=
| denied_here (d : list (string * value)) (deny : list value) (v : value) :
    dict_get d "deny" = Some (VList deny) -> In v deny -> denied (VDict d) v
| denied_in_value (d : list (string * value)) (key : string) (x v : value) :
    In (key, x) d -> denied x v -> denied (VDict d) v
| denied_in_item (l : list value) (x v : value) :
    In x l -> denied x v -> denied (VList l) v.

(** The output of [opa eval] for one query whose value is [v]. *)
Definition opa_output (v : value) : value :=
  VDict [("result", VList [VDict [("expressions", VList [VDict [("value", v)]])]])].

(** A violation as the policies of the repository build it: a mapping
    of texts. *)
Definition flat (v : value) : bool :=
  match v with
  | VDict d => forallb (fun kv => match snd kv with VStr _ => true | _ => false end) d
  | _ => false
  end.

(** The value of a package with a [deny] array. *)
Definition package (deny : list value) : value := VDict [("deny", VList deny)].

(** Two packages under one root, as [data.aws] evaluates to. *)
Definition two_packages : value :=
  VDict [("s3", package [s3_violation]); ("iam", package [sox_violation])].

(** The world [w] with the document [document] in the file [path]. *)
Definition with_document (w : world) (path : string) (document : value) : world :=
  write_file w path (Json document).

(** ** Reports without violations, clouds *)

(** The metadata [generate] of cli.py hands to the generators. *)
Definition cli_metadata (scan_target : option string) : list (string * value) :=
  match scan_target with
  | Some (String c s) => [("scan_target", VStr (String c s))]
  | _ => []
  end.

(** The three reports of an empty list of violations. *)
Definition empty_html (w : world) (metadata : list (string * value)) : content :=
  PolicyHtml (display (now w))
    {| total := 0; critical := 0; high := 0; medium := 0; low := 0;
       by_cloud := []; by_category := [] |}
    {| CRITICAL := []; HIGH := []; MEDIUM := []; LOW := [] |}
    metadata.

Definition empty_json (w : world) (metadata : list (string * value)) : content :=
  Json (VDict [ ("metadata",
                 VDict (JSONReportGenerator.merged
                          [ ("generated_at", VStr (utc_iso (now w) ++ "Z"));
                            ("tool", VStr "policy-as-code");
                            ("version", VStr "0.1.0") ] metadata));
                ("summary",
                 VDict [ ("total_violations", VInt 0); ("by_severity", VDict []);
                         ("by_policy", VDict []); ("by_cloud", VDict []) ]);
                ("violations", VList []) ]).

Definition empty_csv : content := PolicyCsv [[VStr "No violations found"]].

(** [w] after [c] was written to [path], when the format is wanted. *)
Definition written (wanted : bool) (path : string) (c : content) (w : world) : world :=
  if wanted then write_file w path c else w.

(** The cloud a violation is counted under, by the prefix of its
    policy. *)
Definition cloud_of (v : value) : option string :=
  if str_startswith (policy_text v) "aws." then Some "AWS"
  else if str_startswith (policy_text v) "azure." then Some "Azure"
  else None.

(** The number of violations whose policy starts with [prefix]. *)
Definition with_prefix (prefix : string) (vs : list value) : Z :=
  Z.of_nat (List.length (filter (fun v => str_startswith (policy_text v) prefix) vs)).

(** [d.get(key, 0)] on a dict of counts *)
Definition count_of (d : list (string * Z)) (key : string) : Z :=
  match dict_get d key with
  | Some n => n
  | None => 0
  end.

Definition counted_cloud (d : list (string * Z)) (v : value) : list (string * Z) :=
  match cloud_of v with
  | Some cloud => tally d cloud
  | None => d
  end.

(** ** The blocks of a control in the page of [generate_html_report] *)

(** What the loop over [framework_results["controls"]] adds under the
    header of a control: the findings with their class, the evidence. *)
Inductive block : Type :=
| Findings (findings_class : string) (items : list string)
| Evidence (items : list string).

(** [if l] for a list *)
Definition truthy {A} (l : list A) : bool :=
  match l with
  | [] => false
  | _ => true
  end.

Definition control_blocks (control : control_result) : list block :=
  let findings_class := if score control <? 50 then "critical" else EmptyString in
  ((if truthy (findings control)
    then [Findings findings_class (findings control)] else []) ++
   (if truthy (evidence control) then [Evidence (evidence control)] else []))%list.

(** A document whose first result has no [expressions]. *)
Definition no_expressions : value := VDict [("result", VList [VDict []])].

(** One turn of the loop that builds a dict from the items of an object,
    [f] applied to the values. *)
Definition set_with (f : value -> value) (acc : list (string * value))
    (kv : string * value) : list (string * value) :=
  dict_set acc (fst kv) (f (snd kv)).

(** ** Strings and loops *)

Lemma str_startswith_app (p rest : string) : str_startswith (p ++ rest) p = true.
Proof.
  unfold str_startswith.
  induction p as [|a p IH]; simpl.
  - destruct rest; reflexivity.
  - destruct (Ascii.ascii_dec a a) as [_|ne]; [exact IH | contradiction].
Qed.

Lemma str_startswith_inv (s p : string) :
  str_startswith s p = true -> exists rest, s = p ++ rest.
Proof.
  unfold str_startswith. revert s.
  induction p as [|a p IH]; intros s H.
  - exists s. reflexivity.
  - destruct s as [|b s]; simpl in H; [discriminate|].
    destruct (Ascii.ascii_dec a b) as [->|]; [|discriminate].
    destruct (IH s H) as [rest ->]. exists rest. reflexivity.
Qed.

Lemma str_startswith_spec (s p : string) :
  str_startswith s p = true <-> exists rest, s = p ++ rest.
Proof.
  split.
  - apply str_startswith_inv.
  - intros [rest ->]. apply str_startswith_app.
Qed.

(** A loop whose body never raises and only extends the accumulator by
    the elements a test selects is a filter. *)
Lemma for_each_filter {A} (test : A -> bool) (body : list A -> A -> result (list A))
    (xs : list A) :
  (forall acc x, In x xs ->
     body acc x = Ok (if test x then (acc ++ [x])%list else acc)) ->
  forall acc, for_each xs body acc = Ok (acc ++ filter test xs)%list.
Proof.
  induction xs as [|x xs IH]; intros Hbody acc; simpl.
  - now rewrite app_nil_r.
  - rewrite (Hbody acc x (or_introl eq_refl)). simpl.
    rewrite IH by (intros; apply Hbody; now right).
    destruct (test x); [|reflexivity].
    now rewrite <- app_assoc.
Qed.

(** The same from a loop that returned: a body that, whenever it
    returns, has extended the accumulator by the element or left it. *)
Lemma for_each_filter_inv {A} (test : A -> bool)
    (body : list A -> A -> result (list A)) (xs : list A) :
  (forall acc x acc',
     body acc x = Ok acc' -> acc' = if test x then (acc ++ [x])%list else acc) ->
  forall acc res, for_each xs body acc = Ok res -> res = (acc ++ filter test xs)%list.
Proof.
  intros Hbody. induction xs as [|x xs IH]; intros acc res H; simpl in *.
  - injection H as <-. now rewrite app_nil_r.
  - destruct (body acc x) as [acc'|e] eqn:E; simpl in H; [|discriminate].
    rewrite (IH _ _ H), (Hbody _ _ _ E).
    destruct (test x); [|reflexivity].
    now rewrite <- app_assoc.
Qed.

(** A loop returns only if its body returned on every element. *)
Lemma for_each_all {A S} (P : A -> bool) (body : S -> A -> result S) (xs : list A) :
  (forall acc x acc', body acc x = Ok acc' -> P x = true) ->
  forall acc res, for_each xs body acc = Ok res -> forallb P xs = true.
Proof.
  intros Hbody. induction xs as [|x xs IH]; intros acc res H; simpl in *.
  - reflexivity.
  - destruct (body acc x) as [acc'|e] eqn:E; simpl in H; [|discriminate].
    rewrite (Hbody _ _ _ E), (IH _ _ H). reflexivity.
Qed.

(** ** The control evaluator *)

Section ControlEvaluator.

Import ComplianceReporter.

Variable c : control.

Lemma any_mapping_str (s : string) (mappings : list string) :
  any_mapping (VStr s) mappings = Ok (existsb (str_startswith s) mappings).
Proof.
  induction mappings as [|m ms IH]; simpl; [reflexivity|].
  destruct (str_startswith s m); simpl; [reflexivity | exact IH].
Qed.

Lemma is_mapped_ok (v : value) :
  is_violation v = true -> is_mapped c v = Ok (matches_control c v).
Proof.
  unfold is_violation, is_mapped, matches_control, policy_text.
  destruct v as [| | | |l|d]; try discriminate.
  simpl. destruct (dict_get d "policy") as [[| | |s| |]|]; try discriminate; intros _;
    simpl; apply any_mapping_str.
Qed.

Lemma mapped_violations_ok (violations : list value) :
  forallb is_violation violations = true ->
  mapped_violations c violations = Ok (filter (matches_control c) violations).
Proof.
  intros H. unfold mapped_violations.
  rewrite (for_each_filter (matches_control c)); [reflexivity|].
  intros acc x Hx.
  rewrite forallb_forall in H.
  now rewrite (is_mapped_ok x (H x Hx)).
Qed.

Lemma is_violation_dict (v : value) : is_violation v = true -> is_dict v = true.
Proof. destruct v; simpl; congruence. Qed.

Lemma findings_of_ok (mapped : list value) :
  forallb is_dict mapped = true ->
  exists fs, findings_of mapped = Ok fs /\ Forall2 finding_of mapped fs.
Proof.
  induction mapped as [|v rest IH]; simpl; intros H.
  - exists []. split; [reflexivity | constructor].
  - apply andb_prop in H as [Hv Hrest].
    destruct (IH Hrest) as [fs [Hfs Hall]].
    destruct v as [| | | |l|d]; try discriminate.
    unfold finding at 1. simpl. rewrite Hfs. simpl.
    eexists. split; [reflexivity|].
    constructor; [|exact Hall].
    unfold finding_of. simpl. eauto.
Qed.

Lemma filter_dicts (violations : list value) :
  forallb is_violation violations = true ->
  forallb is_dict (filter (matches_control c) violations) = true.
Proof.
  intros H. rewrite forallb_forall in *.
  intros v Hv. apply filter_In in Hv as [Hv _].
  apply is_violation_dict. now apply H.
Qed.

(** The result of [_evaluate_control] in full, by the number of mapped
    violations. *)
Lemma evaluate_control_result (control_id : string) (violations : list value) :
  forallb is_violation violations = true ->
  let mapped := filter (matches_control c) violations in
  exists fs,
    findings_of mapped = Ok fs /\ Forall2 finding_of mapped fs /\
    _evaluate_control control_id c violations =
      Ok (if Z.of_nat (List.length mapped) =? 0 then
            {| control_id := control_id; cr_title := title c;
               cr_description := description c; status := "PASS"; score := 100;
               findings := [];
               evidence := ["No policy violations found for this control"] |}
          else if Z.of_nat (List.length mapped) <=? 2 then
            {| control_id := control_id; cr_title := title c;
               cr_description := description c; status := "PARTIAL"; score := 65;
               findings := fs; evidence := [] |}
          else
            {| control_id := control_id; cr_title := title c;
               cr_description := description c; status := "FAIL"; score := 25;
               findings := fs; evidence := [] |}).
Proof.
  intros H mapped.
  destruct (findings_of_ok mapped (filter_dicts violations H)) as [fs [Hfs Hall]].
  exists fs. split; [exact Hfs|]. split; [exact Hall|].
  unfold _evaluate_control. rewrite (mapped_violations_ok violations H). simpl.
  fold mapped.
  destruct (Z.of_nat (List.length mapped) =? 0); [reflexivity|].
  destruct (Z.of_nat (List.length mapped) <=? 2); rewrite Hfs; reflexivity.
Qed.

Lemma any_mapping_inv (policy : value) (mappings : list string) (b : bool) :
  any_mapping policy mappings = Ok b ->
  b = existsb (str_startswith (match policy with VStr s => s | _ => EmptyString end))
        mappings.
Proof.
  destruct policy as [| | |s| |];
    try (destruct mappings as [|m ms]; simpl; [intros H; now injection H as <- | discriminate]).
  rewrite any_mapping_str. intros H. now injection H as <-.
Qed.

Lemma is_mapped_inv (v : value) (b : bool) :
  is_mapped c v = Ok b -> b = matches_control c v.
Proof.
  unfold is_mapped, matches_control, policy_text.
  destruct v as [| | | |l|d]; try discriminate. simpl.
  intros H. apply any_mapping_inv in H. rewrite H.
  destruct (dict_get d "policy") as [[| | |s| |]|]; reflexivity.
Qed.

Lemma mapped_violations_inv (violations mapped : list value) :
  mapped_violations c violations = Ok mapped ->
  mapped = filter (matches_control c) violations.
Proof.
  unfold mapped_violations. intros H.
  apply (for_each_filter_inv (matches_control c)) in H; [exact H|].
  intros acc x acc' E.
  destruct (is_mapped c x) as [b|e] eqn:Eb; simpl in E; [|discriminate].
  injection E as <-. now rewrite (is_mapped_inv x b Eb).
Qed.

Lemma findings_of_inv (mapped : list value) :
  forall fs, findings_of mapped = Ok fs -> Forall2 finding_of mapped fs.
Proof.
  induction mapped as [|v rest IH]; simpl; intros fs H.
  - injection H as <-. constructor.
  - destruct (finding v) as [f|e] eqn:Ef; simpl in H; [|discriminate].
    destruct (findings_of rest) as [fs'|e] eqn:Efs; simpl in H; [|discriminate].
    injection H as <-. constructor; [|now apply IH].
    unfold finding in Ef.
    destruct (get v "severity" (VStr "MEDIUM")) as [severity|e] eqn:Es;
      simpl in Ef; [|discriminate].
    destruct (get v "message" (VStr "No message")) as [message|e] eqn:Em;
      simpl in Ef; [|discriminate].
    injection Ef as <-. exists severity, message. auto.
Qed.

(** Whatever [_evaluate_control] returns is this result. *)
Lemma evaluate_control_inv (control_id : string) (violations : list value)
    (r : control_result) :
  _evaluate_control control_id c violations = Ok r ->
  let mapped := filter (matches_control c) violations in
  mapped_violations c violations = Ok mapped /\
  exists fs,
    Forall2 finding_of mapped fs /\
    r = (if Z.of_nat (List.length mapped) =? 0 then
           {| control_id := control_id; cr_title := title c;
              cr_description := description c; status := "PASS"; score := 100;
              findings := [];
              evidence := ["No policy violations found for this control"] |}
         else if Z.of_nat (List.length mapped) <=? 2 then
           {| control_id := control_id; cr_title := title c;
              cr_description := description c; status := "PARTIAL"; score := 65;
              findings := fs; evidence := [] |}
         else
           {| control_id := control_id; cr_title := title c;
              cr_description := description c; status := "FAIL"; score := 25;
              findings := fs; evidence := [] |}).
Proof.
  intros H mapped. unfold _evaluate_control in H.
  destruct (mapped_violations c violations) as [mapped0|e] eqn:E; simpl in H;
    [|discriminate].
  pose proof (mapped_violations_inv _ _ E) as Hm. fold mapped in Hm. subst mapped0.
  split; [reflexivity|].
  destruct (Z.of_nat (List.length mapped) =? 0) eqn:E0.
  - injection H as <-. exists [].
    destruct mapped; [|discriminate]. split; [constructor | reflexivity].
  - destruct (Z.of_nat (List.length mapped) <=? 2);
      destruct (findings_of mapped) as [fs|e] eqn:Ef; simpl in H; try discriminate;
      injection H as <-; exists fs; (split; [now apply findings_of_inv | reflexivity]).
Qed.

End ControlEvaluator.

(** ** The framework aggregator *)

Section FrameworkAggregator.

Import ComplianceReporter.

Variable violations : list value.

Lemma loop_inv (items : list (string * control)) :
  forall acc res,
    for_each items (loop_body violations) acc = Ok res ->
    exists crs, Forall2 (evaluated violations) items crs /\ res = fold_left record_control crs acc.
Proof.
  induction items as [|item items IH]; simpl; intros acc res H.
  - injection H as <-. exists []. split; [constructor | reflexivity].
  - unfold loop_body at 1 in H.
    destruct (_evaluate_control (fst item) (snd item) violations) as [cr|e] eqn:E;
      simpl in H; [|discriminate].
    destruct (IH _ _ H) as [crs [Hall ->]].
    exists (cr :: crs). split; [constructor; assumption | reflexivity].
Qed.

Lemma loop_total (items : list (string * control)) :
  forallb is_violation violations = true ->
  forall acc, exists res, for_each items (loop_body violations) acc = Ok res.
Proof.
  intros Hv. induction items as [|item items IH]; simpl; intros acc.
  - eexists. reflexivity.
  - unfold loop_body at 1.
    destruct (evaluate_control_result (snd item) (fst item) violations Hv)
      as [fs [_ [_ ->]]].
    simpl. apply IH.
Qed.

Lemma fold_record_controls (crs : list control_result) :
  forall acc,
    controls (fold_left record_control crs acc) = (controls acc ++ crs)%list.
Proof.
  induction crs as [|cr crs IH]; intros acc; simpl.
  - now rewrite app_nil_r.
  - rewrite IH. unfold record_control.
    destruct (String.eqb (status cr) "PASS"); [|destruct (String.eqb (status cr) "PARTIAL")];
      simpl; now rewrite <- app_assoc.
Qed.

Lemma fold_record_counts (crs : list control_result) :
  forall acc,
    let res := fold_left record_control crs acc in
    pass_count res + partial_count res + fail_count res =
    pass_count acc + partial_count acc + fail_count acc + Z.of_nat (List.length crs).
Proof.
  induction crs as [|cr crs IH]; intros acc; simpl.
  - lia.
  - rewrite IH. unfold record_control.
    destruct (String.eqb (status cr) "PASS"); [|destruct (String.eqb (status cr) "PARTIAL")];
      simpl; lia.
Qed.

Lemma fold_record_score (crs : list control_result) :
  forall acc, overall_score (fold_left record_control crs acc) = overall_score acc.
Proof.
  induction crs as [|cr crs IH]; intros acc; simpl; [reflexivity|].
  rewrite IH. unfold record_control.
  destruct (String.eqb (status cr) "PASS"); [|destruct (String.eqb (status cr) "PARTIAL")];
    reflexivity.
Qed.

Lemma with_overall_score_fields (results : framework_results) :
  controls (with_overall_score results) = controls results /\
  pass_count (with_overall_score results) = pass_count results /\
  partial_count (with_overall_score results) = partial_count results /\
  fail_count (with_overall_score results) = fail_count results.
Proof.
  unfold with_overall_score.
  destruct (Z.of_nat (List.length (controls results)) >? 0); simpl; auto.
Qed.

Lemma evaluate_framework_unfold (frameworks : registry) (name : string) (fw : framework) :
  registry_get frameworks name = Some fw ->
  evaluate_framework frameworks name violations =
    (results <- for_each (fw_controls fw) (loop_body violations) (initial_results fw) ;;
     Ok (with_overall_score results)).
Proof. intros H. unfold evaluate_framework. rewrite H. reflexivity. Qed.

(** Whatever [evaluate_framework] returns is the fold of the control
    results, each computed on the whole violation list. *)
Lemma evaluate_framework_inv (frameworks : registry) (name : string) (fw : framework)
    (r : framework_results) :
  registry_get frameworks name = Some fw ->
  evaluate_framework frameworks name violations = Ok r ->
  exists crs,
    Forall2 (evaluated violations) (fw_controls fw) crs /\
    r = with_overall_score (fold_left record_control crs (initial_results fw)).
Proof.
  intros Hfw H. rewrite (evaluate_framework_unfold _ _ _ Hfw) in H.
  destruct (for_each (fw_controls fw) (loop_body violations) (initial_results fw)) as [res|e] eqn:E;
    simpl in H; [|discriminate].
  injection H as <-.
  destruct (loop_inv _ _ _ E) as [crs [Hall ->]].
  exists crs. split; [exact Hall | reflexivity].
Qed.

Lemma evaluate_framework_total (frameworks : registry) (name : string) (fw : framework) :
  registry_get frameworks name = Some fw ->
  forallb is_violation violations = true ->
  exists r, evaluate_framework frameworks name violations = Ok r.
Proof.
  intros Hfw Hv. rewrite (evaluate_framework_unfold _ _ _ Hfw).
  destruct (loop_total (fw_controls fw) Hv (initial_results fw)) as [res ->].
  simpl. eexists. reflexivity.
Qed.

End FrameworkAggregator.

(** ** Rounding *)

Lemma round_half_even_cases (x : Q) :
  round_half_even x = Qfloor x \/ round_half_even x = Qfloor x + 1.
Proof.
  unfold round_half_even.
  destruct (x - inject_Z (Qfloor x) ?= 1 # 2)%Q; auto.
  destruct (Z.even (Qfloor x)); auto.
Qed.

Lemma round_half_even_near (x : Q) :
  (Qabs (inject_Z (round_half_even x) - x) <= 1 # 2)%Q.
Proof.
  pose proof (Qfloor_le x) as Hlo.
  pose proof (Qlt_floor x) as Hhi.
  rewrite inject_Z_plus in Hhi.
  apply Qabs_case; intros _; unfold round_half_even;
    destruct (Qcompare_spec (x - inject_Z (Qfloor x)) (1 # 2)) as [E|E|E];
    try destruct (Z.even (Qfloor x)); try rewrite inject_Z_plus;
    change (inject_Z 1) with 1%Q in *; lra.
Qed.

Lemma round_half_even_between (a b : Z) (x : Q) :
  (inject_Z a <= x)%Q -> (x <= inject_Z b)%Q ->
  a <= round_half_even x <= b.
Proof.
  intros Ha Hb.
  pose proof (Qfloor_le x) as Hlo.
  pose proof (Qlt_floor x) as Hhi.
  rewrite inject_Z_plus in Hhi. change (inject_Z 1) with 1%Q in Hhi.
  assert (Hfa : a <= Qfloor x).
  { apply Z.lt_succ_r. rewrite Zlt_Qlt. unfold Z.succ. rewrite inject_Z_plus.
    change (inject_Z 1) with 1%Q. lra. }
  assert (Hfb : Qfloor x <= b).
  { rewrite Zle_Qle. lra. }
  split.
  - destruct (round_half_even_cases x) as [-> | ->]; lia.
  - destruct (Z.eq_dec (Qfloor x) b) as [Heq|Hne].
    + unfold round_half_even. rewrite Heq in *.
      assert (x == inject_Z b)%Q by lra.
      destruct (Qcompare_spec (x - inject_Z b) (1 # 2)) as [E|E|E]; [lra | lia | lra].
    + destruct (round_half_even_cases x) as [-> | ->]; lia.
Qed.

Lemma truediv_between (lo hi a b : Z) :
  0 < b -> lo * b <= a <= hi * b ->
  (inject_Z lo <= truediv a b <= inject_Z hi)%Q.
Proof.
  intros Hb [Hlo Hhi]. unfold truediv.
  assert (Hb' : (0 < inject_Z b)%Q) by (change 0%Q with (inject_Z 0); rewrite <- Zlt_Qlt; exact Hb).
  split.
  - apply Qle_shift_div_l; [exact Hb'|].
    rewrite <- inject_Z_mult, <- Zle_Qle. exact Hlo.
  - apply Qle_shift_div_r; [exact Hb'|].
    rewrite <- inject_Z_mult, <- Zle_Qle. exact Hhi.
Qed.

Lemma round1_near (x : Q) : (Qabs (round1 x - x) <= 1 # 20)%Q.
Proof.
  unfold round1.
  pose proof (round_half_even_near (x * 10)) as H.
  set (k := inject_Z (round_half_even (x * 10))) in *.
  apply Qabs_Qle_condition in H. apply Qabs_Qle_condition.
  destruct H as [H1 H2]. clearbody k.
  unfold Qdiv. change (/ 10)%Q with (1 # 10)%Q. split; lra.
Qed.

Lemma round1_between (lo hi : Z) (x : Q) :
  (inject_Z lo <= x <= inject_Z hi)%Q ->
  (inject_Z lo <= round1 x <= inject_Z hi)%Q.
Proof.
  intros [Hlo Hhi]. unfold round1.
  destruct (round_half_even_between (lo * 10) (hi * 10) (x * 10)) as [H1 H2].
  - rewrite inject_Z_mult. change (inject_Z 10) with 10%Q. lra.
  - rewrite inject_Z_mult. change (inject_Z 10) with 10%Q. lra.
  - rewrite Zle_Qle, inject_Z_mult in H1, H2.
    change (inject_Z 10) with 10%Q in *.
    set (k := inject_Z (round_half_even (x * 10))) in *. clearbody k.
    unfold Qdiv. change (/ 10)%Q with (1 # 10)%Q. split; lra.
Qed.

(** ** Scores *)

Section Scores.

Import ComplianceReporter.

Lemma evaluate_control_score (control_id : string) (c : control)
    (violations : list value) (cr : control_result) :
  _evaluate_control control_id c violations = Ok cr ->
  score cr = 100 \/ score cr = 65 \/ score cr = 25.
Proof.
  unfold _evaluate_control.
  destruct (mapped_violations c violations) as [mapped|e]; simpl; [|discriminate].
  destruct (Z.of_nat (List.length mapped) =? 0).
  - intros H. injection H as <-. auto.
  - destruct (Z.of_nat (List.length mapped) <=? 2);
      destruct (findings_of mapped) as [fs|e]; simpl; try discriminate;
      intros H; injection H as <-; auto.
Qed.

Lemma total_score_from (cs : list control_result) :
  forall acc, fold_left (fun acc c => acc + score c) cs acc =
              acc + fold_right Z.add 0 (map score cs).
Proof.
  induction cs as [|c cs IH]; intros acc; simpl; [lia|].
  rewrite IH. lia.
Qed.

Lemma total_score_sum (cs : list control_result) :
  total_score cs = fold_right Z.add 0 (map score cs).
Proof. unfold total_score. now rewrite total_score_from. Qed.

Lemma scores_between (violations : list value) (items : list (string * control))
    (crs : list control_result) :
  Forall2 (evaluated violations) items crs ->
  0 <= total_score crs <= 100 * Z.of_nat (List.length crs).
Proof.
  rewrite total_score_sum.
  induction 1 as [|item cr items crs Hcr _ IH].
  - simpl. lia.
  - apply evaluate_control_score in Hcr.
    cbn [map fold_right List.length]. rewrite Nat2Z.inj_succ. lia.
Qed.

End Scores.

Example sox_404_registered : dict_get (fw_controls sox) "SOX-404" = Some SOX_404.
Proof. reflexivity. Qed.

Example sox_302_registered : dict_get (fw_controls sox) "SOX-302" = Some SOX_302.
Proof. reflexivity. Qed.

(** ** Properties of the control evaluator *)

(** *** The errors of the control evaluator *)

Lemma for_each_raises {A S} (P : exn -> Prop) (body : S -> A -> result S)
    (xs : list A) :
  (forall acc x e, body acc x = Raise e -> P e) ->
  forall acc e, for_each xs body acc = Raise e -> P e.
Proof.
  intros Hbody. induction xs as [|x xs IH]; intros acc e; simpl; [discriminate|].
  destruct (body acc x) as [acc'|e'] eqn:E; simpl.
  - apply IH.
  - intros [= <-]. exact (Hbody _ _ _ E).
Qed.

Lemma get_raises (x : value) (key : string) (default : value) (e : exn) :
  get x key default = Raise e -> e = AttributeError.
Proof. destruct x; simpl; congruence. Qed.

Lemma startswith_raises (x : value) (prefix : string) (e : exn) :
  startswith x prefix = Raise e -> e = AttributeError.
Proof. destruct x; simpl; congruence. Qed.

Lemma any_mapping_raises (policy : value) (mappings : list string) (e : exn) :
  ComplianceReporter.any_mapping policy mappings = Raise e -> e = AttributeError.
Proof.
  induction mappings as [|m rest IH]; simpl; [discriminate|].
  destruct (startswith policy m) as [[|]|e'] eqn:E; simpl.
  - discriminate.
  - exact IH.
  - intros [= <-]. exact (startswith_raises _ _ _ E).
Qed.

Lemma findings_of_raises (mapped : list value) (e : exn) :
  ComplianceReporter.findings_of mapped = Raise e -> e = AttributeError.
Proof.
  induction mapped as [|v rest IH]; simpl; [discriminate|].
  unfold ComplianceReporter.finding.
  destruct (get v "severity" (VStr "MEDIUM")) as [sev|e1] eqn:E1; simpl;
    [|intros [= <-]; exact (get_raises _ _ _ _ E1)].
  destruct (get v "message" (VStr "No message")) as [msg|e2] eqn:E2; simpl;
    [|intros [= <-]; exact (get_raises _ _ _ _ E2)].
  destruct (ComplianceReporter.findings_of rest) as [fs|e3]; simpl; [discriminate|].
  intros [= <-]. now apply IH.
Qed.

Lemma evaluate_control_raises (cid : string) (c : control) (violations : list value)
    (e : exn) :
  ComplianceReporter._evaluate_control cid c violations = Raise e -> e = AttributeError.
Proof.
  unfold ComplianceReporter._evaluate_control.
  destruct (ComplianceReporter.mapped_violations c violations) as [mapped|e'] eqn:E; simpl.
  - destruct (Z.of_nat (List.length mapped) =? 0); [discriminate|].
    destruct (Z.of_nat (List.length mapped) <=? 2);
      destruct (ComplianceReporter.findings_of mapped) as [fs|e''] eqn:Ef; simpl;
      try discriminate; intros [= <-]; exact (findings_of_raises _ _ Ef).
  - intros [= <-]. revert E. unfold ComplianceReporter.mapped_violations.
    apply (for_each_raises (fun e => e = AttributeError)). intros acc x e0.
    unfold ComplianceReporter.is_mapped.
    destruct (get x "policy" (VStr EmptyString)) as [policy|e1] eqn:E1; simpl;
      [|intros [= <-]; exact (get_raises _ _ _ _ E1)].
    destruct (ComplianceReporter.any_mapping policy (policy_mappings c)) as [hit|e2] eqn:E2;
      simpl; [discriminate|].
    intros [= <-]. exact (any_mapping_raises _ _ _ E2).
Qed.

Lemma evaluate_control_returned (cid : string) (c : control) (violations : list value)
    (r : control_result) :
  ComplianceReporter._evaluate_control cid c violations = Ok r ->
  control_id r = cid /\ cr_title r = title c /\ cr_description r = description c /\
  status r = status_for (mapped_count c violations) /\
  score r = score_for (mapped_count c violations).
Proof.
  intros Hr.
  destruct (evaluate_control_inv c cid violations r Hr) as [_ [fs [_ ->]]].
  unfold mapped_count.
  destruct (filter (matches_control c) violations) as [|a [|b [|d rest]]] eqn:E;
    try (repeat split; reflexivity).
  assert (Hn : (Z.of_nat (List.length (a :: b :: d :: rest)) <=? 2) = false)
    by (apply Z.leb_gt; simpl List.length; lia).
  assert (H0 : (Z.of_nat (List.length (a :: b :: d :: rest)) =? 0) = false)
    by (apply Z.eqb_neq; simpl List.length; lia).
  rewrite H0, Hn. repeat split; reflexivity.
Qed.

(** C1. For every control and every list of violations, what
    [_evaluate_control] returns has status PASS and score 100 when no
    violation of the list matches the control, PARTIAL and 65 when one
    or two do, and FAIL and 25 when three or more do; the score is one
    of 100, 65 and 25.  The matched violations are counted on the input,
    by [mapped_count].  It returns on every list of violations of the
    data model; the one error it can raise is the [AttributeError] of a
    violation that is no mapping or whose policy is no text. *)
Theorem evaluate_control_thresholds (control_id : string) (c : control)
    (violations : list value) :
  (forallb is_violation violations = true ->
   exists r, ComplianceReporter._evaluate_control control_id c violations = Ok r) /\
  (forall r,
     ComplianceReporter._evaluate_control control_id c violations = Ok r ->
     (mapped_count c violations = 0%nat -> status r = "PASS" /\ score r = 100) /\
     (mapped_count c violations = 1%nat \/ mapped_count c violations = 2%nat ->
        status r = "PARTIAL" /\ score r = 65) /\
     ((3 <= mapped_count c violations)%nat -> status r = "FAIL" /\ score r = 25) /\
     (score r = 100 \/ score r = 65 \/ score r = 25)) /\
  (forall e,
     ComplianceReporter._evaluate_control control_id c violations = Raise e ->
     e = AttributeError /\ forallb is_violation violations = false).
Proof.
  split; [|split].
  - intros H.
    destruct (evaluate_control_result c control_id violations H) as [fs [_ [_ Heq]]].
    eexists. exact Heq.
  - intros r Hr.
    destruct (evaluate_control_returned control_id c violations r Hr)
      as [_ [_ [_ [Hstatus Hscore]]]].
    rewrite Hstatus, Hscore.
    destruct (mapped_count c violations) as [|[|[|n]]]; cbn [status_for score_for];
      repeat split; intros; try lia; try discriminate; auto;
      match goal with H : _ \/ _ |- _ => destruct H; discriminate end.
  - intros e He. split; [exact (evaluate_control_raises _ _ _ _ He)|].
    destruct (forallb is_violation violations) eqn:Hv; [|reflexivity].
    destruct (evaluate_control_result c control_id violations Hv) as [fs [_ [_ Heq]]].
    rewrite Heq in He. discriminate He.
Qed.

Lemma evaluate_control_thresholds_witness :
  (exists r,
     ComplianceReporter._evaluate_control "SOX-404" SOX_404 three_s3_violations = Ok r /\
     status r = "FAIL" /\ score r = 25) /\
  (exists r,
     ComplianceReporter._evaluate_control "SOX-404" SOX_404 [s3_violation; s3_violation]
       = Ok r /\
     status r = "PARTIAL" /\ score r = 65) /\
  (exists r,
     ComplianceReporter._evaluate_control "SOX-404" SOX_404 [unmapped_violation] = Ok r /\
     status r = "PASS" /\ score r = 100).
Proof.
  split; [|split].
  - destruct (evaluate_control_thresholds "SOX-404" SOX_404 three_s3_violations)
      as [Hret [Hres _]].
    destruct (Hret eq_refl) as [r Hr]. exists r. split; [exact Hr|].
    apply (Hres r Hr). cbv. repeat constructor.
  - destruct (evaluate_control_thresholds "SOX-404" SOX_404 [s3_violation; s3_violation])
      as [Hret [Hres _]].
    destruct (Hret eq_refl) as [r Hr]. exists r. split; [exact Hr|].
    apply (Hres r Hr). right. reflexivity.
  - destruct (evaluate_control_thresholds "SOX-404" SOX_404 [unmapped_violation])
      as [Hret [Hres _]].
    destruct (Hret eq_refl) as [r Hr]. exists r. split; [exact Hr|].
    apply (Hres r Hr). reflexivity.
Defined.

(** The boundary between two and three mapped violations. *)
Example two_violations_partial :
  ComplianceReporter._evaluate_control "SOX-404" SOX_404 [s3_violation; s3_violation] =
  Ok {| control_id := "SOX-404"; cr_title := title SOX_404;
        cr_description := description SOX_404; status := "PARTIAL"; score := 65;
        findings := [ "HIGH: Bucket is not encrypted"; "HIGH: Bucket is not encrypted" ];
        evidence := [] |}.
Proof. reflexivity. Qed.

Example three_violations_fail :
  ComplianceReporter._evaluate_control "SOX-404" SOX_404 three_s3_violations =
  Ok {| control_id := "SOX-404"; cr_title := title SOX_404;
        cr_description := description SOX_404; status := "FAIL"; score := 25;
        findings := [ "HIGH: Bucket is not encrypted"; "HIGH: Bucket is not encrypted";
                      "HIGH: Bucket is not encrypted" ];
        evidence := [] |}.
Proof. reflexivity. Qed.

Lemma shows_format (x : value) : shows x (format x).
Proof. destruct x as [| [|] | | | |]; reflexivity. Qed.

Lemma finding_of_formatted (v : value) (f : string) : finding_of v f -> formatted v f.
Proof.
  intros [severity [message [Hs [Hm ->]]]].
  destruct v as [| | | | |d]; try discriminate.
  cbn [get] in Hs, Hm. injection Hs as <-. injection Hm as <-.
  eexists. eexists. split; [|split; [|reflexivity]]; cbn [field_shows].
  - destruct (dict_get d "severity"); [apply shows_format | reflexivity].
  - destruct (dict_get d "message"); [apply shows_format | reflexivity].
Qed.

Lemma findings_formatted (mapped : list value) (fs : list string) :
  Forall2 finding_of mapped fs -> Forall2 formatted mapped fs.
Proof.
  induction 1; constructor; [now apply finding_of_formatted | assumption].
Qed.

(** C8. A result with status PASS has no findings and the one evidence
    entry [No policy violations found for this control]; a result with
    status PARTIAL or FAIL has no evidence and one finding per violation
    of the input that matches the control, in the order of the input,
    made of the severity (MEDIUM when missing), a colon and a space, and
    the message (No message when missing). *)
Theorem evaluate_control_findings (control_id : string) (c : control)
    (violations : list value) :
  (forallb is_violation violations = true ->
   exists r, ComplianceReporter._evaluate_control control_id c violations = Ok r) /\
  (forall r,
     ComplianceReporter._evaluate_control control_id c violations = Ok r ->
     (status r = "PASS" \/ status r = "PARTIAL" \/ status r = "FAIL") /\
     (status r = "PASS" ->
        findings r = [] /\
        evidence r = ["No policy violations found for this control"]) /\
     (status r = "PARTIAL" \/ status r = "FAIL" ->
        evidence r = [] /\
        Forall2 formatted (filter (matches_control c) violations) (findings r))).
Proof.
  split.
  - intros H.
    destruct (evaluate_control_result c control_id violations H) as [fs [_ [_ Heq]]].
    eexists. exact Heq.
  - intros r Hr.
    destruct (evaluate_control_inv c control_id violations r Hr) as [_ [fs [Hall ->]]].
    apply findings_formatted in Hall.
    destruct (Z.of_nat (List.length (filter (matches_control c) violations)) =? 0);
      [|destruct (Z.of_nat (List.length (filter (matches_control c) violations)) <=? 2)];
      simpl.
    + split; [auto|]. split; [auto|]. intros [E|E]; discriminate E.
    + split; [auto|]. split; [intros E; discriminate E|]. auto.
    + split; [auto|]. split; [intros E; discriminate E|]. auto.
Qed.

Lemma evaluate_control_findings_witness :
  exists r,
    ComplianceReporter._evaluate_control "SOX-404" SOX_404 [sox_violation; s3_violation]
      = Ok r /\
    status r = "PARTIAL" /\
    findings r = ["MEDIUM: No message"; "HIGH: Bucket is not encrypted"] /\
    evidence r = [] /\
    Forall2 formatted (filter (matches_control SOX_404) [sox_violation; s3_violation])
      (findings r).
Proof.
  eexists. split; [reflexivity|]. split; [reflexivity|]. split; [reflexivity|].
  destruct (evaluate_control_findings "SOX-404" SOX_404 [sox_violation; s3_violation])
    as [_ H].
  apply (H _ eq_refl). left. reflexivity.
Defined.

(** The defaults at work: a violation with neither severity nor message. *)
Example finding_defaults :
  ComplianceReporter.finding sox_violation = Ok "MEDIUM: No message".
Proof. reflexivity. Qed.

Example finding_of_strings (d : list (string * value)) (severity message : string) :
  dict_get d "severity" = Some (VStr severity) ->
  dict_get d "message" = Some (VStr message) ->
  finding_of (VDict d) (severity ++ ": " ++ message).
Proof.
  intros Hs Hm. exists (VStr severity), (VStr message).
  simpl. rewrite Hs, Hm. auto.
Qed.

Lemma matches_control_spec (c : control) (v : value) :
  matches_control c v = true <->
  exists mapping rest, In mapping (policy_mappings c) /\ policy_text v = mapping ++ rest.
Proof.
  unfold matches_control. rewrite existsb_exists. split.
  - intros [mapping [Hin H]]. apply str_startswith_inv in H as [rest H].
    exists mapping, rest. auto.
  - intros [mapping [rest [Hin H]]]. exists mapping. split; [exact Hin|].
    rewrite H. apply str_startswith_app.
Qed.

Lemma evaluated_controls (violations : list value) (frameworks : registry)
    (name : string) (fw : framework) (r : framework_results) :
  registry_get frameworks name = Some fw ->
  ComplianceReporter.evaluate_framework frameworks name violations = Ok r ->
  Forall2 (evaluated violations) (fw_controls fw) (controls r).
Proof.
  intros Hfw H.
  destruct (evaluate_framework_inv violations frameworks name fw r Hfw H) as [crs [Hall ->]].
  destruct (with_overall_score_fields
              (fold_left ComplianceReporter.record_control crs (initial_results fw)))
    as [-> _].
  rewrite fold_record_controls. exact Hall.
Qed.

(** C2. A violation is mapped to a control exactly when its policy (the
    empty string when it has none) starts, character for character, with
    one of the prefixes of the control; the violations mapped to a
    control are those of the input that match it, in their order; every
    control of a framework is evaluated on the whole list, so that a
    violation may be counted by several controls. *)
Theorem violation_matches_by_prefix (c : control) (violations : list value) :
  (forallb is_violation violations = true ->
   exists mapped, ComplianceReporter.mapped_violations c violations = Ok mapped) /\
  (forall mapped,
     ComplianceReporter.mapped_violations c violations = Ok mapped ->
     mapped = filter (matches_control c) violations) /\
  (forall v,
     (is_violation v = true ->
      ComplianceReporter.is_mapped c v = Ok (matches_control c v)) /\
     (forall b, ComplianceReporter.is_mapped c v = Ok b -> b = matches_control c v) /\
     (matches_control c v = true <->
      exists mapping rest,
        In mapping (policy_mappings c) /\ policy_text v = mapping ++ rest)) /\
  (forall frameworks name fw r,
     registry_get frameworks name = Some fw ->
     ComplianceReporter.evaluate_framework frameworks name violations = Ok r ->
     Forall2 (evaluated violations) (fw_controls fw) (controls r)).
Proof.
  split; [intros H; eexists; apply mapped_violations_ok; exact H|].
  split; [intros mapped; apply mapped_violations_inv|].
  split.
  - intros v. split; [apply is_mapped_ok|].
    split; [apply is_mapped_inv | apply matches_control_spec].
  - intros frameworks name fw r. apply evaluated_controls.
Qed.

Lemma violation_matches_by_prefix_witness :
  (forallb is_violation [sox_violation; s3_violation] = true ->
   exists mapped,
     ComplianceReporter.mapped_violations SOX_404 [sox_violation; s3_violation]
       = Ok mapped) /\
  (forall mapped,
     ComplianceReporter.mapped_violations SOX_404 [sox_violation; s3_violation]
       = Ok mapped ->
     mapped = filter (matches_control SOX_404) [sox_violation; s3_violation]) /\
  (forall v,
     (is_violation v = true ->
      ComplianceReporter.is_mapped SOX_404 v = Ok (matches_control SOX_404 v)) /\
     (forall b,
        ComplianceReporter.is_mapped SOX_404 v = Ok b -> b = matches_control SOX_404 v) /\
     (matches_control SOX_404 v = true <->
      exists mapping rest,
        In mapping (policy_mappings SOX_404) /\ policy_text v = mapping ++ rest)) /\
  (forall frameworks name fw r,
     registry_get frameworks name = Some fw ->
     ComplianceReporter.evaluate_framework frameworks name [sox_violation; s3_violation]
       = Ok r ->
     Forall2 (evaluated [sox_violation; s3_violation]) (fw_controls fw) (controls r)).
Proof.
  exact (violation_matches_by_prefix SOX_404 [sox_violation; s3_violation]).
Defined.

(** One violation counted by two controls of the same framework. *)
Example counted_by_several_controls :
  ComplianceReporter.mapped_violations SOX_302 [sox_violation] = Ok [sox_violation] /\
  ComplianceReporter.mapped_violations SOX_404 [sox_violation] = Ok [sox_violation].
Proof. split; reflexivity. Qed.

(** The comparison is by characters: another case does not match, and a
    star in a prefix is a star. *)
Example matching_is_case_sensitive :
  matches_control SOX_404 (VDict [("policy", VStr "AWS.security.s3_encryption")]) = false.
Proof. reflexivity. Qed.

Example matching_has_no_wildcard :
  matches_control
    {| title := "t"; description := "d"; policy_mappings := ["aws.*"] |}
    s3_violation = false.
Proof. reflexivity. Qed.

(** ** Properties of the framework aggregator *)

Lemma record_control_one (results : framework_results) (cr : control_result) :
  let after := ComplianceReporter.record_control results cr in
  (pass_count after = pass_count results + 1 /\
   partial_count after = partial_count results /\
   fail_count after = fail_count results) \/
  (pass_count after = pass_count results /\
   partial_count after = partial_count results + 1 /\
   fail_count after = fail_count results) \/
  (pass_count after = pass_count results /\
   partial_count after = partial_count results /\
   fail_count after = fail_count results + 1).
Proof.
  unfold ComplianceReporter.record_control.
  destruct (String.eqb (status cr) "PASS"); [|destruct (String.eqb (status cr) "PARTIAL")];
    simpl; auto.
Qed.

(** C3. For every framework of the registry and every list of
    violations, the result of [evaluate_framework] has one control result
    per control of the framework and its three counters add up to the
    number of controls; recording a control result increments exactly
    one counter. *)
Theorem framework_counts_sum (frameworks : registry) (name : string) (fw : framework)
    (violations : list value) :
  registry_get frameworks name = Some fw ->
  (forallb is_violation violations = true ->
   exists r, ComplianceReporter.evaluate_framework frameworks name violations = Ok r) /\
  (forall r,
     ComplianceReporter.evaluate_framework frameworks name violations = Ok r ->
     List.length (controls r) = List.length (fw_controls fw) /\
     pass_count r + partial_count r + fail_count r
       = Z.of_nat (List.length (fw_controls fw))) /\
  (forall results cr,
     let after := ComplianceReporter.record_control results cr in
     (pass_count after = pass_count results + 1 /\
      partial_count after = partial_count results /\
      fail_count after = fail_count results) \/
     (pass_count after = pass_count results /\
      partial_count after = partial_count results + 1 /\
      fail_count after = fail_count results) \/
     (pass_count after = pass_count results /\
      partial_count after = partial_count results /\
      fail_count after = fail_count results + 1)).
Proof.
  intros Hfw.
  split; [apply (evaluate_framework_total violations frameworks name fw Hfw)|].
  split; [|apply record_control_one].
  intros r Hr.
  destruct (evaluate_framework_inv violations frameworks name fw r Hfw Hr) as [crs [Hall ->]].
  pose proof (Forall2_length Hall) as Hlen.
  destruct (with_overall_score_fields
              (fold_left ComplianceReporter.record_control crs (initial_results fw)))
    as [-> [-> [-> ->]]].
  split; [rewrite fold_record_controls; simpl; congruence|].
  pose proof (fold_record_counts crs (initial_results fw)) as Hsum.
  simpl in Hsum. rewrite Hsum, Hlen. lia.
Qed.

Lemma framework_counts_sum_witness :
  (forallb is_violation three_s3_violations = true ->
   exists r,
     ComplianceReporter.evaluate_framework FRAMEWORK_CONTROLS "sox" three_s3_violations
       = Ok r) /\
  (forall r,
     ComplianceReporter.evaluate_framework FRAMEWORK_CONTROLS "sox" three_s3_violations
       = Ok r ->
     List.length (controls r) = List.length (fw_controls sox) /\
     pass_count r + partial_count r + fail_count r
       = Z.of_nat (List.length (fw_controls sox))) /\
  (forall results cr,
     let after := ComplianceReporter.record_control results cr in
     (pass_count after = pass_count results + 1 /\
      partial_count after = partial_count results /\
      fail_count after = fail_count results) \/
     (pass_count after = pass_count results /\
      partial_count after = partial_count results + 1 /\
      fail_count after = fail_count results) \/
     (pass_count after = pass_count results /\
      partial_count after = partial_count results /\
      fail_count after = fail_count results + 1)).
Proof.
  apply (framework_counts_sum FRAMEWORK_CONTROLS "sox" sox three_s3_violations).
  reflexivity.
Defined.

Lemma overall_score_of (results : framework_results) :
  overall_score (ComplianceReporter.with_overall_score results) =
  if Z.of_nat (List.length (controls results)) >? 0
  then round1 (mean (map score (controls results)))
  else overall_score results.
Proof.
  unfold ComplianceReporter.with_overall_score, mean.
  rewrite length_map, total_score_sum.
  destruct (Z.of_nat (List.length (controls results)) >? 0); reflexivity.
Qed.

Lemma round1_tie (x : Q) :
  (Qabs (round1 x - x) == 1 # 20)%Q -> Z.even (round_half_even (x * 10)) = true.
Proof.
  unfold round1, round_half_even.
  pose proof (Qfloor_le (x * 10)) as Hlo.
  pose proof (Qlt_floor (x * 10)) as Hhi.
  rewrite inject_Z_plus in Hhi. change (inject_Z 1) with 1%Q in Hhi.
  destruct (Qcompare_spec (x * 10 - inject_Z (Qfloor (x * 10))) (1 # 2)) as [E|E|E].
  - intros _. destruct (Z.even (Qfloor (x * 10))) eqn:Heven; [exact Heven|].
    rewrite Z.add_1_r, Z.even_succ, <- Z.negb_even, Heven. reflexivity.
  - intros H. exfalso.
    set (k := inject_Z (Qfloor (x * 10))) in *. clearbody k.
    unfold Qdiv in H. change (/ 10)%Q with (1 # 10)%Q in H.
    rewrite Qabs_neg in H by lra. lra.
  - intros H. exfalso. rewrite inject_Z_plus in H. change (inject_Z 1) with 1%Q in H.
    set (k := inject_Z (Qfloor (x * 10))) in *. clearbody k.
    unfold Qdiv in H. change (/ 10)%Q with (1 # 10)%Q in H.
    rewrite Qabs_pos in H by lra. lra.
Qed.

Lemma mean_truediv (scores : list Z) :
  mean scores = truediv (fold_right Z.add 0 scores) (Z.of_nat (List.length scores)).
Proof. reflexivity. Qed.

Lemma evaluated_scores (violations : list value) (items : list (string * control))
    (crs : list control_result) :
  Forall2 (evaluated violations) items crs ->
  map score crs = map (fun item => score_for (mapped_count (snd item) violations)) items.
Proof.
  induction 1 as [|item cr items crs Hcr _ IH]; [reflexivity|].
  cbn [map]. rewrite IH. f_equal.
  now destruct (evaluate_control_returned _ _ _ _ Hcr) as [_ [_ [_ [_ ->]]]].
Qed.

(** C4. For every framework of the registry and every list of
    violations, the control scores are those of the matched violations,
    and [overall_score] is their arithmetic mean rounded to one decimal
    place: a number of tenths no further than one twentieth from the
    mean, the even number of tenths when the mean is half-way between
    two; it lies between 0 and 100.  For a framework without controls it
    is 0, and nothing is divided. *)
Theorem overall_score_rounded_mean (frameworks : registry) (name : string)
    (fw : framework) (violations : list value) :
  registry_get frameworks name = Some fw ->
  (forallb is_violation violations = true ->
   exists r, ComplianceReporter.evaluate_framework frameworks name violations = Ok r) /\
  (forall r,
     ComplianceReporter.evaluate_framework frameworks name violations = Ok r ->
     map score (controls r)
     = map (fun item => score_for (mapped_count (snd item) violations)) (fw_controls fw) /\
     (fw_controls fw = [] -> overall_score r = 0%Q) /\
     (fw_controls fw <> [] ->
        exists tenths : Z,
          overall_score r = (inject_Z tenths / 10)%Q /\
          (Qabs (overall_score r - mean (map score (controls r))) <= 1 # 20)%Q /\
          ((Qabs (overall_score r - mean (map score (controls r))) == 1 # 20)%Q ->
           Z.even tenths = true)) /\
     (exists tenths : Z, (overall_score r == inject_Z tenths / 10)%Q) /\
     (0 <= overall_score r <= 100)%Q).
Proof.
  intros Hfw.
  split; [apply (evaluate_framework_total violations frameworks name fw Hfw)|].
  intros r Hr.
  destruct (evaluate_framework_inv violations frameworks name fw r Hfw Hr) as [crs [Hall ->]].
  pose proof (Forall2_length Hall) as Hlen.
  pose proof (scores_between violations _ _ Hall) as Hscores.
  pose proof (evaluated_scores violations _ _ Hall) as Heach.
  rewrite total_score_sum in Hscores.
  destruct (with_overall_score_fields
              (fold_left ComplianceReporter.record_control crs (initial_results fw)))
    as [Hcs _].
  rewrite Hcs, overall_score_of, fold_record_controls, fold_record_score.
  simpl controls. simpl overall_score. rewrite app_nil_l.
  split; [exact Heach|].
  destruct crs as [|cr crs].
  - simpl. split; [reflexivity|]. split.
    + intros Hne. destruct (fw_controls fw); [contradiction | discriminate].
    + split; [exists 0; reflexivity | split; discriminate].
  - assert (Hpos : 0 < Z.of_nat (List.length (cr :: crs))) by (simpl; lia).
    destruct (Z.gtb_spec (Z.of_nat (List.length (cr :: crs))) 0) as [_|Hle]; [|lia].
    split.
    + intros Hnil. rewrite Hnil in Hlen. discriminate.
    + split.
      * intros _. exists (round_half_even (mean (map score (cr :: crs)) * 10)).
        split; [reflexivity|]. split; [apply round1_near | apply round1_tie].
      * split; [eexists; unfold round1; reflexivity|].
        apply (round1_between 0 100). rewrite mean_truediv, length_map.
        apply truediv_between; [exact Hpos | lia].
Qed.

Lemma overall_score_rounded_mean_witness :
  exists r,
    ComplianceReporter.evaluate_framework FRAMEWORK_CONTROLS "sox" three_s3_violations
      = Ok r /\
    map score (controls r) = [100; 25; 100] /\
    (mean (map score (controls r)) == 75)%Q /\
    (exists tenths : Z,
       overall_score r = (inject_Z tenths / 10)%Q /\
       (Qabs (overall_score r - mean (map score (controls r))) <= 1 # 20)%Q /\
       ((Qabs (overall_score r - mean (map score (controls r))) == 1 # 20)%Q ->
        Z.even tenths = true)) /\
    (0 <= overall_score r <= 100)%Q.
Proof.
  eexists. split; [reflexivity|]. split; [reflexivity|]. split; [reflexivity|].
  destruct (overall_score_rounded_mean FRAMEWORK_CONTROLS "sox" sox three_s3_violations
              eq_refl) as [_ H].
  destruct (H _ eq_refl) as [_ [_ [Hmean [_ Hbounds]]]].
  split; [|exact Hbounds]. apply Hmean. discriminate.
Defined.

(** The example of the specification: three violations of
    [aws.security.s3_encryption] against SOX give 100, 25 and 100, and
    the overall score 75.0. *)
Example sox_three_s3 :
  exists r,
    ComplianceReporter.evaluate_framework FRAMEWORK_CONTROLS "sox" three_s3_violations
      = Ok r /\
    map control_id (controls r) = ["SOX-302"; "SOX-404"; "SOX-ITGC"] /\
    map status (controls r) = ["PASS"; "FAIL"; "PASS"] /\
    map score (controls r) = [100; 25; 100] /\
    (overall_score r == 75)%Q /\
    pass_count r = 2 /\ partial_count r = 0 /\ fail_count r = 1.
Proof.
  eexists. split; [reflexivity|]. repeat split.
Qed.

(** Without violations every control passes and the score is 100.0. *)
Example sox_no_violations :
  exists r,
    ComplianceReporter.evaluate_framework FRAMEWORK_CONTROLS "sox" [] = Ok r /\
    (overall_score r == 100)%Q /\
    pass_count r = 3 /\ partial_count r = 0 /\ fail_count r = 0.
Proof.
  eexists. split; [reflexivity|]. repeat split.
Qed.

(** For the four frameworks of [FRAMEWORK_CONTROLS], which have 3, 6, 5
    and 5 controls, ten times the mean is never half-way between two
    integers: the rounding never meets a tie, so the direction in which
    ties are broken plays no part in [overall_score]. *)
Lemma registered_mean_never_tied (name : string) (fw : framework)
    (violations : list value) (r : framework_results) (f : Z) :
  registry_get FRAMEWORK_CONTROLS name = Some fw ->
  ComplianceReporter.evaluate_framework FRAMEWORK_CONTROLS name violations = Ok r ->
  ~ (mean (map score (controls r)) * 10 - inject_Z f == 1 # 2)%Q.
Proof.
  intros Hfw Hr H.
  pose proof (Forall2_length (evaluated_controls violations _ _ _ _ Hfw Hr)) as Hlen.
  assert (Hn : Z.of_nat (List.length (map score (controls r))) = 3 \/
               Z.of_nat (List.length (map score (controls r))) = 5 \/
               Z.of_nat (List.length (map score (controls r))) = 6).
  { rewrite length_map, <- Hlen. clear - Hfw.
    unfold registry_get, FRAMEWORK_CONTROLS in Hfw. simpl in Hfw.
    repeat match type of Hfw with
           | (if ?b then _ else _) = _ => destruct b
           end; try discriminate; injection Hfw as <-; simpl; auto. }
  unfold mean, truediv in H.
  set (total := fold_right Z.add 0 (map score (controls r))) in *.
  set (n := Z.of_nat (List.length (map score (controls r)))) in *.
  clearbody total n.
  assert (Hz : 20 * total = n * (2 * f + 1)).
  { destruct Hn as [-> | [-> | ->]]; unfold Qeq in H; simpl in H; lia. }
  destruct Hn as [-> | [-> | ->]]; lia.
Qed.

(** A framework without controls: the score stays the initial 0. *)
Example no_controls_score :
  ComplianceReporter.evaluate_framework
    [("empty", {| fw_name := "Empty"; fw_description := EmptyString; fw_controls := [] |})]
    "empty" three_s3_violations
  = Ok {| framework_name_of := "Empty"; fr_description := EmptyString; controls := [];
          overall_score := 0; pass_count := 0; partial_count := 0; fail_count := 0 |}.
Proof. reflexivity. Qed.






Example unknown_framework_hipaa :
  ComplianceReporter.evaluate_framework FRAMEWORK_CONTROLS "hipaa" [] =
  Raise (ValueError "Unknown framework: hipaa").
Proof. reflexivity. Qed.

Example registered_framework_returns :
  exists r,
    ComplianceReporter.evaluate_framework FRAMEWORK_CONTROLS "pci" three_s3_violations
      = Ok r /\
    pass_count r = 5 /\ partial_count r = 0 /\ fail_count r = 1.
Proof. eexists. split; [reflexivity|]. repeat split. Qed.

(** ** The violation normalizer *)

Lemma failures_loop (failures : list value) :
  forallb is_dict failures = true ->
  forall acc,
    for_each failures
      (fun violations failure =>
         msg <- get failure "msg" VNone ;;
         Ok (if is_dict msg then (violations ++ [msg])%list else violations))
      acc
    = Ok (acc ++ filter is_dict (map msg_of failures))%list.
Proof.
  induction failures as [|f fs IH]; simpl; intros H acc.
  - now rewrite app_nil_r.
  - apply andb_prop in H as [Hf Hfs].
    destruct f as [| | | |l|d]; try discriminate. simpl.
    rewrite (IH Hfs).
    destruct (is_dict (match dict_get d "msg" with Some v => v | None => VNone end));
      simpl; [now rewrite <- app_assoc | reflexivity].
Qed.

Lemma failures_of_shaped (result : value) (acc : list value) :
  conftest_shaped result = true ->
  ComplianceReporter.failures_of acc result = Ok (acc ++ conftest_msgs result)%list.
Proof.
  unfold conftest_shaped, conftest_msgs, ComplianceReporter.failures_of.
  destruct result as [| | | |l|d]; try discriminate. simpl.
  destruct (dict_get d "failures") as [[| | | |failures|]|]; try discriminate; simpl.
  - intros H. now apply failures_loop.
  - intros _. now rewrite app_nil_r.
Qed.

Lemma results_loop (results : list value) :
  forallb conftest_shaped results = true ->
  forall acc,
    for_each results ComplianceReporter.failures_of acc
    = Ok (acc ++ flat_map conftest_msgs results)%list.
Proof.
  induction results as [|r rs IH]; simpl; intros H acc.
  - now rewrite app_nil_r.
  - apply andb_prop in H as [Hr Hrs].
    rewrite (failures_of_shaped r acc Hr). simpl.
    rewrite (IH Hrs). now rewrite <- app_assoc.
Qed.

(** C5. The normalizer dispatches in this order and never raises: a
    mapping with [violations] gives that value as it is; else a mapping
    with [deny] gives that array; else a mapping with [results] gives,
    for each element and each entry of its [failures], the [msg] when it
    is a mapping and nothing otherwise; else an array is returned as it
    is; anything else gives the empty list.  Whatever the [try] raises,
    [load_violations] returns the empty list. *)
Theorem normalizer_dispatch :
  (forall d violations,
     dict_get d "violations" = Some violations ->
     ComplianceReporter.violations_in (VDict d) = Ok violations) /\
  (forall d deny,
     dict_get d "violations" = None ->
     dict_get d "deny" = Some (VList deny) ->
     ComplianceReporter.violations_in (VDict d) = Ok (VList deny)) /\
  (forall d results,
     dict_get d "violations" = None ->
     dict_get d "deny" = None ->
     dict_get d "results" = Some (VList results) ->
     forallb conftest_shaped results = true ->
     ComplianceReporter.violations_in (VDict d)
       = Ok (VList (flat_map conftest_msgs results))) /\
  (forall items,
     ComplianceReporter.violations_in (VList items) = Ok (VList items)) /\
  (forall data,
     is_list data = false ->
     (forall d, data = VDict d ->
        dict_get d "violations" = None /\ dict_get d "deny" = None /\
        dict_get d "results" = None) ->
     ComplianceReporter.violations_in data = Ok (VList [])) /\
  (forall w file_path,
     match data <- json_load w file_path ;; ComplianceReporter.violations_in data with
     | Ok violations =>
         ComplianceReporter.load_violations w file_path = (violations, w)
     | Raise e =>
         ComplianceReporter.load_violations w file_path
           = (VList [], print_err w (ErrorLoadingViolations file_path e))
     end).
Proof.
  repeat split.
  - intros d violations H. simpl. now rewrite H.
  - intros d deny Hv Hd. simpl. now rewrite Hv, Hd.
  - intros d results Hv Hd Hr Hshape. simpl. rewrite Hv, Hd, Hr. simpl.
    now rewrite (results_loop results Hshape []).
  - intros data Hlist Hdict.
    destruct data as [| | | |l|d]; try reflexivity; [discriminate|].
    destruct (Hdict d eq_refl) as [Hv [Hd Hr]]. simpl. now rewrite Hv, Hd, Hr.
  - intros w file_path. unfold ComplianceReporter.load_violations.
    destruct (data <- json_load w file_path;; ComplianceReporter.violations_in data);
      reflexivity.
Qed.

Lemma normalizer_dispatch_witness :
  ComplianceReporter.violations_in
    (VDict [("deny", VList [VDict [("policy", VStr "x")]])])
  = Ok (VList [VDict [("policy", VStr "x")]]) /\
  ComplianceReporter.violations_in
    (VDict [("results",
             VList [VDict [("failures",
                            VList [VDict [("msg", VStr "denied")];
                                   VDict [("msg", VDict [("policy", VStr "p")])]])];
                    VDict []])])
  = Ok (VList (flat_map conftest_msgs
                 [VDict [("failures",
                          VList [VDict [("msg", VStr "denied")];
                                 VDict [("msg", VDict [("policy", VStr "p")])]])];
                  VDict []])).
Proof.
  destruct normalizer_dispatch as [_ [Hdeny [Hresults _]]].
  split; [apply Hdeny; reflexivity | apply Hresults; reflexivity].
Defined.

(** The two examples of the specification. *)
Example normalize_deny :
  ComplianceReporter.violations_in
    (VDict [("deny", VList [VDict [("policy", VStr "x")]])])
  = Ok (VList [VDict [("policy", VStr "x")]]).
Proof. reflexivity. Qed.

Example normalize_results :
  ComplianceReporter.violations_in
    (VDict [("results",
             VList [VDict [("failures",
                            VList [VDict [("msg",
                                           VDict [("policy", VStr "aws.security.s3_encryption");
                                                  ("severity", VStr "HIGH")])]])]])])
  = Ok (VList [VDict [("policy", VStr "aws.security.s3_encryption");
                      ("severity", VStr "HIGH")]]).
Proof. reflexivity. Qed.

(** A failure whose [msg] is a string is skipped; [violations] wins over
    [deny]; a number under [deny] cannot be listed and the result is the
    empty list, with a line on the error stream. *)
Example normalize_skips_text_msg :
  ComplianceReporter.violations_in
    (VDict [("results",
             VList [VDict [("failures",
                            VList [VDict [("msg", VStr "denied")];
                                   VDict [("msg", VDict [("policy", VStr "p")])]])]])])
  = Ok (VList [VDict [("policy", VStr "p")]]).
Proof. reflexivity. Qed.

Example normalize_priority :
  ComplianceReporter.violations_in
    (VDict [("deny", VList [VInt 1]); ("violations", VList [VInt 2])])
  = Ok (VList [VInt 2]).
Proof. reflexivity. Qed.

Example normalize_degrades (c : clock) :
  ComplianceReporter.load_violations
    {| files := [("in.json", Json (VDict [("deny", VInt 5)]))]; stderr := []; now := c |}
    "in.json"
  = (VList [],
     {| files := [("in.json", Json (VDict [("deny", VInt 5)]))];
        stderr := [ErrorLoadingViolations "in.json" TypeError]; now := c |}).
Proof. reflexivity. Qed.

(** ** Grouping by severity *)

Lemma group_of_cases (v : value) :
  group_of v = "CRITICAL" \/ group_of v = "HIGH" \/
  group_of v = "MEDIUM" \/ group_of v = "LOW".
Proof.
  unfold group_of, canonical.
  destruct (severity_of v) as [| | |s| |]; auto.
  destruct (String.eqb_spec s "CRITICAL") as [->|]; [auto|].
  destruct (String.eqb_spec s "HIGH") as [->|]; [auto|].
  destruct (String.eqb_spec s "MEDIUM") as [->|]; [auto|].
  destruct (String.eqb_spec s "LOW") as [->|]; simpl; auto.
Qed.

Lemma group_violation_ok (grouped : grouped_violations) (v : value) :
  groupable v = true ->
  HTMLReportGenerator.group_violation grouped v
    = Ok (HTMLReportGenerator.append_to grouped (group_of v) v).
Proof.
  unfold groupable, HTMLReportGenerator.group_violation, group_of.
  destruct v as [| | | |l|d]; try discriminate. simpl.
  set (severity := match dict_get d "severity" with Some s => s | None => VStr "UNKNOWN" end).
  unfold HTMLReportGenerator.group_key, canonical.
  intros H. rewrite H. simpl.
  destruct severity as [| | |s| |]; try reflexivity.
  destruct (String.eqb s "CRITICAL" || String.eqb s "HIGH"
            || String.eqb s "MEDIUM" || String.eqb s "LOW"); reflexivity.
Qed.

Lemma extended_cons (grouped : grouped_violations) (v : value) (vs : list value) :
  extended (HTMLReportGenerator.append_to grouped (group_of v) v) vs
  = extended grouped (v :: vs).
Proof.
  unfold extended, in_group. simpl filter.
  destruct (group_of_cases v) as [E|[E|[E|E]]]; rewrite E; simpl;
    rewrite <- ?app_assoc; reflexivity.
Qed.

Lemma group_loop (vs : list value) :
  forallb groupable vs = true ->
  forall grouped,
    for_each vs HTMLReportGenerator.group_violation grouped = Ok (extended grouped vs).
Proof.
  induction vs as [|v vs IH]; simpl; intros H grouped.
  - unfold extended. simpl. rewrite !app_nil_r. now destruct grouped.
  - apply andb_prop in H as [Hv Hvs].
    rewrite (group_violation_ok grouped v Hv). simpl.
    rewrite (IH Hvs). now rewrite extended_cons.
Qed.

Lemma groups_cover (vs : list value) :
  (List.length (filter (in_group "CRITICAL") vs)
   + List.length (filter (in_group "HIGH") vs)
   + List.length (filter (in_group "MEDIUM") vs)
   + List.length (filter (in_group "LOW") vs))%nat
  = List.length vs.
Proof.
  induction vs as [|v vs IH]; [reflexivity|].
  unfold in_group in *. simpl.
  destruct (group_of_cases v) as [E|[E|[E|E]]]; rewrite E; simpl; lia.
Qed.

Lemma group_violation_inv (grouped grouped' : grouped_violations) (v : value) :
  HTMLReportGenerator.group_violation grouped v = Ok grouped' -> groupable v = true.
Proof.
  unfold HTMLReportGenerator.group_violation, groupable.
  destruct v as [| | | |l|d]; try discriminate. simpl.
  unfold HTMLReportGenerator.group_key.
  destruct (hashable (match dict_get d "severity" with
                      | Some s => s
                      | None => VStr "UNKNOWN"
                      end)); [reflexivity | discriminate].
Qed.

Lemma group_violations_groupable (violations : list value)
    (grouped : grouped_violations) :
  HTMLReportGenerator._group_violations violations = Ok grouped ->
  forallb groupable violations = true.
Proof.
  unfold HTMLReportGenerator._group_violations.
  apply for_each_all. intros acc x acc'. apply group_violation_inv.
Qed.







Example grouping_sample :
  HTMLReportGenerator._group_violations
    [info_violation; critical_violation; sox_violation]
  = Ok {| CRITICAL := [critical_violation]; HIGH := [];
          MEDIUM := [info_violation; sox_violation]; LOW := [] |}.
Proof. reflexivity. Qed.

(** ** Summary statistics *)

Lemma key_eqb_sym (a b : value) : key_eqb a b = true -> key_eqb b a = true.
Proof.
  destruct a as [|x|m|s| |], b as [|y|n|t| |]; simpl; try discriminate; try reflexivity;
    intros H; key_cases; try congruence; try (symmetry; exact H).
Qed.

Lemma key_eqb_trans (a b c : value) :
  key_eqb a b = true -> key_eqb b c = true -> key_eqb a c = true.
Proof.
  destruct a as [|x|m|s| |], b as [|y|n|t| |]; simpl; try discriminate;
    destruct c as [|z|k|u| |]; simpl; try discriminate; try reflexivity;
    intros H1 H2; key_cases; subst; try reflexivity; try congruence;
    try (destruct x; destruct z; simpl in *; congruence).
Qed.

Lemma counter_get_set (d : counter) (key : value) (n : Z) (k : value) :
  counter_get (counter_set d key n) k
  = if key_eqb key k then n else counter_get d k.
Proof.
  induction d as [|[k0 m] rest IH]; simpl.
  - reflexivity.
  - destruct (key_eqb k0 key) eqn:E0; simpl.
    + destruct (key_eqb key k) eqn:E1.
      * now rewrite (key_eqb_trans _ _ _ E0 E1).
      * destruct (key_eqb k0 k) eqn:E2; [|reflexivity].
        rewrite (key_eqb_trans _ _ _ (key_eqb_sym _ _ E0) E2) in E1. discriminate.
    + rewrite IH. destruct (key_eqb k0 k) eqn:E2; [|reflexivity].
      destruct (key_eqb key k) eqn:E1; [|reflexivity].
      rewrite (key_eqb_trans _ _ _ E2 (key_eqb_sym _ _ E1)) in E0. discriminate.
Qed.

Lemma counter_get_eqb (d : counter) (a b : value) :
  key_eqb a b = true -> counter_get d a = counter_get d b.
Proof.
  intros H. induction d as [|[k0 m] rest IH]; simpl; [reflexivity|].
  destruct (key_eqb k0 a) eqn:Ea, (key_eqb k0 b) eqn:Eb; try reflexivity; try exact IH.
  - rewrite (key_eqb_trans _ _ _ Ea H) in Eb. discriminate.
  - rewrite (key_eqb_trans _ _ _ Eb (key_eqb_sym _ _ H)) in Ea. discriminate.
Qed.

Lemma counter_total_set (d : counter) (key : value) :
  counter_total (counter_set d key (counter_get d key + 1)) = counter_total d + 1.
Proof.
  unfold counter_total.
  induction d as [|[k0 m] rest IH]; simpl; [lia|].
  destruct (key_eqb k0 key); simpl; [lia|]. rewrite IH. lia.
Qed.

Lemma tallied_cons (key v : value) (vs : list value) :
  tallied key (v :: vs) = (if key_eqb (severity_of v) key then 1 else 0) + tallied key vs.
Proof.
  unfold tallied. simpl. destruct (key_eqb (severity_of v) key); simpl List.length; lia.
Qed.

Lemma canonical_count_cons (v : value) (vs : list value) :
  canonical_count (v :: vs)
  = (if canonical (severity_of v) then 1 else 0) + canonical_count vs.
Proof.
  unfold canonical_count. simpl.
  destruct (canonical (severity_of v)); simpl List.length; lia.
Qed.

Lemma canonical_tallies (vs : list value) :
  tallied (VStr "CRITICAL") vs + tallied (VStr "HIGH") vs
  + tallied (VStr "MEDIUM") vs + tallied (VStr "LOW") vs
  = canonical_count vs.
Proof.
  induction vs as [|v vs IH]; [reflexivity|].
  rewrite !tallied_cons, canonical_count_cons, <- IH.
  unfold canonical.
  destruct (severity_of v) as [| | |s| |]; simpl key_eqb; cbv beta iota; try lia.
  destruct (String.eqb_spec s "CRITICAL") as [->|]; [cbv -[Z.add tallied]; lia|].
  destruct (String.eqb_spec s "HIGH") as [->|]; [cbv -[Z.add tallied]; lia|].
  destruct (String.eqb_spec s "MEDIUM") as [->|]; [cbv -[Z.add tallied]; lia|].
  destruct (String.eqb_spec s "LOW") as [->|]; cbv -[Z.add tallied]; lia.
Qed.

Lemma canonical_count_le (vs : list value) :
  canonical_count vs <= Z.of_nat (List.length vs).
Proof.
  unfold canonical_count. apply inj_le. apply filter_length_le.
Qed.

Lemma summarizable_inv (v : value) :
  summarizable v = true ->
  exists d policy,
    v = VDict d /\ hashable (severity_of v) = true /\
    get v "severity" (VStr "UNKNOWN") = Ok (severity_of v) /\
    (forall default, get v "policy" (VStr default)
                     = Ok (VStr (match dict_get d "policy" with
                                 | Some _ => policy
                                 | None => default
                                 end))).
Proof.
  unfold summarizable. intros H. apply andb_prop in H as [Hv Hs].
  destruct v as [| | | |l|d]; try discriminate.
  simpl in Hv.
  destruct (dict_get d "policy") as [[| | |s| |]|] eqn:E; try discriminate.
  - exists d, s. repeat split; [exact Hs|]. intros default. simpl. now rewrite E.
  - exists d, EmptyString. repeat split; [exact Hs|]. intros default. simpl. now rewrite E.
Qed.

(** One turn of the loop of the HTML summary on a violation it can
    count: the severity is tallied, whatever the policy. *)
Lemma html_count_violation (acc : HTMLReportGenerator.counts) (v : value) :
  summarizable v = true ->
  exists acc',
    HTMLReportGenerator.count_violation acc v = Ok acc' /\
    HTMLReportGenerator.severity_counts acc'
    = counter_set (HTMLReportGenerator.severity_counts acc) (severity_of v)
        (counter_get (HTMLReportGenerator.severity_counts acc) (severity_of v) + 1).
Proof.
  intros H. destruct (summarizable_inv v H) as [d [policy [-> [Hh [Hsev Hpol]]]]].
  unfold HTMLReportGenerator.count_violation.
  rewrite Hsev. cbn [bind]. unfold count_up. rewrite Hh. cbn [bind].
  rewrite Hpol. cbn [bind startswith].
  unfold HTMLReportGenerator.count_cloud. cbn [bind str_split].
  repeat match goal with
         | |- context [if ?b then _ else _] => destruct b
         end; cbn [bind]; eexists; split; reflexivity.
Qed.

Lemma html_loop (vs : list value) :
  forallb summarizable vs = true ->
  forall acc,
    exists acc',
      for_each vs HTMLReportGenerator.count_violation acc = Ok acc' /\
      forall key,
        counter_get (HTMLReportGenerator.severity_counts acc') key
        = counter_get (HTMLReportGenerator.severity_counts acc) key + tallied key vs.
Proof.
  induction vs as [|v vs IH]; simpl; intros H acc.
  - exists acc. split; [reflexivity|]. intros key. unfold tallied. simpl. lia.
  - apply andb_prop in H as [Hv Hvs].
    destruct (html_count_violation acc v Hv) as [acc1 [-> Hsc]]. simpl.
    destruct (IH Hvs acc1) as [acc' [-> Hget]].
    exists acc'. split; [reflexivity|]. intros key.
    rewrite Hget, Hsc, counter_get_set, tallied_cons.
    destruct (key_eqb (severity_of v) key) eqn:E; [|lia].
    rewrite (counter_get_eqb _ _ _ E). lia.
Qed.

(** The same for the JSON summary. *)
Lemma json_count_violation (acc : json_summary) (v : value) :
  summarizable v = true ->
  exists acc',
    JSONReportGenerator.count_violation acc v = Ok acc' /\
    total_violations acc' = total_violations acc /\
    by_severity acc'
    = counter_set (by_severity acc) (severity_of v)
        (counter_get (by_severity acc) (severity_of v) + 1).
Proof.
  intros H. destruct (summarizable_inv v H) as [d [policy [-> [Hh [Hsev Hpol]]]]].
  unfold JSONReportGenerator.count_violation.
  rewrite Hsev. cbn [bind]. unfold count_up at 1. rewrite Hh. cbn [bind].
  rewrite Hpol. cbn [bind]. unfold count_up. cbn [hashable bind startswith].
  repeat match goal with
         | |- context [if ?b then _ else _] => destruct b
         end; eexists; repeat split; reflexivity.
Qed.

Lemma json_loop (vs : list value) :
  forallb summarizable vs = true ->
  forall acc,
    exists acc',
      for_each vs JSONReportGenerator.count_violation acc = Ok acc' /\
      total_violations acc' = total_violations acc /\
      counter_total (by_severity acc')
      = counter_total (by_severity acc) + Z.of_nat (List.length vs) /\
      forall key,
        counter_get (by_severity acc') key
        = counter_get (by_severity acc) key + tallied key vs.
Proof.
  induction vs as [|v vs IH]; intros H acc.
  - exists acc. simpl. repeat split; [lia|]. intros key. unfold tallied. simpl. lia.
  - simpl in H. apply andb_prop in H as [Hv Hvs].
    destruct (json_count_violation acc v Hv) as [acc1 [E1 [Ht Hsc]]].
    destruct (IH Hvs acc1) as [acc' [E2 [Ht' [Hsum Hget]]]].
    exists acc'. cbn [for_each]. rewrite E1. cbn [bind]. rewrite E2.
    split; [reflexivity|]. split; [congruence|]. split.
    + rewrite Hsum, Hsc, counter_total_set. cbn [List.length]. lia.
    + intros key. rewrite Hget, Hsc, counter_get_set, tallied_cons.
      destruct (key_eqb (severity_of v) key) eqn:E; [|lia].
      rewrite (counter_get_eqb _ _ _ E). lia.
Qed.

Lemma html_count_violation_inv (acc acc' : HTMLReportGenerator.counts) (v : value) :
  HTMLReportGenerator.count_violation acc v = Ok acc' -> summarizable v = true.
Proof.
  unfold HTMLReportGenerator.count_violation, summarizable, is_violation, severity_of.
  destruct v as [| | | |l|d]; try discriminate. cbn [get bind].
  unfold count_up.
  destruct (hashable (match dict_get d "severity" with
                      | Some s => s
                      | None => VStr "UNKNOWN"
                      end)); [|discriminate].
  cbn [bind].
  destruct (dict_get d "policy") as [[| | |s| |]|]; try discriminate; reflexivity.
Qed.

Lemma json_count_violation_inv (acc acc' : json_summary) (v : value) :
  JSONReportGenerator.count_violation acc v = Ok acc' -> summarizable v = true.
Proof.
  unfold JSONReportGenerator.count_violation, summarizable, is_violation, severity_of.
  destruct v as [| | | |l|d]; try discriminate. cbn [get bind].
  unfold count_up at 1.
  destruct (hashable (match dict_get d "severity" with
                      | Some s => s
                      | None => VStr "UNKNOWN"
                      end)); [|discriminate].
  cbn [bind].
  destruct (dict_get d "policy") as [[| | |s| |]|]; try discriminate; try reflexivity.
Qed.

Lemma html_summary_summarizable (violations : list value) (s : html_summary) :
  HTMLReportGenerator._generate_summary violations = Ok s ->
  forallb summarizable violations = true.
Proof.
  unfold HTMLReportGenerator._generate_summary.
  destruct violations as [|v vs]; [reflexivity|].
  destruct (for_each (v :: vs) HTMLReportGenerator.count_violation
              HTMLReportGenerator.initial_counts) as [acc|e] eqn:E; [|discriminate].
  intros _. revert E. apply for_each_all.
  intros acc0 x acc'. apply html_count_violation_inv.
Qed.

Lemma json_summary_summarizable (violations : list value) (s : json_summary) :
  JSONReportGenerator._generate_summary violations = Ok s ->
  forallb summarizable violations = true.
Proof.
  unfold JSONReportGenerator._generate_summary.
  destruct violations as [|v vs]; [reflexivity|].
  apply for_each_all. intros acc x acc'. apply json_count_violation_inv.
Qed.

Lemma json_summary_ok (violations : list value) :
  forallb summarizable violations = true ->
  exists s,
    JSONReportGenerator._generate_summary violations = Ok s /\
    total_violations s = Z.of_nat (List.length violations) /\
    counter_total (by_severity s) = total_violations s /\
    forall key, counter_get (by_severity s) key = tallied key violations.
Proof.
  intros H. destruct violations as [|v vs].
  - eexists. split; [reflexivity|]. repeat split.
  - unfold JSONReportGenerator._generate_summary.
    destruct (json_loop (v :: vs) H
                {| total_violations := Z.of_nat (List.length (v :: vs));
                   by_severity := []; by_policy := []; json_by_cloud := [] |})
      as [s [-> [Ht [Hsum Hget]]]].
    exists s. split; [reflexivity|]. split; [exact Ht|].
    split; [rewrite Hsum, Ht; reflexivity|].
    intros key. now rewrite Hget.
Qed.

Lemma html_summary_ok (violations : list value) :
  forallb summarizable violations = true ->
  exists s,
    HTMLReportGenerator._generate_summary violations = Ok s /\
    total s = Z.of_nat (List.length violations) /\
    critical s = tallied (VStr "CRITICAL") violations /\
    high s = tallied (VStr "HIGH") violations /\
    medium s = tallied (VStr "MEDIUM") violations /\
    low s = tallied (VStr "LOW") violations /\
    critical s + high s + medium s + low s = canonical_count violations /\
    canonical_count violations <= total s.
Proof.
  intros H. destruct violations as [|v vs].
  - eexists. split; [reflexivity|]. repeat split. discriminate.
  - unfold HTMLReportGenerator._generate_summary.
    destruct (html_loop (v :: vs) H HTMLReportGenerator.initial_counts)
      as [acc [-> Hget]].
    eexists. split; [reflexivity|]. cbn [total critical high medium low].
    split; [reflexivity|].
    assert (Hzero : forall key,
               counter_get (HTMLReportGenerator.severity_counts acc) key
               = tallied key (v :: vs)).
    { intros key. rewrite Hget.
      assert (counter_get
                (HTMLReportGenerator.severity_counts HTMLReportGenerator.initial_counts)
                key = 0) as ->; [|lia].
      simpl. repeat match goal with |- context [if ?b then _ else _] => destruct b end;
        reflexivity. }
    rewrite !Hzero. repeat split.
    + apply canonical_tallies.
    + apply canonical_count_le.
Qed.

(** The severity counts of the two summaries.  The JSON summary tallies
    every violation under its severity as it is (UNKNOWN when missing)
    and the tallies add up to [total_violations].  The HTML summary
    returns the counts of the four canonical severities only: the four
    counts add up to the number of violations with a canonical severity,
    which is at most [total]. *)
Lemma severity_summary_counts (violations : list value) :
  (forallb summarizable violations = true ->
   (exists s, JSONReportGenerator._generate_summary violations = Ok s) /\
   (exists s, HTMLReportGenerator._generate_summary violations = Ok s)) /\
  (forall s,
     JSONReportGenerator._generate_summary violations = Ok s ->
     total_violations s = Z.of_nat (List.length violations) /\
     counter_total (by_severity s) = total_violations s /\
     forall key, counter_get (by_severity s) key = tallied key violations) /\
  (forall s,
     HTMLReportGenerator._generate_summary violations = Ok s ->
     total s = Z.of_nat (List.length violations) /\
     critical s = tallied (VStr "CRITICAL") violations /\
     high s = tallied (VStr "HIGH") violations /\
     medium s = tallied (VStr "MEDIUM") violations /\
     low s = tallied (VStr "LOW") violations /\
     critical s + high s + medium s + low s = canonical_count violations /\
     canonical_count violations <= total s).
Proof.
  split; [|split].
  - intros H. split.
    + destruct (json_summary_ok violations H) as [s [Hs _]]. eauto.
    + destruct (html_summary_ok violations H) as [s [Hs _]]. eauto.
  - intros s Hs.
    destruct (json_summary_ok violations (json_summary_summarizable _ _ Hs))
      as [s' [Hs' Hprops]].
    rewrite Hs in Hs'. injection Hs' as <-. exact Hprops.
  - intros s Hs.
    destruct (html_summary_ok violations (html_summary_summarizable _ _ Hs))
      as [s' [Hs' Hprops]].
    rewrite Hs in Hs'. injection Hs' as <-. exact Hprops.
Qed.

(** C9.  The HTML summary loses a violation whose severity is not one of
    the four: the loop tallies the violation of severity INFO under its
    own key, but the summary returned holds the four canonical counts
    only, so the violation is counted in [total] and under no severity.
    On the same list the JSON summary keeps the tally under INFO, its
    counts adding up to the total, and [_group_violations] lists the
    violation under MEDIUM. *)
Lemma html_summary_drops_overflow :
  exists acc s j grouped,
    for_each [info_violation] HTMLReportGenerator.count_violation
      HTMLReportGenerator.initial_counts = Ok acc /\
    counter_get (HTMLReportGenerator.severity_counts acc) (VStr "INFO") = 1 /\
    HTMLReportGenerator._generate_summary [info_violation] = Ok s /\
    canonical (severity_of info_violation) = false /\
    total s = 1 /\
    critical s + high s + medium s + low s = 0 /\
    JSONReportGenerator._generate_summary [info_violation] = Ok j /\
    counter_get (by_severity j) (VStr "INFO") = 1 /\
    counter_total (by_severity j) = total_violations j /\
    HTMLReportGenerator._group_violations [info_violation] = Ok grouped /\
    MEDIUM grouped = [info_violation].
Proof. do 4 eexists. repeat split. Qed.

(** The JSON summary of the same violation keeps it under its key. *)
Example json_summary_keeps_overflow :
  JSONReportGenerator._generate_summary [info_violation]
  = Ok {| total_violations := 1;
          by_severity := [(VStr "INFO", 1)];
          by_policy := [(VStr "aws.security.s3_encryption", 1)];
          json_by_cloud := [("AWS", 1)] |}.
Proof. reflexivity. Qed.

(** ** Input that is not JSON *)

Lemma dict_has_set {V} (d : list (string * V)) (key : string) (v : V) :
  dict_has (dict_set d key v) key = true.
Proof.
  unfold dict_has.
  induction d as [|[k w] rest IH]; simpl.
  - now rewrite String.eqb_refl.
  - destruct (String.eqb k key) eqn:E; simpl; rewrite E; [reflexivity | exact IH].
Qed.

Lemma json_load_exists (w : world) (path : string) (e : exn) :
  json_load w path = Raise e -> e <> FileNotFoundError -> exists_file w path = true.
Proof.
  unfold json_load, exists_file, dict_has.
  destruct (dict_get (files w) path); [reflexivity|].
  intros H Hne. injection H as <-. contradiction.
Qed.

Lemma registered_names (name : string) :
  In name ["sox"; "pci"; "ffiec"; "glba"] ->
  exists fw, registry_get FRAMEWORK_CONTROLS name = Some fw.
Proof.
  intros [<-|[<-|[<-|[<-|[]]]]]; eexists; reflexivity.
Qed.

(** C7, as the code has it.  For an input file that is not JSON, the
    [generate] command of [cli.py] prints the error on the error stream
    and exits with code 1 without writing a file.  [load_violations] of
    [compliance_report.py] prints the error on the error stream and
    returns the empty list: the report is written as for an input
    without violations and [main] returns normally. *)
Theorem invalid_json_handling (w : world) (input_file : string) :
  json_load w input_file = Raise JSONDecodeError ->
  (forall output_dir formats scan_target,
     exists w',
       cli.generate w input_file output_dir formats scan_target = (SysExit 1, w') /\
       exit_code (SysExit 1) = 1 /\
       files w' = files w /\
       stderr w' = (stderr w ++ [InvalidJsonInInputFile JSONDecodeError])%list) /\
  ComplianceReporter.load_violations w input_file
    = (VList [], print_err w (ErrorLoadingViolations input_file JSONDecodeError)) /\
  (forall frameworks name fw output_path,
     registry_get frameworks name = Some fw ->
     exists r,
       ComplianceReporter.evaluate_framework frameworks name [] = Ok r /\
       ComplianceReporter.generate_report frameworks w name input_file output_path
       = (Ok tt,
          write_file (print_err w (ErrorLoadingViolations input_file JSONDecodeError))
            output_path (ComplianceHtml r))) /\
  (forall args,
     arg_input args = input_file ->
     In (arg_framework args) ["sox"; "pci"; "ffiec"; "glba"] ->
     exists w',
       main w args = (Returned, w') /\
       exit_code Returned = 0 /\
       exists_file w' (output_file_of args) = true /\
       stderr w' = (stderr w ++ [ErrorLoadingViolations input_file JSONDecodeError])%list).
Proof.
  intros Hload.
  assert (Hlv : ComplianceReporter.load_violations w input_file
                = (VList [], print_err w (ErrorLoadingViolations input_file JSONDecodeError))).
  { unfold ComplianceReporter.load_violations. now rewrite Hload. }
  assert (Hreport : forall frameworks name fw output_path,
            registry_get frameworks name = Some fw ->
            exists r,
              ComplianceReporter.evaluate_framework frameworks name [] = Ok r /\
              ComplianceReporter.generate_report frameworks w name input_file output_path
              = (Ok tt,
                 write_file (print_err w (ErrorLoadingViolations input_file JSONDecodeError))
                   output_path (ComplianceHtml r))).
  { intros frameworks name fw output_path Hfw.
    destruct (evaluate_framework_total [] frameworks name fw Hfw eq_refl) as [r Hr].
    exists r. split; [exact Hr|].
    unfold ComplianceReporter.generate_report. rewrite Hlv. cbn [len iter bind].
    now rewrite Hr. }
  split; [|split; [exact Hlv | split; [exact Hreport|]]].
  - intros output_dir formats scan_target. eexists.
    unfold cli.generate.
    rewrite (json_load_exists w input_file JSONDecodeError Hload) by discriminate.
    rewrite Hload. split; [reflexivity|]. repeat split.
  - intros args Hin Hfw.
    destruct (registered_names _ Hfw) as [fw Hreg].
    destruct (Hreport FRAMEWORK_CONTROLS (arg_framework args) fw (output_file_of args) Hreg)
      as [r [_ Hgen]].
    eexists. unfold main.
    replace (existsb (String.eqb (arg_framework args)) ["sox"; "pci"; "ffiec"; "glba"; "all"])
      with true
      by (destruct Hfw as [<-|[<-|[<-|[<-|[]]]]]; reflexivity).
    rewrite Hin, (json_load_exists w input_file JSONDecodeError Hload) by discriminate.
    replace (String.eqb (arg_framework args) "all") with false
      by (destruct Hfw as [<-|[<-|[<-|[<-|[]]]]]; reflexivity).
    cbn [negb]. fold (output_file_of args). rewrite <- Hin at 1. rewrite Hin.
    rewrite Hgen. cbn [after finish fst snd].
    split; [reflexivity|]. split; [reflexivity|]. split.
    + unfold exists_file, write_file. cbn [files]. apply dict_has_set.
    + reflexivity.
Qed.

Lemma invalid_json_handling_witness :
  (forall output_dir formats scan_target,
     exists w',
       cli.generate broken_world "violations.json" output_dir formats scan_target
         = (SysExit 1, w') /\
       exit_code (SysExit 1) = 1 /\
       files w' = files broken_world /\
       stderr w'
         = (stderr broken_world ++ [InvalidJsonInInputFile JSONDecodeError])%list) /\
  ComplianceReporter.load_violations broken_world "violations.json"
    = (VList [],
       print_err broken_world (ErrorLoadingViolations "violations.json" JSONDecodeError)) /\
  (forall frameworks name fw output_path,
     registry_get frameworks name = Some fw ->
     exists r,
       ComplianceReporter.evaluate_framework frameworks name [] = Ok r /\
       ComplianceReporter.generate_report frameworks broken_world name "violations.json"
         output_path
       = (Ok tt,
          write_file
            (print_err broken_world
               (ErrorLoadingViolations "violations.json" JSONDecodeError))
            output_path (ComplianceHtml r))) /\
  (forall args,
     arg_input args = "violations.json" ->
     In (arg_framework args) ["sox"; "pci"; "ffiec"; "glba"] ->
     exists w',
       main broken_world args = (Returned, w') /\
       exit_code Returned = 0 /\
       exists_file w' (output_file_of args) = true /\
       stderr w'
         = (stderr broken_world
            ++ [ErrorLoadingViolations "violations.json" JSONDecodeError])%list).
Proof.
  apply (invalid_json_handling broken_world "violations.json").
  reflexivity.
Defined.

(** C7 as the claim states it fails on [compliance_report.py]: on an
    input that is not JSON, [main] returns normally (exit code 0) and has
    written a report, in which every control of SOX passes. *)
Lemma invalid_json_not_fatal :
  json_load broken_world "violations.json" = Raise JSONDecodeError /\
  exists_file broken_world "sox.html" = false /\
  exists w' r,
    main broken_world broken_arguments = (Returned, w') /\
    exit_code Returned = 0 /\
    dict_get (files w') "sox.html" = Some (ComplianceHtml r) /\
    map status (controls r) = ["PASS"; "PASS"; "PASS"] /\
    stderr w' = [ErrorLoadingViolations "violations.json" JSONDecodeError].
Proof.
  split; [reflexivity|]. split; [reflexivity|].
  eexists. eexists. split; [reflexivity|]. repeat split.
Qed.

(** * Further properties of the reporting code *)

(** ** The evaluator as a function of the number of mapped violations *)

Lemma findings_of_texts (mapped : list value) (fs : list string) :
  ComplianceReporter.findings_of mapped = Ok fs -> fs = map finding_text mapped.
Proof.
  revert fs. induction mapped as [|v rest IH]; simpl; intros fs H.
  - now injection H as <-.
  - unfold finding_text at 1.
    destruct (ComplianceReporter.finding v) as [f|e]; simpl in H; [|discriminate].
    destruct (ComplianceReporter.findings_of rest) as [fs'|e]; simpl in H; [|discriminate].
    injection H as <-. now rewrite (IH fs' eq_refl).
Qed.

Lemma evaluate_control_by_count (cid : string) (c : control) (violations : list value) :
  forallb is_violation violations = true ->
  exists r,
    ComplianceReporter._evaluate_control cid c violations = Ok r /\
    control_id r = cid /\ cr_title r = title c /\ cr_description r = description c /\
    status r = status_for (mapped_count c violations) /\
    score r = score_for (mapped_count c violations) /\
    findings r = map finding_text (filter (matches_control c) violations) /\
    evidence r = match mapped_count c violations with
                 | O => ["No policy violations found for this control"]
                 | _ => []
                 end.
Proof.
  intros H.
  destruct (evaluate_control_result c cid violations H) as [fs [Hfs [_ Heq]]].
  apply findings_of_texts in Hfs.
  eexists. split; [exact Heq|]. unfold mapped_count.
  destruct (filter (matches_control c) violations) as [|a [|b [|d rest]]] eqn:E;
    try (subst fs; repeat split; reflexivity).
  assert (Hn : (Z.of_nat (List.length (a :: b :: d :: rest)) <=? 2) = false)
    by (apply Z.leb_gt; simpl List.length; lia).
  assert (H0 : (Z.of_nat (List.length (a :: b :: d :: rest)) =? 0) = false)
    by (apply Z.eqb_neq; simpl List.length; lia).
  rewrite H0, Hn. subst fs. repeat split; reflexivity.
Qed.

(** Whatever [_evaluate_control] returns is determined in the same way. *)
Lemma score_for_antitone (m n : nat) : (m <= n)%nat -> score_for n <= score_for m.
Proof.
  destruct m as [|[|[|m]]], n as [|[|[|n]]]; simpl; lia.
Qed.

Lemma mapped_count_app (c : control) (vs ws : list value) :
  mapped_count c (vs ++ ws) = (mapped_count c vs + mapped_count c ws)%nat.
Proof. unfold mapped_count. now rewrite filter_app, length_app. Qed.

Lemma forallb_app_true {A} (P : A -> bool) (xs ys : list A) :
  forallb P xs = true -> forallb P ys = true -> forallb P (xs ++ ys) = true.
Proof. intros Hx Hy. rewrite forallb_app, Hx, Hy. reflexivity. Qed.

(** X1. Violations added to the input never improve a control: the score
    does not go up, a failing control keeps failing and a control that
    passes with the longer input passed with the shorter one. *)
Theorem more_violations_never_help_control (cid : string) (c : control)
    (violations more : list value) :
  forallb is_violation violations = true ->
  forallb is_violation more = true ->
  exists r r',
    ComplianceReporter._evaluate_control cid c violations = Ok r /\
    ComplianceReporter._evaluate_control cid c (violations ++ more) = Ok r' /\
    score r' <= score r /\
    (status r = "FAIL" -> status r' = "FAIL") /\
    (status r' = "PASS" -> status r = "PASS").
Proof.
  intros Hv Hm.
  destruct (evaluate_control_by_count cid c violations Hv)
    as [r [Hr [_ [_ [_ [Hst [Hsc _]]]]]]].
  destruct (evaluate_control_by_count cid c (violations ++ more)
              (forallb_app_true _ _ _ Hv Hm))
    as [r' [Hr' [_ [_ [_ [Hst' [Hsc' _]]]]]]].
  exists r, r'. split; [exact Hr|]. split; [exact Hr'|].
  rewrite Hst, Hst', Hsc, Hsc', mapped_count_app.
  split; [apply score_for_antitone; lia|].
  destruct (mapped_count c violations) as [|[|[|m]]],
           (mapped_count c more) as [|[|[|n]]]; simpl; split; intros E;
    try reflexivity; try discriminate E.
Qed.

Lemma more_violations_never_help_control_witness :
  exists r r',
    ComplianceReporter._evaluate_control "SOX-404" SOX_404 [s3_violation] = Ok r /\
    ComplianceReporter._evaluate_control "SOX-404" SOX_404
      ([s3_violation] ++ [s3_violation; sox_violation]) = Ok r' /\
    score r' <= score r /\
    (status r = "FAIL" -> status r' = "FAIL") /\
    (status r' = "PASS" -> status r = "PASS").
Proof.
  apply (more_violations_never_help_control "SOX-404" SOX_404 [s3_violation]
           [s3_violation; sox_violation]); reflexivity.
Defined.

(** ** The framework result as a function of the control results *)

Lemma count_status_cons (s : string) (cr : control_result) (crs : list control_result) :
  count_status s (cr :: crs)
  = (if String.eqb (status cr) s then 1 else 0) + count_status s crs.
Proof.
  unfold count_status. simpl.
  destruct (String.eqb (status cr) s); simpl List.length; lia.
Qed.

Lemma fold_record_by_status (crs : list control_result) :
  forall acc,
    let res := fold_left ComplianceReporter.record_control crs acc in
    pass_count res = pass_count acc + count_status "PASS" crs /\
    partial_count res = partial_count acc + count_status "PARTIAL" crs /\
    fail_count res
    = fail_count acc + (Z.of_nat (List.length crs) - count_status "PASS" crs
                        - count_status "PARTIAL" crs) /\
    framework_name_of res = framework_name_of acc /\
    fr_description res = fr_description acc.
Proof.
  induction crs as [|cr crs IH]; intros acc; cbn zeta.
  - unfold count_status. simpl. repeat split; lia.
  - cbn [fold_left].
    destruct (IH (ComplianceReporter.record_control acc cr)) as [Hp [Hq [Hf [Hn Hd]]]].
    rewrite Hp, Hq, Hf, Hn, Hd, !count_status_cons.
    cbn [List.length]. rewrite Nat2Z.inj_succ.
    unfold ComplianceReporter.record_control.
    destruct (String.eqb_spec (status cr) "PASS") as [E|E];
      destruct (String.eqb_spec (status cr) "PARTIAL") as [E'|E'];
      try (rewrite E in E'; discriminate E');
      cbn [pass_count partial_count fail_count framework_name_of fr_description];
      repeat split; lia.
Qed.

(** Whatever [evaluate_framework] returns, in terms of the results of its
    controls. *)
Lemma framework_result_shape (violations : list value) (frameworks : registry)
    (name : string) (fw : framework) (r : framework_results) :
  registry_get frameworks name = Some fw ->
  ComplianceReporter.evaluate_framework frameworks name violations = Ok r ->
  Forall2 (evaluated violations) (fw_controls fw) (controls r) /\
  framework_name_of r = fw_name fw /\
  fr_description r = fw_description fw /\
  pass_count r = count_status "PASS" (controls r) /\
  partial_count r = count_status "PARTIAL" (controls r) /\
  fail_count r = Z.of_nat (List.length (controls r)) - count_status "PASS" (controls r)
                 - count_status "PARTIAL" (controls r) /\
  overall_score r = match controls r with
                    | [] => 0%Q
                    | _ => round1 (mean (map score (controls r)))
                    end.
Proof.
  intros Hfw Hr.
  pose proof (evaluated_controls violations frameworks name fw r Hfw Hr) as Hall.
  split; [exact Hall|].
  destruct (evaluate_framework_inv violations frameworks name fw r Hfw Hr) as [crs [_ ->]].
  rewrite overall_score_of.
  destruct (with_overall_score_fields
              (fold_left ComplianceReporter.record_control crs (initial_results fw)))
    as [-> [-> [-> ->]]].
  assert (Hnames :
            framework_name_of
              (ComplianceReporter.with_overall_score
                 (fold_left ComplianceReporter.record_control crs (initial_results fw)))
            = framework_name_of
                (fold_left ComplianceReporter.record_control crs (initial_results fw)) /\
            fr_description
              (ComplianceReporter.with_overall_score
                 (fold_left ComplianceReporter.record_control crs (initial_results fw)))
            = fr_description
                (fold_left ComplianceReporter.record_control crs (initial_results fw))).
  { unfold ComplianceReporter.with_overall_score.
    destruct (Z.of_nat _ >? 0); split; reflexivity. }
  destruct Hnames as [-> ->].
  rewrite fold_record_controls, fold_record_score. simpl controls. rewrite app_nil_l.
  destruct (fold_record_by_status crs (initial_results fw)) as [-> [-> [-> [-> ->]]]].
  simpl. repeat split; try lia.
  destruct crs as [|cr crs]; [reflexivity|].
  destruct (Z.gtb_spec (Z.of_nat (List.length (cr :: crs))) 0) as [_|Hle];
    [reflexivity | simpl in Hle; lia].
Qed.

(** X2. The control results of a framework result follow the order of
    the registry and carry the id, title and description of their
    control; the framework name and description are those of the
    registry entry. *)
Theorem framework_result_follows_registry (frameworks : registry) (name : string)
    (fw : framework) (violations : list value) (r : framework_results) :
  registry_get frameworks name = Some fw ->
  ComplianceReporter.evaluate_framework frameworks name violations = Ok r ->
  framework_name_of r = fw_name fw /\
  fr_description r = fw_description fw /\
  map control_id (controls r) = map fst (fw_controls fw) /\
  map cr_title (controls r) = map (fun item => title (snd item)) (fw_controls fw) /\
  map cr_description (controls r)
    = map (fun item => description (snd item)) (fw_controls fw).
Proof.
  intros Hfw Hr.
  destruct (framework_result_shape violations frameworks name fw r Hfw Hr)
    as [Hall [Hn [Hd _]]].
  split; [exact Hn|]. split; [exact Hd|].
  induction Hall as [|item cr items crs Hcr _ IH]; [repeat split|].
  destruct (evaluate_control_returned _ _ _ _ Hcr) as [Hid [Ht [Hde _]]].
  destruct IH as [IH1 [IH2 IH3]].
  simpl. rewrite Hid, Ht, Hde, IH1, IH2, IH3. repeat split.
Qed.

Lemma framework_result_follows_registry_witness :
  exists r,
    ComplianceReporter.evaluate_framework FRAMEWORK_CONTROLS "pci" three_s3_violations
      = Ok r /\
    framework_name_of r = fw_name pci /\
    fr_description r = fw_description pci /\
    map control_id (controls r) = map fst (fw_controls pci) /\
    map cr_title (controls r) = map (fun item => title (snd item)) (fw_controls pci) /\
    map cr_description (controls r)
      = map (fun item => description (snd item)) (fw_controls pci).
Proof.
  eexists. split; [reflexivity|].
  apply (framework_result_follows_registry FRAMEWORK_CONTROLS "pci" pci
           three_s3_violations); reflexivity.
Defined.

(** ** No violations *)

Lemma round_half_even_exact (k : Z) (x : Q) :
  (x == inject_Z k)%Q -> round_half_even x = k.
Proof.
  intros H. unfold round_half_even.
  assert (Hf : Qfloor x = k) by (rewrite H; apply Qfloor_Z).
  rewrite Hf.
  destruct (Qcompare_spec (x - inject_Z k) (1 # 2)) as [E|E|E]; [lra | reflexivity | lra].
Qed.

Lemma round1_exact (k : Z) (x : Q) : (x == inject_Z k)%Q -> (round1 x == inject_Z k)%Q.
Proof.
  intros H. unfold round1.
  rewrite (round_half_even_exact (k * 10)).
  - rewrite inject_Z_mult. change (inject_Z 10) with 10%Q. field.
  - rewrite H, inject_Z_mult. reflexivity.
Qed.

Lemma mean_constant (k : Z) (scores : list Z) :
  scores <> [] -> Forall (fun s => s = k) scores -> (mean scores == inject_Z k)%Q.
Proof.
  intros Hne Hall. unfold mean, truediv.
  assert (Hsum : fold_right Z.add 0 scores = k * Z.of_nat (List.length scores)).
  { clear Hne. induction Hall as [|s rest Hs _ IH]; [simpl; lia|].
    cbn [fold_right List.length]. rewrite IH, Hs, Nat2Z.inj_succ. lia. }
  rewrite Hsum, inject_Z_mult.
  assert (Hn : ~ (inject_Z (Z.of_nat (List.length scores)) == 0)%Q).
  { destruct scores; [contradiction|]. intros E.
    unfold Qeq in E. simpl in E. lia. }
  field. exact Hn.
Qed.

Lemma evaluate_control_nil (cid : string) (c : control) :
  ComplianceReporter._evaluate_control cid c []
  = Ok {| control_id := cid; cr_title := title c; cr_description := description c;
          status := "PASS"; score := 100; findings := [];
          evidence := ["No policy violations found for this control"] |}.
Proof. reflexivity. Qed.

(** X3. On an empty violation list every control of a framework passes
    with score 100, no finding and the one evidence entry; the pass
    counter is the number of controls, the other counters are 0 and, when
    the framework has a control, the overall score is 100. *)
Theorem no_violations_all_pass (frameworks : registry) (name : string) (fw : framework) :
  registry_get frameworks name = Some fw ->
  exists r,
    ComplianceReporter.evaluate_framework frameworks name [] = Ok r /\
    Forall (fun cr =>
              status cr = "PASS" /\ score cr = 100 /\ findings cr = [] /\
              evidence cr = ["No policy violations found for this control"])
      (controls r) /\
    pass_count r = Z.of_nat (List.length (fw_controls fw)) /\
    partial_count r = 0 /\
    fail_count r = 0 /\
    (fw_controls fw <> [] -> (overall_score r == 100)%Q).
Proof.
  intros Hfw.
  destruct (evaluate_framework_total [] frameworks name fw Hfw eq_refl) as [r Hr].
  exists r. split; [exact Hr|].
  destruct (framework_result_shape [] frameworks name fw r Hfw Hr)
    as [Hall [_ [_ [Hp [Hq [Hf Hs]]]]]].
  pose proof (Forall2_length Hall) as Hlen.
  assert (Hpass : Forall (fun cr =>
              status cr = "PASS" /\ score cr = 100 /\ findings cr = [] /\
              evidence cr = ["No policy violations found for this control"])
            (controls r)).
  { clear - Hall. induction Hall as [|item cr items crs Hcr _ IH]; constructor; [|exact IH].
    unfold evaluated in Hcr. rewrite evaluate_control_nil in Hcr.
    injection Hcr as <-. repeat split. }
  split; [exact Hpass|].
  assert (Hcount : count_status "PASS" (controls r) = Z.of_nat (List.length (controls r))
                   /\ count_status "PARTIAL" (controls r) = 0).
  { clear - Hpass. induction Hpass as [|cr crs [Hst _] _ [IH1 IH2]]; [split; reflexivity|].
    rewrite !count_status_cons, IH1, IH2, Hst. cbn [List.length].
    rewrite Nat2Z.inj_succ.
    change (String.eqb "PASS" "PASS") with true.
    change (String.eqb "PASS" "PARTIAL") with false.
    split; lia. }
  destruct Hcount as [Hc1 Hc2].
  split; [rewrite Hp, Hc1, Hlen; reflexivity|].
  split; [rewrite Hq; exact Hc2|].
  split; [rewrite Hf, Hc1, Hc2; lia|].
  intros Hne. rewrite Hs.
  destruct (controls r) as [|cr crs] eqn:E.
  - destruct (fw_controls fw); [contradiction | discriminate].
  - apply (round1_exact 100). apply mean_constant; [discriminate|].
    clear - Hpass. induction Hpass as [|x xs [_ [Hsc _]] _ IH]; constructor; assumption.
Qed.

Lemma no_violations_all_pass_witness :
  exists r,
    ComplianceReporter.evaluate_framework FRAMEWORK_CONTROLS "glba" [] = Ok r /\
    Forall (fun cr =>
              status cr = "PASS" /\ score cr = 100 /\ findings cr = [] /\
              evidence cr = ["No policy violations found for this control"])
      (controls r) /\
    pass_count r = Z.of_nat (List.length (fw_controls glba)) /\
    partial_count r = 0 /\
    fail_count r = 0 /\
    (fw_controls glba <> [] -> (overall_score r == 100)%Q).
Proof.
  apply (no_violations_all_pass FRAMEWORK_CONTROLS "glba" glba). reflexivity.
Defined.

(** ** More violations *)

Lemma round_half_even_mono (x y : Q) :
  (x <= y)%Q -> round_half_even x <= round_half_even y.
Proof.
  intros H.
  pose proof (Qfloor_resp_le x y H) as Hf.
  destruct (Z.eq_dec (Qfloor x) (Qfloor y)) as [E|E].
  - unfold round_half_even. rewrite E.
    destruct (Qcompare_spec (x - inject_Z (Qfloor y)) (1 # 2)) as [Ex|Ex|Ex];
      destruct (Qcompare_spec (y - inject_Z (Qfloor y)) (1 # 2)) as [Ey|Ey|Ey];
      try destruct (Z.even (Qfloor y)); try lia; lra.
  - destruct (round_half_even_cases x) as [-> | ->],
             (round_half_even_cases y) as [-> | ->]; lia.
Qed.

Lemma round1_mono (x y : Q) : (x <= y)%Q -> (round1 x <= round1 y)%Q.
Proof.
  intros H. unfold round1.
  assert (Hr : round_half_even (x * 10) <= round_half_even (y * 10))
    by (apply round_half_even_mono; lra).
  rewrite Zle_Qle in Hr.
  set (a := inject_Z (round_half_even (x * 10))) in *.
  set (b := inject_Z (round_half_even (y * 10))) in *.
  clearbody a b. unfold Qdiv. change (/ 10)%Q with (1 # 10)%Q. lra.
Qed.

Lemma mean_mono (scores scores' : list Z) :
  Forall2 (fun a b => b <= a) scores scores' -> (mean scores' <= mean scores)%Q.
Proof.
  intros H. unfold mean, truediv.
  rewrite <- (Forall2_length H).
  assert (Hsum : fold_right Z.add 0 scores' <= fold_right Z.add 0 scores).
  { induction H as [|a b l l' Hab _ IH]; simpl; lia. }
  destruct scores as [|a l].
  - inversion H. subst. simpl. apply Qle_refl.
  - apply Qmult_le_compat_r.
    + rewrite <- Zle_Qle. exact Hsum.
    + apply Qinv_le_0_compat. change 0%Q with (inject_Z 0).
      rewrite <- Zle_Qle. lia.
Qed.

Lemma not_better_controls (violations more : list value)
    (items : list (string * control)) (crs crs' : list control_result) :
  Forall2 (evaluated violations) items crs ->
  Forall2 (evaluated (violations ++ more)) items crs' ->
  Forall2 not_better crs crs'.
Proof.
  intros H. revert crs'. induction H as [|item cr items crs Hcr _ IH]; intros crs' H'.
  - inversion H'. constructor.
  - inversion H' as [|item' cr' items' crs'' Hcr' Hrest]. subst.
    constructor; [|now apply IH].
    destruct (evaluate_control_returned _ _ _ _ Hcr) as [_ [_ [_ [Hst Hsc]]]].
    destruct (evaluate_control_returned _ _ _ _ Hcr') as [_ [_ [_ [Hst' Hsc']]]].
    exists (mapped_count (snd item) violations),
           (mapped_count (snd item) (violations ++ more)).
    rewrite mapped_count_app at 1. repeat split; try assumption. lia.
Qed.

Lemma not_better_counts (crs crs' : list control_result) :
  Forall2 not_better crs crs' ->
  Forall2 (fun a b => b <= a) (map score crs) (map score crs') /\
  count_status "PASS" crs' <= count_status "PASS" crs /\
  Z.of_nat (List.length crs) - count_status "PASS" crs - count_status "PARTIAL" crs
  <= Z.of_nat (List.length crs') - count_status "PASS" crs'
     - count_status "PARTIAL" crs'.
Proof.
  induction 1 as [|r r' crs crs' [m [m' [Hle [Hs [Hs' [Hc Hc']]]]]] _ [IH1 [IH2 IH3]]].
  - repeat split; [constructor | lia | lia].
  - split.
    + simpl. constructor; [|exact IH1]. rewrite Hc, Hc'. now apply score_for_antitone.
    + rewrite !count_status_cons, Hs, Hs'. cbn [List.length]. rewrite !Nat2Z.inj_succ.
      destruct m as [|[|[|m]]], m' as [|[|[|m']]]; try lia;
        cbv [status_for String.eqb Ascii.eqb Bool.eqb]; split; lia.
Qed.

(** X4. Violations added to the input never improve a framework: the
    overall score does not go up, the number of passing controls does
    not go up and the number of failing controls does not go down. *)
Theorem more_violations_never_help_framework (frameworks : registry) (name : string)
    (fw : framework) (violations more : list value) :
  registry_get frameworks name = Some fw ->
  forallb is_violation violations = true ->
  forallb is_violation more = true ->
  exists r r',
    ComplianceReporter.evaluate_framework frameworks name violations = Ok r /\
    ComplianceReporter.evaluate_framework frameworks name (violations ++ more) = Ok r' /\
    (overall_score r' <= overall_score r)%Q /\
    pass_count r' <= pass_count r /\
    fail_count r <= fail_count r'.
Proof.
  intros Hfw Hv Hm.
  destruct (evaluate_framework_total violations frameworks name fw Hfw Hv) as [r Hr].
  destruct (evaluate_framework_total (violations ++ more) frameworks name fw Hfw
              (forallb_app_true _ _ _ Hv Hm)) as [r' Hr'].
  exists r, r'. split; [exact Hr|]. split; [exact Hr'|].
  destruct (framework_result_shape _ _ _ _ _ Hfw Hr) as [Hall [_ [_ [Hp [_ [Hf Hs]]]]]].
  destruct (framework_result_shape _ _ _ _ _ Hfw Hr') as [Hall' [_ [_ [Hp' [_ [Hf' Hs']]]]]].
  pose proof (not_better_controls _ _ _ _ _ Hall Hall') as Hnb.
  destruct (not_better_counts _ _ Hnb) as [Hscores [Hpass Hfail]].
  split; [|split; [rewrite Hp, Hp'; exact Hpass | rewrite Hf, Hf'; exact Hfail]].
  rewrite Hs, Hs'.
  destruct Hnb as [|cr cr' crs crs' Hcr Hrest]; [apply Qle_refl|].
  apply round1_mono. apply mean_mono. exact Hscores.
Qed.

Lemma more_violations_never_help_framework_witness :
  exists r r',
    ComplianceReporter.evaluate_framework FRAMEWORK_CONTROLS "sox" [s3_violation] = Ok r /\
    ComplianceReporter.evaluate_framework FRAMEWORK_CONTROLS "sox"
      ([s3_violation] ++ [sox_violation; sox_violation; sox_violation]) = Ok r' /\
    (overall_score r' <= overall_score r)%Q /\
    pass_count r' <= pass_count r /\
    fail_count r <= fail_count r'.
Proof.
  apply (more_violations_never_help_framework FRAMEWORK_CONTROLS "sox" sox [s3_violation]
           [sox_violation; sox_violation; sox_violation]); reflexivity.
Defined.

(** ** The order of the violations *)

Lemma filter_permutation {A} (f : A -> bool) (l l' : list A) :
  Permutation l l' -> Permutation (filter f l) (filter f l').
Proof.
  induction 1 as [|x l l' _ IH|x y l|l l' l'' _ IH1 _ IH2]; simpl.
  - constructor.
  - destruct (f x); [now constructor | exact IH].
  - destruct (f x), (f y); try apply Permutation_refl. apply perm_swap.
  - now apply (Permutation_trans IH1).
Qed.

Lemma forallb_permutation {A} (P : A -> bool) (l l' : list A) :
  Permutation l l' -> forallb P l = true -> forallb P l' = true.
Proof.
  intros Hp H. rewrite forallb_forall in *.
  intros x Hx. apply H. apply (Permutation_in x (Permutation_sym Hp) Hx).
Qed.

Lemma same_result_controls (violations violations' : list value)
    (items : list (string * control)) (crs crs' : list control_result) :
  forallb is_violation violations = true ->
  Permutation violations violations' ->
  Forall2 (evaluated violations) items crs ->
  Forall2 (evaluated violations') items crs' ->
  Forall2 same_result crs crs'.
Proof.
  intros Hv Hp H.
  pose proof (forallb_permutation _ _ _ Hp Hv) as Hv'.
  revert crs'. induction H as [|item cr items crs Hcr _ IH]; intros crs' H'.
  - inversion H'. constructor.
  - inversion H' as [|item' cr' items' crs'' Hcr' Hrest]. subst.
    constructor; [|now apply IH].
    destruct (evaluate_control_by_count (fst item) (snd item) violations Hv)
      as [r [Hr [Hid [_ [_ [Hst [Hsc [Hfi Hev]]]]]]]].
    destruct (evaluate_control_by_count (fst item) (snd item) violations' Hv')
      as [r' [Hr' [Hid' [_ [_ [Hst' [Hsc' [Hfi' Hev']]]]]]]].
    unfold evaluated in Hcr, Hcr'. rewrite Hr in Hcr. rewrite Hr' in Hcr'.
    injection Hcr as <-. injection Hcr' as <-.
    assert (Hn : mapped_count (snd item) violations = mapped_count (snd item) violations').
    { unfold mapped_count. apply Permutation_length. now apply filter_permutation. }
    unfold same_result.
    rewrite Hid, Hid', Hst, Hst', Hsc, Hsc', Hfi, Hfi', Hev, Hev', Hn.
    repeat split. apply Permutation_map. now apply filter_permutation.
Qed.

Lemma same_result_counts (crs crs' : list control_result) :
  Forall2 same_result crs crs' ->
  map status crs = map status crs' /\
  map score crs = map score crs' /\
  forall s, count_status s crs = count_status s crs'.
Proof.
  induction 1 as [|r r' crs crs' [_ [Hst [Hsc _]]] _ [IH1 [IH2 IH3]]].
  - repeat split.
  - simpl. rewrite Hst, Hsc, IH1, IH2. repeat split.
    intros s. rewrite !count_status_cons, Hst, IH3. reflexivity.
Qed.

(** X5. The result of a framework does not depend on the order of the
    violations: on a permutation of the input every control has the same
    status, score and evidence and the same findings up to their order,
    and the three counters and the overall score are the same. *)
Theorem violation_order_is_irrelevant (frameworks : registry) (name : string)
    (fw : framework) (violations violations' : list value) :
  registry_get frameworks name = Some fw ->
  forallb is_violation violations = true ->
  Permutation violations violations' ->
  exists r r',
    ComplianceReporter.evaluate_framework frameworks name violations = Ok r /\
    ComplianceReporter.evaluate_framework frameworks name violations' = Ok r' /\
    Forall2 same_result (controls r) (controls r') /\
    pass_count r = pass_count r' /\
    partial_count r = partial_count r' /\
    fail_count r = fail_count r' /\
    overall_score r = overall_score r'.
Proof.
  intros Hfw Hv Hp.
  pose proof (forallb_permutation _ _ _ Hp Hv) as Hv'.
  destruct (evaluate_framework_total violations frameworks name fw Hfw Hv) as [r Hr].
  destruct (evaluate_framework_total violations' frameworks name fw Hfw Hv') as [r' Hr'].
  exists r, r'. split; [exact Hr|]. split; [exact Hr'|].
  destruct (framework_result_shape _ _ _ _ _ Hfw Hr)
    as [Hall [_ [_ [Hpc [Hqc [Hfc Hs]]]]]].
  destruct (framework_result_shape _ _ _ _ _ Hfw Hr')
    as [Hall' [_ [_ [Hpc' [Hqc' [Hfc' Hs']]]]]].
  pose proof (same_result_controls _ _ _ _ _ Hv Hp Hall Hall') as Hsame.
  destruct (same_result_counts _ _ Hsame) as [Hst [Hsc Hcount]].
  split; [exact Hsame|].
  rewrite Hpc, Hpc', Hqc, Hqc', Hfc, Hfc', Hs, Hs', !Hcount, Hsc.
  rewrite (Forall2_length Hsame).
  repeat split.
  destruct Hsame; reflexivity.
Qed.

Lemma violation_order_is_irrelevant_witness :
  exists r r',
    ComplianceReporter.evaluate_framework FRAMEWORK_CONTROLS "sox"
      [s3_violation; sox_violation] = Ok r /\
    ComplianceReporter.evaluate_framework FRAMEWORK_CONTROLS "sox"
      [sox_violation; s3_violation] = Ok r' /\
    Forall2 same_result (controls r) (controls r') /\
    pass_count r = pass_count r' /\
    partial_count r = partial_count r' /\
    fail_count r = fail_count r' /\
    overall_score r = overall_score r'.
Proof.
  apply (violation_order_is_irrelevant FRAMEWORK_CONTROLS "sox" sox
           [s3_violation; sox_violation] [sox_violation; s3_violation]);
    [reflexivity | reflexivity | apply perm_swap].
Defined.

(** ** Violations no control maps *)

Lemma for_each_ext {A S} (body body' : S -> A -> result S) (xs : list A) :
  (forall acc x, In x xs -> body acc x = body' acc x) ->
  forall acc, for_each xs body acc = for_each xs body' acc.
Proof.
  induction xs as [|x xs IH]; intros H acc; simpl; [reflexivity|].
  rewrite (H acc x (or_introl eq_refl)).
  destruct (body' acc x) as [acc'|e]; simpl; [|reflexivity].
  apply IH. intros acc0 y Hy. apply H. now right.
Qed.

Lemma filter_filter_implied {A} (f g : A -> bool) (l : list A) :
  (forall x, f x = true -> g x = true) -> filter f (filter g l) = filter f l.
Proof.
  intros H. induction l as [|x l IH]; simpl; [reflexivity|].
  destruct (g x) eqn:Eg; simpl.
  - now rewrite IH.
  - destruct (f x) eqn:Ef; [|exact IH].
    rewrite (H x Ef) in Eg. discriminate.
Qed.

Lemma forallb_filter {A} (P f : A -> bool) (l : list A) :
  forallb P l = true -> forallb P (filter f l) = true.
Proof.
  intros H. rewrite forallb_forall in *.
  intros x Hx. apply filter_In in Hx as [Hx _]. now apply H.
Qed.

(** X6. Violations that no control of the framework maps play no part:
    leaving them out of the input gives the same framework result. *)
Theorem unmapped_violations_change_nothing (frameworks : registry) (name : string)
    (fw : framework) (violations : list value) :
  registry_get frameworks name = Some fw ->
  forallb is_violation violations = true ->
  ComplianceReporter.evaluate_framework frameworks name (filter (relevant fw) violations)
  = ComplianceReporter.evaluate_framework frameworks name violations.
Proof.
  intros Hfw Hv.
  rewrite !(evaluate_framework_unfold _ _ _ fw Hfw).
  rewrite (for_each_ext (loop_body (filter (relevant fw) violations))
             (loop_body violations)); [reflexivity|].
  intros acc item Hin. unfold loop_body.
  replace (ComplianceReporter._evaluate_control (fst item) (snd item)
             (filter (relevant fw) violations))
    with (ComplianceReporter._evaluate_control (fst item) (snd item) violations);
    [reflexivity|].
  unfold ComplianceReporter._evaluate_control.
  rewrite (mapped_violations_ok (snd item) violations Hv).
  rewrite (mapped_violations_ok (snd item) (filter (relevant fw) violations)
             (forallb_filter _ _ _ Hv)).
  rewrite filter_filter_implied; [reflexivity|].
  intros v Hm. unfold relevant. rewrite existsb_exists. exists item. auto.
Qed.

Lemma unmapped_violations_change_nothing_witness :
  ComplianceReporter.evaluate_framework FRAMEWORK_CONTROLS "sox"
    (filter (relevant sox) [unmapped_violation; s3_violation; unmapped_violation])
  = ComplianceReporter.evaluate_framework FRAMEWORK_CONTROLS "sox"
      [unmapped_violation; s3_violation; unmapped_violation].
Proof.
  apply (unmapped_violations_change_nothing FRAMEWORK_CONTROLS "sox" sox
           [unmapped_violation; s3_violation; unmapped_violation]); reflexivity.
Defined.

(** ** Files *)

Lemma dict_get_set_same {V} (d : list (string * V)) (key : string) (v : V) :
  dict_get (dict_set d key v) key = Some v.
Proof.
  induction d as [|[k w] rest IH]; simpl.
  - now rewrite String.eqb_refl.
  - destruct (String.eqb k key) eqn:E; simpl; rewrite E; [reflexivity | exact IH].
Qed.

Lemma dict_get_set_other {V} (d : list (string * V)) (key key' : string) (v : V) :
  key' <> key -> dict_get (dict_set d key v) key' = dict_get d key'.
Proof.
  intros Hne. induction d as [|[k w] rest IH]; simpl.
  - destruct (String.eqb_spec key key'); [congruence | reflexivity].
  - destruct (String.eqb_spec k key) as [->|Hk]; simpl.
    + destruct (String.eqb_spec key key'); [congruence | reflexivity].
    + destruct (String.eqb k key'); [reflexivity | exact IH].
Qed.







(** ** Reports of a readable input *)

Lemma json_load_ok_exists (w : world) (path : string) (data : value) :
  json_load w path = Ok data -> exists_file w path = true.
Proof.
  unfold json_load, exists_file, dict_has.
  destruct (dict_get (files w) path); [reflexivity | discriminate].
Qed.


(** [generate_report] on an input that holds a list of violations. *)
Lemma generate_report_ok (frameworks : registry) (w : world)
    (name input_file output_path : string) (fw : framework) (data : value)
    (violations : list value) :
  registry_get frameworks name = Some fw ->
  json_load w input_file = Ok data ->
  ComplianceReporter.violations_in data = Ok (VList violations) ->
  forallb is_violation violations = true ->
  exists r,
    ComplianceReporter.evaluate_framework frameworks name violations = Ok r /\
    ComplianceReporter.generate_report frameworks w name input_file output_path
    = (Ok tt, write_file w output_path (ComplianceHtml r)).
Proof.
  intros Hfw Hload Hin Hv.
  destruct (evaluate_framework_total violations frameworks name fw Hfw Hv) as [r Hr].
  exists r. split; [exact Hr|].
  unfold ComplianceReporter.generate_report, ComplianceReporter.load_violations.
  rewrite Hload. cbn [bind]. rewrite Hin. cbn [len iter bind]. now rewrite Hr.
Qed.

(** X8. On an input file that holds a list of violations, [main] with one
    of the four framework names returns normally, prints nothing on the
    error stream and leaves, at the output path, the page of what
    [evaluate_framework] returns for that framework and those
    violations. *)
Theorem main_writes_the_evaluation (w : world) (args : arguments) (data : value)
    (violations : list value) :
  In (arg_framework args) ["sox"; "pci"; "ffiec"; "glba"] ->
  json_load w (arg_input args) = Ok data ->
  ComplianceReporter.violations_in data = Ok (VList violations) ->
  forallb is_violation violations = true ->
  exists r,
    ComplianceReporter.evaluate_framework FRAMEWORK_CONTROLS (arg_framework args)
      violations = Ok r /\
    main w args = (Returned, write_file w (output_file_of args) (ComplianceHtml r)) /\
    dict_get (files (snd (main w args))) (output_file_of args) = Some (ComplianceHtml r) /\
    stderr (snd (main w args)) = stderr w.
Proof.
  intros Hname Hload Hin Hv.
  destruct (registered_names _ Hname) as [fw Hfw].
  destruct (generate_report_ok FRAMEWORK_CONTROLS w (arg_framework args) (arg_input args)
              (output_file_of args) fw data violations Hfw Hload Hin Hv) as [r [Hr Hgen]].
  exists r. split; [exact Hr|].
  assert (Hmain : main w args
                  = (Returned, write_file w (output_file_of args) (ComplianceHtml r))).
  { unfold main.
    replace (existsb (String.eqb (arg_framework args)) ["sox"; "pci"; "ffiec"; "glba"; "all"])
      with true
      by (destruct Hname as [<-|[<-|[<-|[<-|[]]]]]; reflexivity).
    rewrite (json_load_ok_exists _ _ _ Hload).
    replace (String.eqb (arg_framework args) "all") with false
      by (destruct Hname as [<-|[<-|[<-|[<-|[]]]]]; reflexivity).
    cbn [negb]. fold (output_file_of args). rewrite Hgen. reflexivity. }
  rewrite Hmain. split; [reflexivity|]. split; [|reflexivity].
  cbn [snd]. unfold write_file. cbn [files]. apply dict_get_set_same.
Qed.

Lemma main_writes_the_evaluation_witness :
  exists r,
    ComplianceReporter.evaluate_framework FRAMEWORK_CONTROLS
      (arg_framework
         {| arg_framework := "pci"; arg_input := "violations.json";
            arg_output := None; arg_output_dir := None |})
      three_s3_violations = Ok r /\
    main sample_world
      {| arg_framework := "pci"; arg_input := "violations.json";
         arg_output := None; arg_output_dir := None |}
    = (Returned,
       write_file sample_world
         (output_file_of
            {| arg_framework := "pci"; arg_input := "violations.json";
               arg_output := None; arg_output_dir := None |})
         (ComplianceHtml r)) /\
    dict_get
      (files (snd (main sample_world
                     {| arg_framework := "pci"; arg_input := "violations.json";
                        arg_output := None; arg_output_dir := None |})))
      (output_file_of
         {| arg_framework := "pci"; arg_input := "violations.json";
            arg_output := None; arg_output_dir := None |})
    = Some (ComplianceHtml r) /\
    stderr (snd (main sample_world
                   {| arg_framework := "pci"; arg_input := "violations.json";
                      arg_output := None; arg_output_dir := None |}))
    = stderr sample_world.
Proof.
  apply (main_writes_the_evaluation sample_world
           {| arg_framework := "pci"; arg_input := "violations.json";
              arg_output := None; arg_output_dir := None |}
           (VDict [("violations", VList three_s3_violations)]) three_s3_violations);
    [simpl; auto | reflexivity | reflexivity | reflexivity].
Defined.










(** ** [cli.py]: what [generate] extracts *)

Lemma cli_violation_of (f : list (string * value)) :
  cli.violation_of (VDict f)
  = if plain_msg (VDict f) then Raise AttributeError else Ok (cli_violation (VDict f)).
Proof.
  unfold cli.violation_of, cli.msg_field, cli_violation, msg_items, plain_msg, item_or.
  cbn [get bind].
  destruct (dict_get f "msg") as [[| | | | |m]|]; reflexivity.
Qed.

Lemma cli_failures_loop (failures : list value) :
  forallb is_dict failures = true ->
  forall acc,
    for_each failures
      (fun violations failure =>
         violation <- cli.violation_of failure ;;
         Ok (violations ++ [violation])%list)
      acc
    = if existsb plain_msg failures then Raise AttributeError
      else Ok (acc ++ map cli_violation failures)%list.
Proof.
  induction failures as [|f fs IH]; intros H acc.
  - simpl. now rewrite app_nil_r.
  - simpl in H. apply andb_prop in H as [Hf Hfs].
    destruct f as [| | | | |d]; try discriminate.
    cbn [for_each existsb map]. rewrite cli_violation_of.
    destruct (plain_msg (VDict d)); cbn [bind orb]; [reflexivity|].
    rewrite (IH Hfs). destruct (existsb plain_msg fs); [reflexivity|].
    now rewrite <- app_assoc.
Qed.

Lemma cli_failures_of (result : value) (acc : list value) :
  conftest_shaped result = true ->
  cli.failures_of acc result
  = if existsb plain_msg (failures_in result) then Raise AttributeError
    else Ok (acc ++ map cli_violation (failures_in result))%list.
Proof.
  unfold conftest_shaped, cli.failures_of, failures_in.
  destruct result as [| | | | |d]; try discriminate. cbn [get bind].
  destruct (dict_get d "failures") as [[| | | |failures|]|]; try discriminate;
    cbn [iter bind].
  - intros H. now apply cli_failures_loop.
  - intros _. simpl. now rewrite app_nil_r.
Qed.

Lemma cli_results_loop (results : list value) :
  forallb conftest_shaped results = true ->
  forall acc,
    for_each results cli.failures_of acc
    = if existsb plain_msg (flat_map failures_in results) then Raise AttributeError
      else Ok (acc ++ map cli_violation (flat_map failures_in results))%list.
Proof.
  induction results as [|r rs IH]; intros H acc.
  - simpl. now rewrite app_nil_r.
  - simpl in H. apply andb_prop in H as [Hr Hrs].
    cbn [for_each flat_map]. rewrite (cli_failures_of r acc Hr).
    rewrite existsb_app, map_app.
    destruct (existsb plain_msg (failures_in r)); cbn [bind orb]; [reflexivity|].
    rewrite (IH Hrs). destruct (existsb plain_msg (flat_map failures_in rs));
      [reflexivity|]. now rewrite <- app_assoc.
Qed.

(** X10. From a conftest document, [generate] takes one violation per
    failure, in order, with the six fields [policy], [resource],
    [severity], [message], [remediation] and [compliance] read from the
    [msg] of the failure or set to their defaults; a failure without
    [msg] gives the violation of the defaults alone. *)
Theorem cli_takes_one_violation_per_failure (d : list (string * value))
    (results : list value) :
  dict_get d "results" = Some (VList results) ->
  forallb conftest_shaped results = true ->
  existsb plain_msg (flat_map failures_in results) = false ->
  cli.extract (VDict d) = Ok (map cli_violation (flat_map failures_in results)) /\
  List.length (map cli_violation (flat_map failures_in results))
  = List.length (flat_map failures_in results) /\
  cli_violation (VDict [])
  = VDict [ ("policy", VStr "unknown"); ("resource", VStr "unknown");
            ("severity", VStr "MEDIUM"); ("message", VStr EmptyString);
            ("remediation", VStr EmptyString); ("compliance", VStr EmptyString) ].
Proof.
  intros Hr Hshape Hplain. split; [|split; [apply length_map | reflexivity]].
  unfold cli.extract. rewrite Hr. cbn [iter bind].
  rewrite (cli_results_loop results Hshape []), Hplain. reflexivity.
Qed.

Lemma cli_takes_one_violation_per_failure_witness :
  cli.extract bare_conftest
  = Ok (map cli_violation
          (flat_map failures_in
             [VDict [("failures",
                      VList [VDict [("msg", VDict [("policy", VStr "p")])]; VDict []])];
              VDict []])) /\
  List.length
    (map cli_violation
       (flat_map failures_in
          [VDict [("failures",
                   VList [VDict [("msg", VDict [("policy", VStr "p")])]; VDict []])];
           VDict []]))
  = List.length
      (flat_map failures_in
         [VDict [("failures",
                  VList [VDict [("msg", VDict [("policy", VStr "p")])]; VDict []])];
          VDict []]) /\
  cli_violation (VDict [])
  = VDict [ ("policy", VStr "unknown"); ("resource", VStr "unknown");
            ("severity", VStr "MEDIUM"); ("message", VStr EmptyString);
            ("remediation", VStr EmptyString); ("compliance", VStr EmptyString) ].
Proof.
  apply (cli_takes_one_violation_per_failure
           [("results",
             VList [VDict [("failures",
                            VList [VDict [("msg", VDict [("policy", VStr "p")])];
                                   VDict []])];
                    VDict []])]); reflexivity.
Defined.

(** X11. A conftest failure whose [msg] is not a mapping (a plain text,
    say) ends [generate] with an uncaught [AttributeError]: exit code 1,
    the traceback on the error stream and no report written.  On the same
    document [load_violations] of [compliance_report.py] skips the
    failure. *)
Theorem cli_fails_on_a_plain_msg (w : world) (input_file output_dir : string)
    (formats : list string) (scan_target : option string)
    (d : list (string * value)) (results : list value) :
  json_load w input_file = Ok (VDict d) ->
  dict_get d "results" = Some (VList results) ->
  forallb conftest_shaped results = true ->
  existsb plain_msg (flat_map failures_in results) = true ->
  cli.generate w input_file output_dir formats scan_target
  = (Uncaught AttributeError, print_err w (Traceback AttributeError)) /\
  exit_code (fst (cli.generate w input_file output_dir formats scan_target)) = 1 /\
  files (snd (cli.generate w input_file output_dir formats scan_target)) = files w /\
  for_each results ComplianceReporter.failures_of []
  = Ok (flat_map conftest_msgs results).
Proof.
  intros Hload Hr Hshape Hplain.
  assert (Hgen : cli.generate w input_file output_dir formats scan_target
                 = (Uncaught AttributeError, print_err w (Traceback AttributeError))).
  { unfold cli.generate. rewrite (json_load_ok_exists _ _ _ Hload), Hload.
    cbn [negb]. unfold cli.reports, cli.extract. rewrite Hr. cbn [iter bind].
    rewrite (cli_results_loop results Hshape []), Hplain. reflexivity. }
  rewrite Hgen. repeat split.
  now rewrite (results_loop results Hshape []).
Qed.

Lemma cli_fails_on_a_plain_msg_witness :
  cli.generate (world_with plain_conftest) "input.json" "reports" ["html"; "csv"] None
  = (Uncaught AttributeError,
     print_err (world_with plain_conftest) (Traceback AttributeError)) /\
  exit_code
    (fst (cli.generate (world_with plain_conftest) "input.json" "reports"
            ["html"; "csv"] None)) = 1 /\
  files
    (snd (cli.generate (world_with plain_conftest) "input.json" "reports"
            ["html"; "csv"] None))
  = files (world_with plain_conftest) /\
  for_each
    [VDict [("failures",
             VList [VDict [("msg", VDict [("policy", VStr "p")])];
                    VDict [("msg", VStr "denied")]])]]
    ComplianceReporter.failures_of []
  = Ok (flat_map conftest_msgs
          [VDict [("failures",
                   VList [VDict [("msg", VDict [("policy", VStr "p")])];
                          VDict [("msg", VStr "denied")]])]]).
Proof.
  apply (cli_fails_on_a_plain_msg (world_with plain_conftest) "input.json" "reports"
           ["html"; "csv"] None
           [("results",
             VList [VDict [("failures",
                            VList [VDict [("msg", VDict [("policy", VStr "p")])];
                                   VDict [("msg", VStr "denied")]])]])]);
    reflexivity.
Defined.

(** ** The CSV report *)

Lemma csv_row_of_dict (d : list (string * value)) :
  CSVReportGenerator.row (VDict d) = Ok (csv_row (VDict d)).
Proof. reflexivity. Qed.

Lemma csv_row_raises (v : value) :
  is_dict v = false -> CSVReportGenerator.row v = Raise AttributeError.
Proof. destruct v; try reflexivity. discriminate. Qed.

Lemma write_rows_all (violations : list value) :
  forallb is_dict violations = true ->
  forall written,
    CSVReportGenerator.write_rows violations written
    = (Ok tt, (written ++ map csv_row violations)%list).
Proof.
  induction violations as [|v vs IH]; intros H written; simpl.
  - now rewrite app_nil_r.
  - simpl in H. apply andb_prop in H as [Hv Hvs].
    destruct v as [| | | | |d]; try discriminate.
    rewrite csv_row_of_dict, (IH Hvs). now rewrite <- app_assoc.
Qed.

Lemma write_rows_partial (good rest : list value) (bad : value) :
  forallb is_dict good = true ->
  is_dict bad = false ->
  forall written,
    CSVReportGenerator.write_rows (good ++ bad :: rest) written
    = (Raise AttributeError, (written ++ map csv_row good)%list).
Proof.
  intros Hgood Hbad. induction good as [|v vs IH]; intros written; simpl.
  - rewrite (csv_row_raises bad Hbad). now rewrite app_nil_r.
  - simpl in Hgood. apply andb_prop in Hgood as [Hv Hvs].
    destruct v as [| | | | |d]; try discriminate.
    rewrite csv_row_of_dict, (IH Hvs). now rewrite <- app_assoc.
Qed.

(** X12. The CSV report of a list of mappings holds the header row and one
    row per violation, in order, each of six cells: the fields [policy],
    [resource], [severity], [message] and [remediation], empty when
    missing, and [compliance], N/A when missing.  The report of the empty
    list is the single row [No violations found]. *)
Theorem csv_report_rows (w : world) (output_dir : string) (violations : list value)
    (metadata : list (string * value)) :
  forallb is_dict violations = true ->
  exists rows,
    CSVReportGenerator.generate w output_dir violations metadata
    = (Ok (csv_path w output_dir),
       write_file w (csv_path w output_dir) (PolicyCsv rows)) /\
    (violations = [] -> rows = [[VStr "No violations found"]]) /\
    (violations <> [] ->
       rows = csv_header :: map csv_row violations /\
       List.length rows = S (List.length violations) /\
       Forall (fun row => List.length row = 6%nat) rows).
Proof.
  intros H. unfold CSVReportGenerator.generate. fold (csv_path w output_dir).
  destruct violations as [|v vs].
  - eexists. split; [reflexivity|]. split; [reflexivity|]. intros Hne. contradiction.
  - fold csv_header. rewrite (write_rows_all (v :: vs) H [csv_header]).
    eexists. split; [reflexivity|]. split; [discriminate|]. intros _.
    split; [reflexivity|]. split; [simpl; now rewrite length_map|].
    constructor; [reflexivity|].
    rewrite Forall_forall. intros row Hrow. apply in_map_iff in Hrow as [x [<- Hx]].
    rewrite forallb_forall in H. specialize (H x Hx).
    destruct x; try discriminate. reflexivity.
Qed.

Lemma csv_report_rows_witness :
  exists rows,
    CSVReportGenerator.generate sample_world "reports" [s3_violation; sox_violation] []
    = (Ok (csv_path sample_world "reports"),
       write_file sample_world (csv_path sample_world "reports") (PolicyCsv rows)) /\
    ([s3_violation; sox_violation] = [] -> rows = [[VStr "No violations found"]]) /\
    ([s3_violation; sox_violation] <> [] ->
       rows = csv_header :: map csv_row [s3_violation; sox_violation] /\
       List.length rows = S (List.length [s3_violation; sox_violation]) /\
       Forall (fun row => List.length row = 6%nat) rows).
Proof.
  apply (csv_report_rows sample_world "reports" [s3_violation; sox_violation] []).
  reflexivity.
Defined.

(** X13. When a violation is not a mapping, the CSV generator raises
    [AttributeError] after it has opened its file: the report is left
    behind with the header and the rows of the violations before the
    offending one. *)
Theorem csv_report_is_left_partial (w : world) (output_dir : string)
    (good rest : list value) (bad : value) (metadata : list (string * value)) :
  forallb is_dict good = true ->
  is_dict bad = false ->
  CSVReportGenerator.generate w output_dir (good ++ bad :: rest) metadata
  = (Raise AttributeError,
     write_file w (csv_path w output_dir) (PolicyCsv (csv_header :: map csv_row good))) /\
  dict_get
    (files (snd (CSVReportGenerator.generate w output_dir (good ++ bad :: rest) metadata)))
    (csv_path w output_dir)
  = Some (PolicyCsv (csv_header :: map csv_row good)).
Proof.
  intros Hgood Hbad.
  assert (Hgen : CSVReportGenerator.generate w output_dir (good ++ bad :: rest) metadata
                 = (Raise AttributeError,
                    write_file w (csv_path w output_dir)
                      (PolicyCsv (csv_header :: map csv_row good)))).
  { unfold CSVReportGenerator.generate. fold (csv_path w output_dir). fold csv_header.
    rewrite (write_rows_partial good rest bad Hgood Hbad [csv_header]).
    destruct (good ++ bad :: rest)%list eqn:E; [|reflexivity].
    destruct good; discriminate E. }
  rewrite Hgen. split; [reflexivity|].
  cbn [snd]. unfold write_file. cbn [files]. apply dict_get_set_same.
Qed.

Lemma csv_report_is_left_partial_witness :
  CSVReportGenerator.generate sample_world "reports"
    ([s3_violation] ++ VStr "text" :: [sox_violation]) []
  = (Raise AttributeError,
     write_file sample_world (csv_path sample_world "reports")
       (PolicyCsv (csv_header :: map csv_row [s3_violation]))) /\
  dict_get
    (files (snd (CSVReportGenerator.generate sample_world "reports"
                   ([s3_violation] ++ VStr "text" :: [sox_violation]) [])))
    (csv_path sample_world "reports")
  = Some (PolicyCsv (csv_header :: map csv_row [s3_violation])).
Proof.
  apply (csv_report_is_left_partial sample_world "reports" [s3_violation]
           [sox_violation] (VStr "text") []); reflexivity.
Defined.

(** ** The JSON report read back *)

Lemma loaded_report (metadata summary violations : value) :
  loaded (VDict [ ("metadata", metadata); ("summary", summary);
                  ("violations", violations) ])
  = VDict [ ("metadata", loaded metadata); ("summary", loaded summary);
            ("violations", loaded violations) ].
Proof. reflexivity. Qed.

Lemma map_loaded_id (vs : list value) :
  Forall (fun v => loaded v = v) vs -> map loaded vs = vs.
Proof.
  induction 1 as [|v vs Hv _ IH]; simpl; [reflexivity|]. now rewrite Hv, IH.
Qed.

(** X14. The JSON report can be fed back: [load_violations] applied to the
    file [JSONReportGenerator.generate] has written returns the
    violations the report was made from, in order, and prints nothing on
    the error stream. *)
Theorem json_report_reads_back (w : world) (output_dir : string)
    (violations : list value) (metadata : list (string * value)) :
  forallb summarizable violations = true ->
  Forall (fun v => loaded v = v) violations ->
  exists w',
    JSONReportGenerator.generate w output_dir violations metadata
    = (Ok (json_path w output_dir), w') /\
    ComplianceReporter.load_violations w' (json_path w output_dir)
    = (VList violations, w').
Proof.
  intros Hs Hl.
  destruct (json_summary_ok violations Hs) as [s [Hsum _]].
  unfold JSONReportGenerator.generate. rewrite Hsum. fold (json_path w output_dir).
  eexists. split; [reflexivity|].
  unfold ComplianceReporter.load_violations, json_load, write_file. cbn [files].
  rewrite dict_get_set_same, loaded_report. cbn [bind].
  unfold ComplianceReporter.violations_in.
  change (dict_get _ "violations") with (Some (loaded (VList violations))).
  cbn [loaded]. now rewrite (map_loaded_id violations Hl).
Qed.

Lemma json_report_reads_back_witness :
  exists w',
    JSONReportGenerator.generate sample_world "reports" [s3_violation; info_violation]
      [("scan_target", VStr "plan.json")]
    = (Ok (json_path sample_world "reports"), w') /\
    ComplianceReporter.load_violations w' (json_path sample_world "reports")
    = (VList [s3_violation; info_violation], w').
Proof.
  apply (json_report_reads_back sample_world "reports" [s3_violation; info_violation]
           [("scan_target", VStr "plan.json")]);
    [reflexivity | repeat constructor].
Defined.

(** ** The groups and the summary of the HTML report *)

Lemma in_group_is_tallied (key : string) (v : value) :
  key = "CRITICAL" \/ key = "HIGH" \/ key = "LOW" ->
  in_group key v = key_eqb (severity_of v) (VStr key).
Proof.
  unfold in_group, group_of, canonical.
  destruct (severity_of v) as [| | |s| |];
    try (intros [-> | [-> | ->]]; reflexivity).
  intros Hk. simpl key_eqb.
  destruct (String.eqb_spec s "CRITICAL") as [->|];
    [destruct Hk as [-> | [-> | ->]]; reflexivity|].
  destruct (String.eqb_spec s "HIGH") as [->|];
    [destruct Hk as [-> | [-> | ->]]; reflexivity|].
  destruct (String.eqb_spec s "MEDIUM") as [->|];
    [destruct Hk as [-> | [-> | ->]]; reflexivity|].
  destruct (String.eqb_spec s "LOW") as [->|];
    [destruct Hk as [-> | [-> | ->]]; reflexivity|].
  cbn [orb]. destruct Hk as [-> | [-> | ->]]; cbv iota;
    match goal with
    | |- _ = String.eqb s ?k => destruct (String.eqb_spec s k); [congruence | reflexivity]
    end.
Qed.

Lemma group_size_is_tallied (key : string) (vs : list value) :
  key = "CRITICAL" \/ key = "HIGH" \/ key = "LOW" ->
  Z.of_nat (List.length (filter (in_group key) vs)) = tallied (VStr key) vs.
Proof.
  intros Hk. unfold tallied. f_equal. f_equal.
  apply filter_ext. intros v. now apply in_group_is_tallied.
Qed.

Lemma summarizable_groupable (vs : list value) :
  forallb summarizable vs = true -> forallb groupable vs = true.
Proof.
  intros H. rewrite forallb_forall in *. intros v Hv. specialize (H v Hv).
  unfold summarizable in H. apply andb_prop in H as [H1 H2].
  unfold groupable. now rewrite (is_violation_dict v H1), H2.
Qed.

(** X15. In the HTML report the sizes of the groups CRITICAL, HIGH and LOW
    are the counts [critical], [high] and [low] of the summary, but the
    group MEDIUM is larger than the count [medium] by the number of
    violations whose severity is missing or outside the four: these are
    listed under MEDIUM and counted nowhere. *)
Theorem html_groups_against_summary (violations : list value) :
  forallb summarizable violations = true ->
  exists s grouped,
    HTMLReportGenerator._generate_summary violations = Ok s /\
    HTMLReportGenerator._group_violations violations = Ok grouped /\
    Z.of_nat (List.length (CRITICAL grouped)) = critical s /\
    Z.of_nat (List.length (HIGH grouped)) = high s /\
    Z.of_nat (List.length (LOW grouped)) = low s /\
    Z.of_nat (List.length (MEDIUM grouped))
    = medium s + (total s - canonical_count violations).
Proof.
  intros H.
  destruct (html_summary_ok violations H)
    as [s [Hs [Ht [Hc [Hh [Hm [Hl [Hsum _]]]]]]]].
  exists s. eexists. split; [exact Hs|].
  unfold HTMLReportGenerator._group_violations.
  rewrite (group_loop violations (summarizable_groupable violations H)).
  split; [reflexivity|]. cbn [extended CRITICAL HIGH MEDIUM LOW app].
  pose proof (groups_cover violations) as Hcover.
  pose proof (group_size_is_tallied "CRITICAL" violations (or_introl eq_refl)) as Gc.
  pose proof (group_size_is_tallied "HIGH" violations (or_intror (or_introl eq_refl))) as Gh.
  pose proof (group_size_is_tallied "LOW" violations (or_intror (or_intror eq_refl))) as Gl.
  rewrite Hc, Hh, Hl. repeat split; try assumption.
  rewrite Ht, <- Hsum, Hc, Hh, Hl, Hm. lia.
Qed.

Lemma html_groups_against_summary_witness :
  exists s grouped,
    HTMLReportGenerator._generate_summary [info_violation; critical_violation] = Ok s /\
    HTMLReportGenerator._group_violations [info_violation; critical_violation]
      = Ok grouped /\
    Z.of_nat (List.length (CRITICAL grouped)) = critical s /\
    Z.of_nat (List.length (HIGH grouped)) = high s /\
    Z.of_nat (List.length (LOW grouped)) = low s /\
    Z.of_nat (List.length (MEDIUM grouped))
    = medium s + (total s - canonical_count [info_violation; critical_violation]).
Proof.
  apply (html_groups_against_summary [info_violation; critical_violation]).
  reflexivity.
Defined.

(** ** scripts/extract-violations.py *)

Lemma value_nested_ind (P : value -> Prop) :
  P VNone -> (forall b, P (VBool b)) -> (forall n, P (VInt n)) ->
  (forall s, P (VStr s)) ->
  (forall l, Forall P l -> P (VList l)) ->
  (forall d, Forall (fun kv => P (snd kv)) d -> P (VDict d)) ->
  forall v, P v.
Proof.
  intros HN HB HI HS HL HD.
  fix IH 1. intros [| b | n | s | l | d].
  - exact HN.
  - apply HB.
  - apply HI.
  - apply HS.
  - apply HL. induction l as [|x l IHl]; constructor; [apply IH | exact IHl].
  - apply HD. induction d as [|[k x] d IHd]; constructor; [apply IH | exact IHd].
Qed.

Lemma dict_get_in {V} (d : list (string * V)) (key : string) (v : V) :
  dict_get d key = Some v -> In (key, v) d.
Proof.
  induction d as [|[k x] d IH]; simpl; [discriminate|].
  destruct (String.eqb_spec k key) as [->|_].
  - intros [= ->]. now left.
  - intros H. right. now apply IH.
Qed.

Lemma in_flat_map_extract (d : list (string * value)) (v : value) :
  In v (flat_map (fun kv => ExtractViolations.extract_violations (snd kv)) d) <->
  exists key x, In (key, x) d /\ In v (ExtractViolations.extract_violations x).
Proof.
  rewrite in_flat_map. split.
  - intros [[k x] [Hin Hv]]. now exists k, x.
  - intros [k [x [Hin Hv]]]. now exists (k, x).
Qed.

Lemma extracted_is_denied (obj v : value) :
  In v (ExtractViolations.extract_violations obj) -> denied obj v.
Proof.
  revert v. induction obj as [ | | | | l IH | d IH] using value_nested_ind;
    intros v; try (simpl; tauto).
  - simpl. rewrite in_flat_map. intros [x [Hx Hv]].
    rewrite Forall_forall in IH. eapply denied_in_item; eauto.
  - cbn [ExtractViolations.extract_violations]. rewrite in_app_iff.
    intros [Hhere | Hdeep].
    + destruct (dict_get d "deny") as [[| | | | deny |]|] eqn:E;
        try contradiction.
      eapply denied_here; eauto.
    + apply in_flat_map_extract in Hdeep as [k [x [Hin Hv]]].
      rewrite Forall_forall in IH.
      eapply denied_in_value; [exact Hin|]. exact (IH (k, x) Hin v Hv).
Qed.

(** X16. [extract_violations] returns the items of the [deny] arrays of
    the document and nothing else: a value is in the result exactly when
    it is an item of an array under the key [deny] of a mapping found at
    any depth, through the values of mappings and the items of arrays.
    A [deny] that is not an array gives nothing by itself. *)
Theorem extract_violations_collects_deny (obj v : value) :
  In v (ExtractViolations.extract_violations obj) <-> denied obj v.
Proof.
  split; [apply extracted_is_denied|].
  induction 1 as [d deny v Hd Hv | d k x v Hin _ IH | l x v Hin _ IH].
  - cbn [ExtractViolations.extract_violations]. rewrite Hd.
    apply in_app_iff. now left.
  - cbn [ExtractViolations.extract_violations]. apply in_app_iff. right.
    apply in_flat_map_extract. now exists k, x.
  - simpl. apply in_flat_map. now exists x.
Qed.

Lemma flat_holds_nothing (v : value) :
  flat v = true -> ExtractViolations.extract_violations v = [].
Proof.
  destruct v as [| | | | |d]; try discriminate. cbn [flat]. intros H.
  cbn [ExtractViolations.extract_violations].
  assert (Hd : dict_get d "deny" = None \/ exists s, dict_get d "deny" = Some (VStr s)).
  { destruct (dict_get d "deny") as [x|] eqn:E; [|now left].
    apply dict_get_in in E. rewrite forallb_forall in H. specialize (H _ E).
    destruct x; try discriminate. right. now eexists. }
  assert (Hf : flat_map (fun kv => ExtractViolations.extract_violations (snd kv)) d = []).
  { induction d as [|[k x] d IHd]; [reflexivity|]. cbn [forallb] in H.
    apply andb_prop in H as [Hx Hrest]. cbn [flat_map snd].
    destruct x; try discriminate. cbn [ExtractViolations.extract_violations app].
    apply IHd; [exact Hrest|].
    clear -Hrest. destruct (dict_get d "deny") as [y|] eqn:E; [|now left].
    apply dict_get_in in E. rewrite forallb_forall in Hrest. specialize (Hrest _ E).
    destruct y; try discriminate. right. now eexists. }
  rewrite Hf. destruct Hd as [-> | [s ->]]; reflexivity.
Qed.

Lemma flat_items_hold_nothing (deny : list value) :
  forallb flat deny = true ->
  flat_map ExtractViolations.extract_violations deny = [].
Proof.
  induction deny as [|v deny IH]; [reflexivity|]. cbn [forallb flat_map].
  intros H. apply andb_prop in H as [Hv Hrest].
  now rewrite (flat_holds_nothing v Hv), IH.
Qed.

(** X17. For a value made of packages, each a mapping with a [deny] array
    of violations that are mappings of texts, [extract_violations]
    returns the violations of the packages one after the other, in the
    order of the document, each one once; the names of the packages do
    not matter. *)
Theorem extract_violations_of_packages (packages : list (string * list value)) :
  forallb (fun p => forallb flat (snd p)) packages = true ->
  ExtractViolations.extract_violations
    (VDict (map (fun p => (fst p, package (snd p))) packages))
  = concat (map snd packages).
Proof.
  intros H. cbn [ExtractViolations.extract_violations].
  assert (Hd : match dict_get (map (fun p => (fst p, package (snd p))) packages) "deny"
               with Some (VList deny) => deny | _ => [] end = []).
  { destruct (dict_get _ "deny") as [x|] eqn:E; [|reflexivity].
    apply dict_get_in, in_map_iff in E as [p [[= _ <-] _]]. reflexivity. }
  rewrite Hd. cbn [app]. clear Hd.
  induction packages as [|[name deny] packages IH]; [reflexivity|].
  cbn [forallb snd] in H. apply andb_prop in H as [Hdeny Hrest].
  cbn [map flat_map concat fst snd]. rewrite IH by exact Hrest. f_equal.
  unfold package. cbn [ExtractViolations.extract_violations dict_get].
  change (String.eqb "deny" "deny") with true. cbn [flat_map snd app].
  cbn [ExtractViolations.extract_violations].
  rewrite (flat_items_hold_nothing deny Hdeny). now rewrite !app_nil_r.
Qed.

Lemma extract_violations_of_packages_witness :
  ExtractViolations.extract_violations
    (VDict (map (fun p => (fst p, package (snd p)))
              [("s3", [s3_violation]); ("deny", [sox_violation])]))
  = concat (map snd [("s3", [s3_violation]); ("deny", [sox_violation])]).
Proof.
  apply (extract_violations_of_packages
           [("s3", [s3_violation]); ("deny", [sox_violation])]).
  reflexivity.
Defined.

(** *** What [json.load] returns is read back unchanged *)

Lemma dict_get_fresh {V} (d : list (string * V)) (key : string) :
  ~ In key (map fst d) -> dict_get d key = None.
Proof.
  induction d as [|[k x] d IH]; [reflexivity|]. simpl. intros H.
  destruct (String.eqb_spec k key) as [->|_]; [exfalso; apply H; now left|].
  apply IH. intros Hin. apply H. now right.
Qed.

Lemma dict_set_fresh {V} (d : list (string * V)) (key : string) (v : V) :
  ~ In key (map fst d) -> dict_set d key v = (d ++ [(key, v)])%list.
Proof.
  induction d as [|[k x] d IH]; [reflexivity|]. simpl. intros H.
  destruct (String.eqb_spec k key) as [->|_]; [exfalso; apply H; now left|].
  f_equal. apply IH. intros Hin. apply H. now right.
Qed.

Lemma dict_set_keys {V} (d : list (string * V)) (key : string) (v : V) :
  map fst (dict_set d key v) = map fst d \/
  (~ In key (map fst d) /\ map fst (dict_set d key v) = (map fst d ++ [key])%list).
Proof.
  induction d as [|[k x] d IH]; simpl.
  - right. split; [tauto | reflexivity].
  - destruct (String.eqb_spec k key) as [->|Hne]; [now left|].
    destruct IH as [IH | [Hfresh IH]]; simpl; rewrite IH; [now left|].
    right. split; [|reflexivity]. intros [H|H]; [congruence | tauto].
Qed.

Lemma dict_set_nodup {V} (d : list (string * V)) (key : string) (v : V) :
  NoDup (map fst d) -> NoDup (map fst (dict_set d key v)).
Proof.
  intros H. destruct (dict_set_keys d key v) as [-> | [Hfresh ->]]; [exact H|].
  apply NoDup_app; [exact H | repeat constructor; simpl; tauto |].
  intros k Hk [<- | []]. contradiction.
Qed.

Lemma dict_set_in {V} (d : list (string * V)) (key : string) (v : V) (k : string) (y : V) :
  In (k, y) (dict_set d key v) -> In (k, y) d \/ (k = key /\ y = v).
Proof.
  induction d as [|[k' x] d IH]; simpl.
  - intros [[= <- <-] | []]. now right.
  - destruct (String.eqb_spec k' key) as [->|_]; simpl.
    + intros [[= <- <-] | H]; [now right | left; now right].
    + intros [H | H]; [left; now left|].
      destruct (IH H) as [H' | H']; [left; now right | now right].
Qed.

Lemma fold_set_nodup (f : value -> value) (d acc : list (string * value)) :
  NoDup (map fst acc) -> NoDup (map fst (fold_left (set_with f) d acc)).
Proof.
  revert acc. induction d as [|kv d IH]; intros acc H; [exact H|].
  simpl. apply IH. now apply dict_set_nodup.
Qed.

Lemma fold_set_in (f : value -> value) (d acc : list (string * value)) (k : string) (y : value) :
  In (k, y) (fold_left (set_with f) d acc) ->
  In (k, y) acc \/ exists x, In (k, x) d /\ y = f x.
Proof.
  revert acc. induction d as [|[k' x'] d IH]; intros acc H; [now left|].
  simpl in H. destruct (IH _ H) as [Hacc | [x [Hin ->]]].
  - unfold set_with in Hacc. cbn [fst snd] in Hacc.
    destruct (dict_set_in _ _ _ _ _ Hacc) as [Hold | [-> ->]]; [now left|].
    right. exists x'. split; [now left | reflexivity].
  - right. exists x. split; [now right | reflexivity].
Qed.

Lemma fold_set_fixed (f : value -> value) (d acc : list (string * value)) :
  NoDup (map fst (acc ++ d)) ->
  (forall k x, In (k, x) d -> f x = x) ->
  fold_left (set_with f) d acc = (acc ++ d)%list.
Proof.
  revert acc. induction d as [|[k x] d IH]; intros acc Hnd Hfix.
  - now rewrite app_nil_r.
  - simpl. unfold set_with at 2. cbn [fst snd].
    rewrite (Hfix k x) by now left.
    rewrite dict_set_fresh.
    + rewrite IH; [now rewrite <- app_assoc | now rewrite <- app_assoc |].
      intros k' x' Hin. apply (Hfix k' x'). now right.
    + rewrite map_app in Hnd. apply NoDup_remove_2 in Hnd.
      intros Hin. apply Hnd. apply in_or_app. now left.
Qed.

Lemma loaded_dict (d : list (string * value)) :
  loaded (VDict d) = VDict (fold_left (set_with loaded) d []).
Proof. reflexivity. Qed.

Lemma map_fixed {A} (f : A -> A) (l : list A) :
  map f l = l <-> Forall (fun x => f x = x) l.
Proof.
  induction l as [|x l IH]; simpl.
  - split; [constructor | reflexivity].
  - split.
    + intros [= Hx Hl]. constructor; [exact Hx | now apply IH].
    + intros H. inversion H as [|? ? Hx Hl]; subst.
      rewrite Hx. f_equal. now apply IH.
Qed.

Lemma loaded_idempotent (v : value) : loaded (loaded v) = loaded v.
Proof.
  induction v as [ | | | | l IH | d IH] using value_nested_ind; try reflexivity.
  - cbn [loaded]. f_equal. rewrite map_map. apply map_ext_in.
    rewrite Forall_forall in IH. exact IH.
  - rewrite loaded_dict.
    set (d' := fold_left (set_with loaded) d []).
    rewrite loaded_dict. f_equal.
    rewrite (fold_set_fixed loaded d' []); [reflexivity | |].
    + cbn [app]. apply fold_set_nodup. constructor.
    + intros k y Hin. apply fold_set_in in Hin as [[] | [x [Hx ->]]].
      rewrite Forall_forall in IH. exact (IH (k, x) Hx).
Qed.

Lemma loaded_items (l : list value) :
  loaded (VList l) = VList l -> Forall (fun x => loaded x = x) l.
Proof. cbn [loaded]. intros [= H]. now apply map_fixed. Qed.

Lemma loaded_values (d : list (string * value)) (k : string) (x : value) :
  loaded (VDict d) = VDict d -> In (k, x) d -> loaded x = x.
Proof.
  rewrite loaded_dict. intros [= H] Hin. rewrite <- H in Hin.
  apply fold_set_in in Hin as [[] | [x0 [_ ->]]]. apply loaded_idempotent.
Qed.

Lemma extracted_are_loaded (obj : value) :
  loaded obj = obj ->
  Forall (fun v => loaded v = v) (ExtractViolations.extract_violations obj).
Proof.
  induction obj as [ | | | | l IH | d IH] using value_nested_ind;
    intros Hobj; try constructor.
  - simpl. apply loaded_items in Hobj.
    induction IH as [|x l Hx _ IHl]; [constructor|].
    inversion Hobj; subst. simpl. apply Forall_app. split; auto.
  - cbn [ExtractViolations.extract_violations]. apply Forall_app. split.
    + destruct (dict_get d "deny") as [[| | | | deny |]|] eqn:E; try constructor.
      apply dict_get_in in E. apply loaded_items.
      exact (loaded_values d _ _ Hobj E).
    + pose proof (loaded_values d) as Hvalues. specialize (fun k x => Hvalues k x Hobj).
      clear Hobj. induction IH as [|[k x] d Hx _ IHd]; [constructor|].
      simpl. apply Forall_app. split.
      * apply Hx. apply (Hvalues k x). now left.
      * apply IHd. intros k' x' Hin. apply (Hvalues k' x'). now right.
Qed.

Lemma item_loaded (x : value) (key : string) (v : value) :
  ExtractViolations.item x key = inr v -> loaded x = x -> loaded v = v.
Proof.
  destruct x as [| | | | |d]; try discriminate. cbn [ExtractViolations.item].
  destruct (dict_get d key) as [y|] eqn:E; [|discriminate].
  intros [= <-] Hx. apply dict_get_in in E. exact (loaded_values d _ _ Hx E).
Qed.

Lemma first_loaded (x v : value) :
  ExtractViolations.first x = inr v -> loaded x = x -> loaded v = v.
Proof.
  destruct x as [| | | s | l |]; try discriminate.
  - destruct s; [discriminate|]. intros [= <-] _. reflexivity.
  - destruct l as [|a l]; [discriminate|]. intros [= <-] Hx.
    apply loaded_items in Hx. now inversion Hx.
Qed.

Lemma item_denied (x : value) (key : string) (y v : value) :
  ExtractViolations.item x key = inr y -> denied y v -> denied x v.
Proof.
  destruct x as [| | | | |d]; try discriminate. cbn [ExtractViolations.item].
  destruct (dict_get d key) as [z|] eqn:E; [|discriminate].
  intros [= <-] H. apply dict_get_in in E. eapply denied_in_value; eauto.
Qed.

Lemma first_denied (x y v : value) :
  ExtractViolations.first x = inr y -> denied y v -> denied x v.
Proof.
  destruct x as [| | | s | l |]; try discriminate.
  - destruct s; [discriminate|]. intros [= <-] H. inversion H.
  - destruct l as [|a l]; [discriminate|]. intros [= <-] H.
    eapply denied_in_item; [now left | exact H].
Qed.

Lemma result_value_of (data v : value) :
  ExtractViolations.result_value data = inr v ->
  (loaded data = data -> loaded v = v) /\
  (forall x, denied v x -> denied data x).
Proof.
  unfold ExtractViolations.result_value, ExtractViolations.and_then.
  destruct (ExtractViolations.item data "result") as [|r1] eqn:E1; [discriminate|].
  destruct (ExtractViolations.first r1) as [|r2] eqn:E2; [discriminate|].
  destruct (ExtractViolations.item r2 "expressions") as [|r3] eqn:E3; [discriminate|].
  destruct (ExtractViolations.first r3) as [|r4] eqn:E4; [discriminate|].
  intros E5. split.
  - intros H. apply (item_loaded _ _ _ E5), (first_loaded _ _ E4),
      (item_loaded _ _ _ E3), (first_loaded _ _ E2), (item_loaded _ _ _ E1), H.
  - intros x H. apply (item_denied _ _ _ _ E1), (first_denied _ _ _ E2),
      (item_denied _ _ _ _ E3), (first_denied _ _ _ E4), (item_denied _ _ _ _ E5), H.
Qed.

Lemma output_of_violations (data output : value) :
  ExtractViolations.output_of data = inr output ->
  exists violations,
    output = VDict [("violations", VList violations)] /\
    (loaded data = data -> Forall (fun v => loaded v = v) violations) /\
    (forall v, In v violations -> denied data v).
Proof.
  unfold ExtractViolations.output_of, ExtractViolations.and_then.
  destruct (ExtractViolations.contains data "result") as [|has]; [discriminate|].
  assert (Hnone : exists violations : list value,
             VDict [("violations", VList [])] = VDict [("violations", VList violations)] /\
             (loaded data = data -> Forall (fun v => loaded v = v) violations) /\
             (forall v, In v violations -> denied data v)).
  { exists []. split; [reflexivity|]. split; [constructor | intros v []]. }
  destruct has; [|intros [= <-]; exact Hnone].
  destruct (ExtractViolations.item data "result") as [|r]; [discriminate|].
  destruct (ExtractViolations.lift (len r)) as [|n]; [discriminate|].
  destruct (0 <? n); [|intros [= <-]; exact Hnone].
  destruct (ExtractViolations.result_value data) as [|v] eqn:E; [discriminate|].
  intros [= <-]. destruct (result_value_of data v E) as [Hl Hd].
  eexists. split; [reflexivity|]. split.
  - intros H. apply extracted_are_loaded. now apply Hl.
  - intros x Hx. apply Hd. now apply extracted_is_denied.
Qed.

(** X18. The script and the compliance report fit together: whenever
    [main] of extract-violations.py ends normally, what it has printed
    is a mapping with the one key [violations]; every violation in it is
    an item of a [deny] array of the document read; and
    [load_violations] applied to a file holding the printed document
    returns these violations, in order, without a line on the error
    stream. *)
Theorem extracted_violations_are_loaded (stdin : content) (output : value)
    (w : world) (path : string) :
  ExtractViolations.main stdin = (Returned, ExtractViolations.Stdout output) ->
  exists document violations,
    stdin = Json document /\
    output = VDict [("violations", VList violations)] /\
    (forall v, In v violations -> denied (loaded document) v) /\
    ComplianceReporter.load_violations (with_document w path output) path
    = (VList violations, with_document w path output).
Proof.
  unfold ExtractViolations.main, ExtractViolations.and_then.
  destruct (ExtractViolations.load stdin) as [|data] eqn:Eload; [discriminate|].
  destruct (ExtractViolations.output_of data) as [|out] eqn:Eout; [discriminate|].
  intros [= <-].
  destruct stdin as [| document | | |]; try discriminate.
  cbn [ExtractViolations.load] in Eload. injection Eload as <-.
  destruct (output_of_violations _ _ Eout) as [vs [-> [Hl Hd]]].
  exists document, vs. repeat split; [exact Hd|].
  specialize (Hl (loaded_idempotent document)).
  unfold ComplianceReporter.load_violations, json_load, with_document, write_file.
  cbn [files]. rewrite dict_get_set_same.
  change (loaded (VDict [("violations", VList vs)]))
    with (VDict [("violations", VList (map loaded vs))]).
  apply map_fixed in Hl. rewrite Hl. reflexivity.
Qed.

Lemma extracted_violations_are_loaded_witness :
  exists document violations,
    Json (opa_output two_packages) = Json document /\
    VDict [("violations", VList [s3_violation; sox_violation])]
    = VDict [("violations", VList violations)] /\
    (forall v, In v violations -> denied (loaded document) v) /\
    ComplianceReporter.load_violations
      (with_document sample_world "violations.json"
         (VDict [("violations", VList [s3_violation; sox_violation])]))
      "violations.json"
    = (VList violations,
       with_document sample_world "violations.json"
         (VDict [("violations", VList [s3_violation; sox_violation])])).
Proof.
  apply (extracted_violations_are_loaded (Json (opa_output two_packages))
           (VDict [("violations", VList [s3_violation; sox_violation])])
           sample_world "violations.json").
  reflexivity.
Defined.

(** ** [generate] of cli.py on a document without violations *)

Lemma extract_without_violations (data : value) :
  without_violations data = true -> cli.extract data = Ok [].
Proof.
  destruct data as [| | | | |d]; try reflexivity.
  unfold without_violations, cli.extract.
  destruct (dict_get d "results"); [discriminate|].
  destruct (dict_get d "deny"); [discriminate | reflexivity].
Qed.

(** X19. [generate] of cli.py takes violations from the [results] of a
    conftest document or from a [deny] array only.  On any other
    document, the [violations] format of the other tools and a top-level
    array included, it ends normally, prints nothing on the error stream
    and writes, for each format asked for, the report of an empty list:
    a zero summary and empty groups, and in the CSV file the one line
    [No violations found]. *)
Theorem cli_reports_nothing_without_results (w : world) (document : value)
    (input_file output_dir : string) (formats : list string)
    (scan_target : option string) :
  dict_get (files w) input_file = Some (Json document) ->
  without_violations (loaded document) = true ->
  cli.generate w input_file output_dir formats scan_target
  = (Returned,
     written (cli.wants formats "csv") (csv_path w output_dir) empty_csv
       (written (cli.wants formats "json") (json_path w output_dir)
          (empty_json w (cli_metadata scan_target))
          (written (cli.wants formats "html") (html_path w output_dir)
             (empty_html w (cli_metadata scan_target)) w))).
Proof.
  intros Hfile Hnone. unfold cli.generate, exists_file, dict_has, json_load.
  rewrite Hfile. cbn [negb]. unfold cli.reports.
  rewrite (extract_without_violations _ Hnone).
  fold (cli_metadata scan_target). unfold cli.report, written.
  destruct (cli.wants formats "html"), (cli.wants formats "json"),
    (cli.wants formats "csv"); reflexivity.
Qed.

Lemma cli_reports_nothing_without_results_witness :
  cli.generate sample_world "violations.json" "reports" ["json"; "csv"] None
  = (Returned,
     written (cli.wants ["json"; "csv"] "csv") (csv_path sample_world "reports") empty_csv
       (written (cli.wants ["json"; "csv"] "json") (json_path sample_world "reports")
          (empty_json sample_world (cli_metadata None))
          (written (cli.wants ["json"; "csv"] "html") (html_path sample_world "reports")
             (empty_html sample_world (cli_metadata None)) sample_world))).
Proof.
  apply (cli_reports_nothing_without_results sample_world
           (VDict [("violations", VList three_s3_violations)])
           "violations.json" "reports" ["json"; "csv"] None); reflexivity.
Defined.

(** ** The clouds and the policies of the summaries *)

Lemma summarizable_policy (v : value) :
  summarizable v = true ->
  exists d,
    v = VDict d /\ hashable (severity_of v) = true /\
    get v "severity" (VStr "UNKNOWN") = Ok (severity_of v) /\
    get v "policy" (VStr EmptyString) = Ok (VStr (policy_text v)) /\
    exists policy,
      get v "policy" (VStr "unknown") = Ok (VStr policy) /\
      str_startswith policy "aws." = str_startswith (policy_text v) "aws." /\
      str_startswith policy "azure." = str_startswith (policy_text v) "azure.".
Proof.
  unfold summarizable. intros H. apply andb_prop in H as [Hv Hs].
  destruct v as [| | | |l|d]; try discriminate.
  exists d. repeat split; [exact Hs|..].
  - cbn. simpl in Hv.
    destruct (dict_get d "policy") as [[| | |s| |]|]; try discriminate; reflexivity.
  - cbn. simpl in Hv.
    destruct (dict_get d "policy") as [[| | |s| |]|]; try discriminate;
      eexists; repeat split; reflexivity.
Qed.

Lemma html_counts_cloud (acc : HTMLReportGenerator.counts) (v : value) :
  summarizable v = true ->
  exists acc',
    HTMLReportGenerator.count_violation acc v = Ok acc' /\
    HTMLReportGenerator.cloud_counts acc'
    = counted_cloud (HTMLReportGenerator.cloud_counts acc) v.
Proof.
  intros H. destruct (summarizable_policy v H) as [d [-> [Hh [Hsev [Hpol _]]]]].
  unfold HTMLReportGenerator.count_violation.
  rewrite Hsev. cbn [bind]. unfold count_up. rewrite Hh. cbn [bind].
  rewrite Hpol. cbn [bind startswith]. unfold counted_cloud, cloud_of.
  destruct (str_startswith (policy_text (VDict d)) "aws.").
  - unfold HTMLReportGenerator.count_cloud. cbn [bind str_split].
    destruct (_ >? 2); eexists; split; reflexivity.
  - cbn [bind]. destruct (str_startswith (policy_text (VDict d)) "azure.").
    + unfold HTMLReportGenerator.count_cloud. cbn [bind str_split].
      destruct (_ >? 2); eexists; split; reflexivity.
    + eexists; split; reflexivity.
Qed.

Lemma html_clouds_loop (vs : list value) :
  forallb summarizable vs = true ->
  forall acc,
    exists acc',
      for_each vs HTMLReportGenerator.count_violation acc = Ok acc' /\
      HTMLReportGenerator.cloud_counts acc'
      = fold_left counted_cloud vs (HTMLReportGenerator.cloud_counts acc).
Proof.
  induction vs as [|v vs IH]; intros H acc.
  - exists acc. split; reflexivity.
  - simpl in H. apply andb_prop in H as [Hv Hvs].
    destruct (html_counts_cloud acc v Hv) as [acc1 [E1 Hc]].
    destruct (IH Hvs acc1) as [acc' [E2 Hc']].
    exists acc'. cbn [for_each fold_left]. rewrite E1. cbn [bind].
    split; [exact E2|]. now rewrite Hc', Hc.
Qed.

Lemma json_counts_cloud (acc : json_summary) (v : value) :
  summarizable v = true ->
  exists acc',
    JSONReportGenerator.count_violation acc v = Ok acc' /\
    json_by_cloud acc' = counted_cloud (json_by_cloud acc) v /\
    counter_total (by_policy acc') = counter_total (by_policy acc) + 1.
Proof.
  intros H.
  destruct (summarizable_policy v H)
    as [d [-> [Hh [Hsev [_ [policy [Hpol [Haws Hazure]]]]]]]].
  unfold JSONReportGenerator.count_violation.
  rewrite Hsev. cbn [bind]. unfold count_up at 1. rewrite Hh. cbn [bind].
  rewrite Hpol. cbn [bind]. unfold count_up. cbn [hashable bind startswith].
  unfold counted_cloud, cloud_of. rewrite Haws, Hazure.
  destruct (str_startswith (policy_text (VDict d)) "aws."); cbn [bind].
  - eexists. repeat split. cbn [by_policy]. apply counter_total_set.
  - destruct (str_startswith (policy_text (VDict d)) "azure.").
    + eexists. repeat split. cbn [by_policy]. apply counter_total_set.
    + eexists. repeat split. cbn [by_policy]. apply counter_total_set.
Qed.

Lemma json_clouds_loop (vs : list value) :
  forallb summarizable vs = true ->
  forall acc,
    exists acc',
      for_each vs JSONReportGenerator.count_violation acc = Ok acc' /\
      json_by_cloud acc' = fold_left counted_cloud vs (json_by_cloud acc) /\
      counter_total (by_policy acc')
      = counter_total (by_policy acc) + Z.of_nat (List.length vs).
Proof.
  induction vs as [|v vs IH]; intros H acc.
  - exists acc. repeat split. cbn [List.length]. lia.
  - simpl in H. apply andb_prop in H as [Hv Hvs].
    destruct (json_counts_cloud acc v Hv) as [acc1 [E1 [Hc Hp]]].
    destruct (IH Hvs acc1) as [acc' [E2 [Hc' Hp']]].
    exists acc'. cbn [for_each fold_left]. rewrite E1. cbn [bind].
    split; [exact E2|]. split; [now rewrite Hc', Hc|].
    rewrite Hp', Hp. cbn [List.length]. lia.
Qed.

Lemma count_of_tally (d : list (string * Z)) (cloud key : string) :
  count_of (tally d cloud) key
  = if String.eqb cloud key then count_of d key + 1 else count_of d key.
Proof.
  unfold count_of, tally. destruct (String.eqb_spec cloud key) as [->|Hne].
  - now rewrite dict_get_set_same.
  - rewrite dict_get_set_other by congruence. reflexivity.
Qed.

Lemma two_prefixes (s : string) :
  str_startswith s "aws." = true -> str_startswith s "azure." = false.
Proof.
  intros H. apply str_startswith_inv in H as [rest ->].
  destruct (str_startswith ("aws." ++ rest) "azure.") eqn:E; [|reflexivity].
  apply str_startswith_inv in E as [rest' E]. discriminate.
Qed.

Lemma with_prefix_cons (prefix : string) (v : value) (vs : list value) :
  with_prefix prefix (v :: vs)
  = (if str_startswith (policy_text v) prefix then 1 else 0) + with_prefix prefix vs.
Proof.
  unfold with_prefix. cbn [filter].
  destruct (str_startswith (policy_text v) prefix); cbn [List.length]; lia.
Qed.

Lemma clouds_counted (vs : list value) (d : list (string * Z)) :
  count_of (fold_left counted_cloud vs d) "AWS" = count_of d "AWS" + with_prefix "aws." vs /\
  count_of (fold_left counted_cloud vs d) "Azure"
  = count_of d "Azure" + with_prefix "azure." vs /\
  forall key, key <> "AWS" -> key <> "Azure" ->
    dict_get (fold_left counted_cloud vs d) key = dict_get d key.
Proof.
  revert d. induction vs as [|v vs IH]; intros d.
  - unfold with_prefix. cbn. repeat split; lia.
  - cbn [fold_left]. destruct (IH (counted_cloud d v)) as [Ha [Hz Hk]].
    rewrite Ha, Hz, !with_prefix_cons. split; [|split].
    + unfold counted_cloud, cloud_of.
      destruct (str_startswith (policy_text v) "aws.") eqn:Eaws.
      * rewrite count_of_tally. change (String.eqb "AWS" "AWS") with true. cbv iota. lia.
      * destruct (str_startswith (policy_text v) "azure.").
        -- rewrite count_of_tally. change (String.eqb "Azure" "AWS") with false. cbv iota. lia.
        -- lia.
    + unfold counted_cloud, cloud_of.
      destruct (str_startswith (policy_text v) "aws.") eqn:Eaws.
      * rewrite (two_prefixes _ Eaws), count_of_tally.
        change (String.eqb "AWS" "Azure") with false. cbv iota. lia.
      * destruct (str_startswith (policy_text v) "azure.").
        -- rewrite count_of_tally. change (String.eqb "Azure" "Azure") with true. cbv iota. lia.
        -- lia.
    + intros key H1 H2. rewrite Hk by assumption. unfold counted_cloud.
      destruct (cloud_of v) as [cloud|] eqn:Ec; [|reflexivity].
      unfold tally. apply dict_get_set_other.
      unfold cloud_of in Ec.
      destruct (str_startswith (policy_text v) "aws."); [injection Ec as <-; exact H1|].
      destruct (str_startswith (policy_text v) "azure.");
        [injection Ec as <-; exact H2 | discriminate].
Qed.

(** X20. The HTML and the JSON summary of a list of violations agree on
    the clouds: [by_cloud] is the same dict in both, its count for [AWS]
    is the number of violations whose policy starts with [aws.], its
    count for [Azure] the number of those starting with [azure.], and it
    has no other key; a violation of another or of no policy is counted
    under no cloud.  In the JSON summary the counts of [by_policy] add up
    to [total_violations]. *)
Theorem summaries_agree_on_clouds (violations : list value) :
  forallb summarizable violations = true ->
  exists h j,
    HTMLReportGenerator._generate_summary violations = Ok h /\
    JSONReportGenerator._generate_summary violations = Ok j /\
    by_cloud h = json_by_cloud j /\
    count_of (by_cloud h) "AWS" = with_prefix "aws." violations /\
    count_of (by_cloud h) "Azure" = with_prefix "azure." violations /\
    (forall key, key <> "AWS" -> key <> "Azure" -> dict_get (by_cloud h) key = None) /\
    counter_total (by_policy j) = total_violations j.
Proof.
  intros H. destruct violations as [|v vs].
  - do 2 eexists. repeat split.
  - unfold HTMLReportGenerator._generate_summary, JSONReportGenerator._generate_summary.
    destruct (html_clouds_loop (v :: vs) H HTMLReportGenerator.initial_counts)
      as [acc [-> Hc]].
    destruct (json_clouds_loop (v :: vs) H
                {| total_violations := Z.of_nat (List.length (v :: vs));
                   by_severity := []; by_policy := []; json_by_cloud := [] |})
      as [j [Ej [Hj Hp]]].
    destruct (json_loop (v :: vs) H
                {| total_violations := Z.of_nat (List.length (v :: vs));
                   by_severity := []; by_policy := []; json_by_cloud := [] |})
      as [j' [Ej' [Ht _]]].
    rewrite Ej in Ej'. injection Ej' as <-.
    cbn [bind]. do 2 eexists. split; [reflexivity|]. split; [exact Ej|].
    cbn [by_cloud]. rewrite Hc, Hj.
    cbn [HTMLReportGenerator.cloud_counts HTMLReportGenerator.initial_counts json_by_cloud].
    destruct (clouds_counted (v :: vs) []) as [Ha [Hz Hk]].
    split; [reflexivity|]. split; [exact Ha|]. split; [exact Hz|].
    split; [intros key H1 H2; now rewrite Hk|].
    rewrite Hp, Ht. reflexivity.
Qed.

Lemma summaries_agree_on_clouds_witness :
  exists h j,
    HTMLReportGenerator._generate_summary [info_violation; critical_violation; sox_violation]
      = Ok h /\
    JSONReportGenerator._generate_summary [info_violation; critical_violation; sox_violation]
      = Ok j /\
    by_cloud h = json_by_cloud j /\
    count_of (by_cloud h) "AWS"
      = with_prefix "aws." [info_violation; critical_violation; sox_violation] /\
    count_of (by_cloud h) "Azure"
      = with_prefix "azure." [info_violation; critical_violation; sox_violation] /\
    (forall key, key <> "AWS" -> key <> "Azure" -> dict_get (by_cloud h) key = None) /\
    counter_total (by_policy j) = total_violations j.
Proof.
  apply (summaries_agree_on_clouds [info_violation; critical_violation; sox_violation]).
  reflexivity.
Defined.

(** X21. What extract-violations.py prints.  On the output of [opa eval]
    for a query with value [v] it ends normally and prints the
    violations extracted from [v], under the key [violations]; on a
    mapping without [result], or whose [result] is empty, it prints an
    empty list of violations; on an input that is not JSON, or whose
    first result has no [expressions], it prints the error on the error
    stream and exits with code 1. *)
Theorem script_prints_the_extraction :
  (forall v,
     ExtractViolations.main (Json (opa_output v))
     = (Returned,
        ExtractViolations.Stdout
          (VDict [("violations",
                   VList (ExtractViolations.extract_violations (loaded v)))]))) /\
  (forall document d,
     loaded document = VDict d ->
     dict_get d "result" = None \/ dict_get d "result" = Some (VList []) ->
     ExtractViolations.main (Json document)
     = (Returned, ExtractViolations.Stdout (VDict [("violations", VList [])]))) /\
  (forall stdin,
     (forall document, stdin <> Json document) ->
     ExtractViolations.main stdin
     = (SysExit 1, ExtractViolations.Stderr (ExtractViolations.Python JSONDecodeError))) /\
  (forall document d r rest,
     loaded document = VDict d ->
     dict_get d "result" = Some (VList (VDict r :: rest)) ->
     dict_get r "expressions" = None ->
     ExtractViolations.main (Json document)
     = (SysExit 1, ExtractViolations.Stderr (ExtractViolations.Python KeyError))).
Proof.
  split; [reflexivity|]. split; [|split].
  - intros document d Hd Hr.
    unfold ExtractViolations.main. cbn [ExtractViolations.load ExtractViolations.and_then].
    rewrite Hd. unfold ExtractViolations.output_of.
    cbn [ExtractViolations.contains ExtractViolations.and_then ExtractViolations.item].
    unfold dict_has. destruct Hr as [-> | ->]; reflexivity.
  - intros stdin Hs. destruct stdin as [| document | | |]; try reflexivity.
    now destruct (Hs document).
  - intros document d r rest Hd Hr He.
    unfold ExtractViolations.main. cbn [ExtractViolations.load ExtractViolations.and_then].
    rewrite Hd. unfold ExtractViolations.output_of, ExtractViolations.result_value.
    cbn [ExtractViolations.contains ExtractViolations.and_then ExtractViolations.item].
    unfold dict_has. rewrite Hr.
    cbn [ExtractViolations.and_then ExtractViolations.lift len ExtractViolations.first
         ExtractViolations.item List.length].
    rewrite He.
    destruct (0 <? Z.of_nat (S (List.length rest))) eqn:E; [reflexivity|].
    apply Z.ltb_ge in E. lia.
Qed.

Lemma script_prints_the_extraction_witness :
  ExtractViolations.main (Json (opa_output two_packages))
  = (Returned,
     ExtractViolations.Stdout (VDict [("violations", VList [s3_violation; sox_violation])])) /\
  ExtractViolations.main (Json (VDict [("result", VList [])]))
  = (Returned, ExtractViolations.Stdout (VDict [("violations", VList [])])) /\
  ExtractViolations.main (NotJson "text")
  = (SysExit 1, ExtractViolations.Stderr (ExtractViolations.Python JSONDecodeError)) /\
  ExtractViolations.main (Json no_expressions)
  = (SysExit 1, ExtractViolations.Stderr (ExtractViolations.Python KeyError)).
Proof.
  destruct script_prints_the_extraction as [H1 [H2 [H3 H4]]].
  split; [exact (H1 two_packages)|]. split; [|split].
  - apply (H2 (VDict [("result", VList [])]) [("result", VList [])]);
      [reflexivity | now right].
  - apply (H3 (NotJson "text")). discriminate.
  - apply (H4 no_expressions [("result", VList [VDict []])] [] []); reflexivity.
Defined.

(** ** The blocks of a control in the compliance page *)

(** X22. In the page of [generate_html_report] every control that
    [_evaluate_control] returned shows exactly one block: a passing
    control its evidence, any other control its findings, one for each
    mapped violation; the findings have the class [critical] exactly
    when the control fails, the threshold [score < 50] of the page
    separating the score of FAIL from the two others. *)
Theorem page_blocks_follow_status (cid : string) (c : control)
    (violations : list value) (r : control_result) :
  ComplianceReporter._evaluate_control cid c violations = Ok r ->
  control_blocks r
  = match mapped_count c violations with
    | O => [Evidence ["No policy violations found for this control"]]
    | 1%nat | 2%nat => [Findings EmptyString (findings r)]
    | _ => [Findings "critical" (findings r)]
    end /\
  List.length (findings r)
  = (if String.eqb (status r) "PASS" then O else mapped_count c violations).
Proof.
  intros Hr.
  destruct (evaluate_control_inv c cid violations r Hr) as [_ [fs [Hfs ->]]].
  apply Forall2_length in Hfs. unfold mapped_count.
  destruct (filter (matches_control c) violations) as [|a [|b [|d rest]]] eqn:E;
    try (destruct fs as [|f1 [|f2 [|f3 fs]]]; try discriminate; split; reflexivity).
  assert (Hn : (Z.of_nat (List.length (a :: b :: d :: rest)) <=? 2) = false)
    by (apply Z.leb_gt; simpl List.length; lia).
  assert (H0 : (Z.of_nat (List.length (a :: b :: d :: rest)) =? 0) = false)
    by (apply Z.eqb_neq; simpl List.length; lia).
  rewrite H0, Hn.
  destruct fs as [|f1 fs]; [discriminate|]. split; [reflexivity|].
  cbn [findings status]. change (String.eqb "FAIL" "PASS") with false. cbv iota.
  now rewrite Hfs.
Qed.

Lemma page_blocks_follow_status_witness :
  control_blocks
    {| control_id := "SOX-404"; cr_title := title SOX_404;
       cr_description := description SOX_404; status := "FAIL"; score := 25;
       findings := map finding_text three_s3_violations; evidence := [] |}
  = match mapped_count SOX_404 three_s3_violations with
    | O => [Evidence ["No policy violations found for this control"]]
    | 1%nat | 2%nat => [Findings EmptyString (map finding_text three_s3_violations)]
    | _ => [Findings "critical" (map finding_text three_s3_violations)]
    end /\
  List.length (map finding_text three_s3_violations)
  = (if String.eqb "FAIL" "PASS" then O else mapped_count SOX_404 three_s3_violations).
Proof.
  apply (page_blocks_follow_status "SOX-404" SOX_404 three_s3_violations
           {| control_id := "SOX-404"; cr_title := title SOX_404;
              cr_description := description SOX_404; status := "FAIL"; score := 25;
              findings := map finding_text three_s3_violations; evidence := [] |}).
  reflexivity.
Defined.

(** ** The HTML and the JSON report are written whole *)

(** X23. The HTML and the JSON generator compute everything before they
    open their file.  On a list of violations they can count, the HTML
    generator writes one file, the page of the summary and of the groups
    of the list; when some violation cannot be counted (it is no
    mapping, its policy is no string or its severity cannot be a dict
    key) both raise and leave every file as it was, where the CSV
    generator leaves a partial file. *)
Theorem reports_are_written_whole (w : world) (output_dir : string)
    (violations : list value) (metadata : list (string * value)) :
  (forallb summarizable violations = true ->
   exists s grouped,
     HTMLReportGenerator._generate_summary violations = Ok s /\
     HTMLReportGenerator._group_violations violations = Ok grouped /\
     HTMLReportGenerator.generate w output_dir violations metadata
     = (Ok (html_path w output_dir),
        write_file w (html_path w output_dir)
          (PolicyHtml (display (now w)) s grouped metadata))) /\
  (forallb summarizable violations = false ->
   exists e e',
     HTMLReportGenerator.generate w output_dir violations metadata = (Raise e, w) /\
     JSONReportGenerator.generate w output_dir violations metadata = (Raise e', w)).
Proof.
  split; intros H.
  - destruct (html_summary_ok violations H) as [s [Hs _]].
    exists s. eexists. split; [exact Hs|].
    unfold HTMLReportGenerator.generate, HTMLReportGenerator._group_violations.
    rewrite Hs, (group_loop violations (summarizable_groupable violations H)).
    split; reflexivity.
  - unfold HTMLReportGenerator.generate, JSONReportGenerator.generate.
    destruct (HTMLReportGenerator._generate_summary violations) as [s|e] eqn:Eh.
    { apply html_summary_summarizable in Eh. congruence. }
    destruct (JSONReportGenerator._generate_summary violations) as [s|e'] eqn:Ej.
    { apply json_summary_summarizable in Ej. congruence. }
    exists e, e'. split; reflexivity.
Qed.

Lemma reports_are_written_whole_witness :
  (exists s grouped,
     HTMLReportGenerator._generate_summary [info_violation; critical_violation] = Ok s /\
     HTMLReportGenerator._group_violations [info_violation; critical_violation]
     = Ok grouped /\
     HTMLReportGenerator.generate sample_world "reports"
       [info_violation; critical_violation] []
     = (Ok (html_path sample_world "reports"),
        write_file sample_world (html_path sample_world "reports")
          (PolicyHtml (display (now sample_world)) s grouped []))) /\
  (exists e e',
     HTMLReportGenerator.generate sample_world "reports"
       [s3_violation; VStr "text"] [] = (Raise e, sample_world) /\
     JSONReportGenerator.generate sample_world "reports"
       [s3_violation; VStr "text"] [] = (Raise e', sample_world)).
Proof.
  split.
  - apply (reports_are_written_whole sample_world "reports"
             [info_violation; critical_violation] []). reflexivity.
  - apply (reports_are_written_whole sample_world "reports"
             [s3_violation; VStr "text"] []). reflexivity.
Defined.
